(** * EMA parameter tracking of python-efficientnet-jax

    A shallow embedding of [jeffnet/linen/ema_state.py] (the [EmaState]
    dataclass with [create] and [update]) and of the three places of
    [tf_linen_train.py] that use it ([create_train_state], [train_step],
    [eval_step_ema]).

    - Python floats and the elements of float64 arrays are IEEE binary64
      numbers: Rocq's primitive [float], whose [*], [+], [-] and [=?] are
      the IEEE operations Python performs.
    - An array is its shape and its elements in row-major order; [a * c]
      with a Python float [c] is element-wise, [a + b] follows numpy's
      broadcasting rule.
    - A parameter tree (a pytree) is a leaf, [None], or a dict from string
      keys to pytrees.  A dict is kept as its items in increasing key order,
      the order in which [jax] flattens a dict.
    - [jax.tree_map] and [jax.tree_multimap] are the library functions of
      that name: flatten, apply the function leaf by leaf, unflatten.
    - The code is written once, over a monad and over the type of the
      leaves.  With leaves that are array values and the exception monad it
      is the functional reading; with leaves that are references into a
      store of mutable arrays it is the reading in which object identity and
      in-place mutation are visible.
    - [create] is also given on a store in which the dicts are objects
      too, the reading in which a copy of a dict differs from the dict.
    - The rest of [tf_linen_train.py] up to the training loop, and the
      configurations of [train_configs], follow; a configuration is a
      [ConfigDict] whose entries may not be set. *)

From Stdlib Require Import Floats ZArith List String Bool Lia OrderedTypeEx.
From stdpp Require Import base option list strings sorting gmap.

Set Warnings "-inexact-float,-register-all".
Local Open Scope string_scope.

(** ** Exceptions *)

Inductive exn_class :=
| TypeError | ValueError | AttributeError | IndexError
| NotPython.   (* no exception of Python: a situation outside the embedding *)

(** The exceptions the modelled code can raise, by cause. *)
Inductive exn :=
| TreeStructureMismatch   (* jax: the second tree does not have the first one's structure *)
| BroadcastError          (* numpy: operands could not be broadcast together *)
| UnsupportedOperand      (* float * dict, float * None *)
| ArityError              (* f() takes n positional arguments but m were given *)
| NoSuchAttribute         (* object has no attribute *)
| IndexOutOfBounds        (* index is out of bounds for the array *)
| DanglingReference       (* a reference outside the store: no Python program has one *)
| Unmodelled.             (* arguments of a dynamic type the embedding does not cover *)

Definition class_of (e : exn) : exn_class :=
  match e with
  | TreeStructureMismatch => ValueError
  | BroadcastError => ValueError
  | UnsupportedOperand => TypeError
  | ArityError => TypeError
  | NoSuchAttribute => AttributeError
  | IndexOutOfBounds => IndexError
  | DanglingReference => NotPython
  | Unmodelled => NotPython
  end.

Inductive result (X : Type) :=
| Ok (x : X)
| Raise (e : exn).
Arguments Ok {X} x.
Arguments Raise {X} e.

Definition is_ok {X} (r : result X) : bool :=
  match r with Ok _ => true | Raise _ => false end.

#[global] Instance result_ret : MRet result := fun _ x => Ok x.
#[global] Instance result_bind : MBind result := fun _ _ f r =>
  match r with Ok x => f x | Raise e => Raise e end.
#[global] Instance result_throw : MThrow exn result := fun _ e => Raise e.

(** ** Arrays *)

Record ndarray := NdArray { shape : list nat; data : list float }.

(** A Python float used as a leaf is a 0-dimensional array. *)
Definition scalar (x : float) : ndarray := NdArray [] [x].

Definition numel (s : list nat) : nat := foldr Nat.mul 1 s.

(** What every array satisfies: as many elements as its shape says. *)
Definition wf_array (a : ndarray) : Prop := length (data a) = numel (shape a).

(** [a * c] and [c * a] for an array [a] and a Python float [c]. *)
Definition mul_scalar (a : ndarray) (c : float) : ndarray :=
  NdArray (shape a) (map (fun x => (x * c)%float) (data a)).
Definition rmul_scalar (c : float) (a : ndarray) : ndarray :=
  NdArray (shape a) (map (fun x => (c * x)%float) (data a)).

(** numpy broadcasting.  Shapes are aligned at their last dimension, the
    shorter one is padded with 1s in front; two dimensions are compatible
    when they are equal or one of them is 1. *)
Definition pad_shape (n : nat) (s : list nat) : list nat :=
  replicate (n - length s) 1 ++ s.

Fixpoint broadcast_dims (s t : list nat) : option (list nat) :=
  match s, t with
  | [], [] => Some []
  | d :: s', e :: t' =>
      match broadcast_dims s' t' with
      | Some r =>
          if (d =? e)%nat then Some (d :: r)
          else if (d =? 1)%nat then Some (e :: r)
          else if (e =? 1)%nat then Some (d :: r)
          else None
      | None => None
      end
  | _, _ => None
  end.

Definition broadcast_shapes (s t : list nat) : option (list nat) :=
  let n := length s `max` length t in
  broadcast_dims (pad_shape n s) (pad_shape n t).

(** [chunks n k xs]: the first [k] consecutive blocks of [n] elements. *)
Fixpoint chunks {X} (n k : nat) (xs : list X) : list (list X) :=
  match k with
  | 0 => []
  | S k' => take n xs :: chunks n k' (drop n xs)
  end.

(** The elements of an array of shape [s] seen at shape [r] (same rank,
    every dimension of [s] equal to that of [r] or 1): a dimension of size
    1 is repeated. *)
Fixpoint broadcast_data (s r : list nat) (xs : list float) : list float :=
  match s, r with
  | d :: s', e :: r' =>
      let rows := map (broadcast_data s' r') (chunks (numel s') d xs) in
      if (d =? e)%nat then concat rows else concat (replicate e (concat rows))
  | _, _ => xs
  end.

Definition broadcast_to (r : list nat) (a : ndarray) : list float :=
  broadcast_data (pad_shape (length r) (shape a)) r (data a).

(** [a + b] for two arrays. *)
Definition add (a b : ndarray) : result ndarray :=
  match broadcast_shapes (shape a) (shape b) with
  | Some r => Ok (NdArray r (zip_with PrimFloat.add (broadcast_to r a) (broadcast_to r b)))
  | None => Raise BroadcastError
  end.

(** ** Parameter trees *)

Inductive pytree (A : Type) :=
| Leaf (a : A)
| PyNone
| Dict (items : list (string * pytree A)).
Arguments Leaf {A} a.
Arguments PyNone {A}.
Arguments Dict {A} items.

Definition keys {X} (items : list (string * X)) : list string := map fst items.

Fixpoint dict_get {X} (k : string) (items : list (string * X)) : option X :=
  match items with
  | [] => None
  | (k', x) :: rest => if decide (k = k') then Some x else dict_get k rest
  end.

(** [t[k1][k2]...]: the subtree at a path of keys. *)
Fixpoint tree_get {A} (path : list string) (t : pytree A) : option (pytree A) :=
  match path with
  | [] => Some t
  | k :: path' =>
      match t with
      | Dict items =>
          match dict_get k items with
          | Some c => tree_get path' c
          | None => None
          end
      | _ => None
      end
  end.

(** The leaves in flattening order. *)
Fixpoint tree_leaves {A} (t : pytree A) : list A :=
  match t with
  | Leaf a => [a]
  | PyNone => []
  | Dict items => concat (map (fun kv => tree_leaves kv.2) items)
  end.

(** [jax.tree_map(f, tree)]: every container is rebuilt, [f] is applied to
    each leaf. *)
Fixpoint tree_map {A B} (f : A -> B) (t : pytree A) : pytree B :=
  match t with
  | Leaf a => Leaf (f a)
  | PyNone => PyNone
  | Dict items => Dict (map (fun kv => (kv.1, tree_map f kv.2)) items)
  end.

(** [treedef.flatten_up_to(u)] for the structure of [t]: where [t] has a
    leaf, the whole subtree of [u] at that place is handed to the function;
    where [t] has a dict, [u] must have a dict with the same keys; where
    [t] has [None], which has no leaves, nothing is checked and what [u]
    has at that place is dropped. *)
Definition items_zipM {X Y Z} (g : X -> Y -> result Z)
  : list (string * X) -> list (string * Y) -> result (list (string * Z)) :=
  fix go its its' :=
    match its, its' with
    | (k, x) :: r, (_, y) :: r' =>
        z ← g x y; zs ← go r r'; mret ((k, z) :: zs)
    | _, _ => mret []
    end.

Fixpoint flatten_up_to {A B} (t : pytree A) (u : pytree B)
  : result (pytree (A * pytree B)) :=
  match t with
  | Leaf a => Ok (Leaf (a, u))
  | PyNone => Ok PyNone
  | Dict items =>
      match u with
      | Dict items' =>
          if decide (keys items = keys items')
          then its ← items_zipM flatten_up_to items items'; mret (Dict its)
          else Raise TreeStructureMismatch
      | _ => Raise TreeStructureMismatch
      end
  end.

Section Generic.
(** The monad the code runs in and the type of the leaves. *)
Context {M : Type -> Type} `{!MRet M, !MBind M, !MThrow exn M}.

Definition lift {X} (r : result X) : M X :=
  match r with Ok x => mret x | Raise e => mthrow e end.

Definition items_mapM {X Y} (g : X -> M Y)
  : list (string * X) -> M (list (string * Y)) :=
  fix go its :=
    match its with
    | [] => mret []
    | (k, x) :: r => y ← g x; ys ← go r; mret ((k, y) :: ys)
    end.

(** Apply [f] to every leaf in flattening order, and unflatten. *)
Fixpoint tree_mapM {A B} (f : A -> M B) (t : pytree A) : M (pytree B) :=
  match t with
  | Leaf a => b ← f a; mret (Leaf b)
  | PyNone => mret PyNone
  | Dict items => its ← items_mapM (tree_mapM f) items; mret (Dict its)
  end.

(** [jax.tree_multimap(f, t, u)]: the structure check comes first, then
    [f] runs on the leaves of [t] paired with what [u] has there. *)
Definition tree_multimap {A B C} (f : A -> pytree B -> M C)
    (t : pytree A) (u : pytree B) : M (pytree C) :=
  pairs ← lift (flatten_up_to t u);
  tree_mapM (fun ap => f ap.1 ap.2) pairs.
End Generic.

(** ** [EmaState] (ema_state.py) *)

(** What the lambda of [update] needs of a leaf: [leaf * float],
    [float * leaf] and [leaf + leaf]. *)
Class ArrayOps (M : Type -> Type) (A : Type) := {
  array_mul_scalar : A -> float -> M A;
  array_rmul_scalar : float -> A -> M A;
  array_add : A -> A -> M A
}.

Record EmaState (A : Type) := mkEmaState {
  decay : float;
  variables : pytree A
}.
Arguments mkEmaState {A} decay variables.
Arguments decay {A} e.
Arguments variables {A} e.

(** [EmaState()]: the defaults, [decay = 0.] and [variables = None]. *)
Definition EmaState_default {A} : EmaState A := mkEmaState 0%float PyNone.

(** [self.replace(variables=v)]: a new instance, the other field kept. *)
Definition replace_variables {A} (self : EmaState A) (v : pytree A) : EmaState A :=
  mkEmaState (decay self) v.

Definition create {A} (decay : float) (variables : pytree A) : EmaState A :=
  if (decay =? 0)%float then
    EmaState_default
  else
    let ema_variables := tree_map (fun x => x) variables in
    mkEmaState decay ema_variables.

Section Update.
Context {M : Type -> Type} `{!MRet M, !MBind M, !MThrow exn M}.
Context {A : Type} `{!ArrayOps M A}.

(** [lambda ema, p: ema * self.decay + (1. - self.decay) * p], operands
    evaluated left to right.  [ema] is a leaf; [p] is whatever the new
    tree has at that place. *)
Definition ema_leaf (self_decay : float) (ema : A) (p : pytree A) : M A :=
  t1 ← array_mul_scalar ema self_decay;
  let c := (1 - self_decay)%float in
  t2 ← match p with
       | Leaf b => array_rmul_scalar c b
       | _ => mthrow UnsupportedOperand
       end;
  array_add t1 t2.

Definition update (self : EmaState A) (new_variables : pytree A) : M (EmaState A) :=
  if (decay self =? 0)%float then
    mret (replace_variables self PyNone)
  else
    new_ema_variables ←
      tree_multimap (ema_leaf (decay self)) (variables self) new_variables;
    mret (replace_variables self new_ema_variables).
End Update.

(** *** Leaves that are array values *)

#[global] Instance ndarray_ops : ArrayOps result ndarray := {
  array_mul_scalar a c := Ok (mul_scalar a c);
  array_rmul_scalar c a := Ok (rmul_scalar c a);
  array_add a b := add a b
}.

(** [update] applied to each tree of a list in turn. *)
Fixpoint update_all (s : EmaState ndarray) (ps : list (pytree ndarray))
  : result (EmaState ndarray) :=
  match ps with
  | [] => Ok s
  | p :: ps' => s' ← update s p; update_all s' ps'
  end.

(** *** Leaves that are references to mutable arrays *)

Abbreviation loc := positive.
Abbreviation store := (gmap loc ndarray).

(** A computation may allocate and write, and may raise; what it did to
    the store before raising stays done. *)
Definition heapM (X : Type) : Type := store -> result X * store.

#[global] Instance heap_ret : MRet heapM := fun _ x σ => (Ok x, σ).
#[global] Instance heap_bind : MBind heapM := fun _ _ f m σ =>
  match m σ with
  | (Ok x, σ') => f x σ'
  | (Raise e, σ') => (Raise e, σ')
  end.
#[global] Instance heap_throw : MThrow exn heapM := fun _ e σ => (Raise e, σ).

Definition alloc (a : ndarray) : heapM loc := fun σ =>
  let l := fresh (dom σ) in (Ok l, <[l := a]> σ).

Definition read (l : loc) : heapM ndarray := fun σ =>
  match σ !! l with
  | Some a => (Ok a, σ)
  | None => (Raise DanglingReference, σ)
  end.

(** Arithmetic on array objects reads its operands and allocates its
    result. *)
#[global] Instance ref_ops : ArrayOps heapM loc := {
  array_mul_scalar l c := a ← read l; alloc (mul_scalar a c);
  array_rmul_scalar c l := a ← read l; alloc (rmul_scalar c a);
  array_add l1 l2 := a ← read l1; b ← read l2; r ← lift (add a b); alloc r
}.

(** [a.flat[i] = v] on the array object at [l]: an in-place write. *)
Definition setitem (l : loc) (i : nat) (v : float) : heapM unit := fun σ =>
  match σ !! l with
  | Some a =>
      if (i <? length (data a))%nat
      then (Ok tt, <[l := NdArray (shape a) (<[i := v]> (data a))]> σ)
      else (Raise IndexOutOfBounds, σ)
  | None => (Raise DanglingReference, σ)
  end.

(** ** Calls and attribute access *)

(** The Python values that reach [EmaState] from the training script. *)
Inductive pyval :=
| VNone
| VFloat (x : float)
| VTree (t : pytree ndarray)
| VEma (s : EmaState ndarray)
| VMethod (name : string).

(** A [def] with positional parameters only (no defaults, no [*args]).
    The body is given on the argument types of the annotations. *)
Record pydef (R : Type) := mkDef {
  def_params : list string;
  def_body : list pyval -> result R
}.
Arguments mkDef {R} def_params def_body.
Arguments def_params {R} p.
Arguments def_body {R} p.

(** A call binds the arguments to the parameters before the body runs. *)
Definition call {R} (f : pydef R) (args : list pyval) : result R :=
  if (length args =? length (def_params f))%nat
  then def_body f args
  else Raise ArityError.

(** [obj.f(args)]: the instance is the first argument. *)
Definition call_method {R} (f : pydef R) (self : pyval) (args : list pyval) : result R :=
  call f (self :: args).

(** [@staticmethod def create(decay, variables)] *)
Definition EmaState_create : pydef (EmaState ndarray) :=
  mkDef ["decay"; "variables"]
    (fun args =>
       match args with
       | [VFloat decay; VTree variables] => Ok (create decay variables)
       | _ => Raise Unmodelled
       end).

(** [def update(self, new_variables)] *)
Definition EmaState_update : pydef (EmaState ndarray) :=
  mkDef ["self"; "new_variables"]
    (fun args =>
       match args with
       | [VEma self; VTree new_variables] => update self new_variables
       | _ => Raise Unmodelled
       end).

(** The attributes of an [EmaState] instance: the two dataclass fields,
    the two methods of the class body and [replace], which
    [flax.struct.dataclass] adds. *)
Definition EmaState_fields : list string := ["decay"; "variables"].
Definition EmaState_methods : list string := ["create"; "update"; "replace"].

(** [obj.name].  Names with a leading underscore (what [object] and
    [dataclass] provide) are not covered. *)
Definition getattr (obj : pyval) (name : string) : result pyval :=
  if String.prefix "_" name then Raise Unmodelled
  else
    match obj with
    | VEma s =>
        if decide (name = "decay") then Ok (VFloat (decay s))
        else if decide (name = "variables") then Ok (VTree (variables s))
        else if bool_decide (name ∈ EmaState_methods) then Ok (VMethod name)
        else Raise NoSuchAttribute
    | VNone => Raise NoSuchAttribute
    | _ => Raise Unmodelled
    end.

(** ** The training script (tf_linen_train.py) *)

Record Optimizer := mkOptimizer {
  target : pytree ndarray;
  opt_state : pytree ndarray
}.

Record DynamicScale := mkDynamicScale { scale : float }.

(** [step] is the Python int [0] when the state is created and a 32-bit
    jax integer once the state is replicated over the devices, as it is
    wherever [train_step] runs. *)
Record TrainState := mkTrainState {
  step : Z;
  optimizer : Optimizer;
  model_state : pytree ndarray;
  dynamic_scale : option DynamicScale;
  ema : option (EmaState ndarray)
}.

(** The entries of the configuration that [create_train_state] reads;
    [None] is an entry that is not set. *)
Record Config := mkConfig {
  half_precision : bool;
  opt : string;
  opt_eps : option float;
  opt_beta1 : option float;
  opt_beta2 : option float;
  opt_weight_decay : option float;
  ema_decay : float
}.

(** The value of a 32-bit jax integer: the result of an operation is
    taken modulo [2^32] into [[-2^31, 2^31)]. *)
Definition int32_wrap (z : Z) : Z := ((z + 2 ^ 31) mod 2 ^ 32 - 2 ^ 31)%Z.

Definition ema_object (state : TrainState) : pyval :=
  match ema state with
  | Some e => VEma e
  | None => VNone
  end.

Section Training.
(** What jax and flax supply. *)
Variable platform : string.
Variable DynamicScale_new : DynamicScale.
Variable create_optim :
  string -> pytree ndarray -> list (string * float) -> result Optimizer.

Variables Batch Metrics ApplyFn Rng : Type.
(** Lines 110 to 144 of [train_step]: loss, gradient, optimizer step and
    metrics. *)
Variable forward_backward :
  ApplyFn -> TrainState -> Batch -> float -> float -> float -> option Rng ->
  result (Optimizer * pytree ndarray * option DynamicScale * Metrics).
(** [apply_fn] on the evaluation variables, then [compute_metrics]. *)
Variable evaluate : ApplyFn -> pyval -> pyval -> Batch -> result Metrics.

Definition opt_kwargs (config : Config) : list (string * float) :=
  omap (fun kv => match kv.2 with Some v => Some (kv.1, v) | None => None end)
    [("eps", opt_eps config);
     ("beta1", opt_beta1 config);
     ("beta2", opt_beta2 config);
     ("weight_decay", Some (default 0%float (opt_weight_decay config)))].

Definition create_train_state (config : Config)
    (params model_state : pytree ndarray) : result TrainState :=
  let dynamic_scale :=
    if half_precision config && bool_decide (platform = "gpu")
    then Some DynamicScale_new else None in
  optimizer ← create_optim (opt config) params (opt_kwargs config);
  ema ← call EmaState_create
          [VFloat (ema_decay config); VTree (target optimizer); VTree model_state];
  let state := mkTrainState 0 optimizer model_state dynamic_scale (Some ema) in
  Ok state.

Definition train_step (apply_fn : ApplyFn) (state : TrainState) (batch : Batch)
    (lr label_smoothing weight_decay : float) (dropout_rng : option Rng)
  : result (TrainState * Metrics) :=
  let step := step state in
  let ema := ema state in
  r ← forward_backward apply_fn state batch lr label_smoothing weight_decay dropout_rng;
  let '(new_optimizer, new_model_state, dynamic_scale, metrics) := r in
  new_ema ←
    match ema with
    | Some e =>
        e' ← call_method EmaState_update (VEma e)
               [VTree (target new_optimizer); VTree new_model_state];
        Ok (Some e')
    | None => Ok None
    end;
  let new_state :=
    mkTrainState (int32_wrap (step + 1)) new_optimizer new_model_state dynamic_scale
      new_ema in
  Ok (new_state, metrics).

Definition eval_step_ema (apply_fn : ApplyFn) (state : TrainState) (batch : Batch)
  : result Metrics :=
  ema_params ← getattr (ema_object state) "params";
  ema_model_state ← getattr (ema_object state) "model_state";
  evaluate apply_fn ema_params ema_model_state batch.
End Training.

(** ** Predicates used in the statements *)

Definition items_all2 {X Y} (g : X -> Y -> bool)
  : list (string * X) -> list (string * Y) -> bool :=
  fix go its its' :=
    match its, its' with
    | [], [] => true
    | (k, x) :: r, (k', y) :: r' => bool_decide (k = k') && g x y && go r r'
    | _, _ => false
    end.

(** Two trees with the same containers and keys, and leaves at the same
    places that are related by [leaf]. *)
Fixpoint tree_all2 {A B} (leaf : A -> B -> bool) (t : pytree A) (u : pytree B) : bool :=
  match t, u with
  | Leaf a, Leaf b => leaf a b
  | PyNone, PyNone => true
  | Dict its, Dict its' => items_all2 (tree_all2 leaf) its its'
  | _, _ => false
  end.

(** What the structure check of [tree_multimap] accepts: the second tree
    has the dicts and keys of the first, down to the first tree's leaves
    and [None]s. *)
Fixpoint structure_matches {A B} (t : pytree A) (u : pytree B) : bool :=
  match t with
  | Leaf _ => true
  | PyNone => true
  | Dict its =>
      match u with
      | Dict its' => items_all2 structure_matches its its'
      | _ => false
      end
  end.

(** The same key set at every level. *)
Definition same_keys {A B} (t : pytree A) (u : pytree B) : bool :=
  tree_all2 (fun _ _ => true) t u.

(** The same key set and the same shape at every leaf. *)
Definition same_structure (t u : pytree ndarray) : bool :=
  tree_all2 (fun a b => bool_decide (shape a = shape b)) t u.

(** The same key set and broadcast-compatible shapes at every leaf. *)
Definition broadcastable (a b : ndarray) : bool :=
  match broadcast_shapes (shape a) (shape b) with Some _ => true | None => false end.
Definition compatible (t u : pytree ndarray) : bool :=
  tree_all2 broadcastable t u.

(** What [update] accepts on an enabled state: at a dict of the shadow a
    dict with the same keys, at an array an array whose shape can be
    broadcast against it, at [None] anything. *)
Fixpoint accepted (t u : pytree ndarray) : bool :=
  match t with
  | Leaf a => match u with Leaf b => broadcastable a b | _ => false end
  | PyNone => true
  | Dict its =>
      match u with
      | Dict its' => items_all2 accepted its its'
      | _ => false
      end
  end.

Definition wf_tree (t : pytree ndarray) : Prop :=
  Forall wf_array (tree_leaves t).

(** The same, for a relation between leaves that is a proposition. *)
Definition items_Forall2 {X Y} (g : X -> Y -> Prop)
  : list (string * X) -> list (string * Y) -> Prop :=
  fix go its its' :=
    match its, its' with
    | [], [] => True
    | (k, x) :: r, (k', y) :: r' => k = k' /\ g x y /\ go r r'
    | _, _ => False
    end.

Fixpoint tree_Forall2 {A B} (R : A -> B -> Prop) (t : pytree A) (u : pytree B) : Prop :=
  match t, u with
  | Leaf a, Leaf b => R a b
  | PyNone, PyNone => True
  | Dict its, Dict its' => items_Forall2 (tree_Forall2 R) its its'
  | _, _ => False
  end.

(** A tree of references stands for a tree of array values in a store:
    the same keys, and each reference is to the array at that place. *)
Definition represents (σ : store) (t : pytree loc) (tv : pytree ndarray) : Prop :=
  tree_Forall2 (fun l a => σ !! l = Some a) t tv.

(** The same for a leaf paired with what the new tree has at its place. *)
Definition pair_represents (σ : store)
    (x : loc * pytree loc) (y : ndarray * pytree ndarray) : Prop :=
  σ !! x.1 = Some y.1 /\ represents σ x.2 y.2.

(** A leaf of the first tree paired with a leaf of the second. *)
Definition pair_leaf {A B} (a : A) (b : B) : A * pytree B := (a, Leaf b).

(** The leaf-by-leaf combination of two trees with the same keys. *)
Definition items_zip_with {X Y Z} (g : X -> Y -> Z)
  : list (string * X) -> list (string * Y) -> list (string * Z) :=
  fix go its its' :=
    match its, its' with
    | (k, x) :: r, (_, y) :: r' => (k, g x y) :: go r r'
    | _, _ => []
    end.

Fixpoint tree_zip_with {A B C} (g : A -> B -> C) (t : pytree A) (u : pytree B)
  : pytree C :=
  match t, u with
  | Leaf a, Leaf b => Leaf (g a b)
  | Dict its, Dict its' => Dict (items_zip_with (tree_zip_with g) its its')
  | _, _ => PyNone
  end.

(** The smoothing of one element, as the specification writes it. *)
Definition ema_elem (d x p : float) : float := (d * x + (1 - d) * p)%float.

Definition ema_array (d : float) (a b : ndarray) : ndarray :=
  NdArray (shape a) (zip_with (ema_elem d) (data a) (data b)).

(** ** More of the training script *)

(** The exceptions of the rest of the script, besides those above. *)
Inductive script_exn :=
| Inner (e : exn)        (* one of the exceptions above *)
| KeyError (key : string)
| ZeroDivisionError
| BatchSizeError         (* ValueError('Batch size must be divisible by the number of devices') *)
| EvalBatchSizeError     (* ValueError('Validation batch size must be divisible ...') *)
| ReshapeError.          (* numpy, ValueError: cannot reshape array of size n into shape s *)

Inductive outcome (X : Type) :=
| Done (x : X)
| Throw (e : script_exn).
Arguments Done {X} x.
Arguments Throw {X} e.

#[global] Instance outcome_ret : MRet outcome := fun _ x => Done x.
#[global] Instance outcome_bind : MBind outcome := fun _ _ f r =>
  match r with Done x => f x | Throw e => Throw e end.
#[global] Instance outcome_throw : MThrow exn outcome := fun _ e => Throw (Inner e).

Definition inner {X} (r : result X) : outcome X :=
  match r with Ok x => Done x | Raise e => Throw (Inner e) end.

(** *** Dict operations *)

(** [{**d, key: v}] on a dict kept in key order: the entry is replaced, or
    put at its place. *)
Fixpoint dict_set {X} (k : string) (v : X) (items : list (string * X))
  : list (string * X) :=
  match items with
  | [] => [(k, v)]
  | (k', x) :: rest =>
      match String_as_OT.cmp k k' with
      | Eq => (k', v) :: rest
      | Lt => (k, v) :: (k', x) :: rest
      | Gt => (k', x) :: dict_set k v rest
      end
  end.

Fixpoint dict_remove {X} (k : string) (items : list (string * X))
  : list (string * X) :=
  match items with
  | [] => []
  | (k', x) :: rest =>
      if decide (k = k') then rest else (k', x) :: dict_remove k rest
  end.

(** [d[key]] on a FrozenDict. *)
Definition frozen_getitem (items : list (string * pytree ndarray)) (key : string)
  : outcome (pytree ndarray) :=
  match dict_get key items with
  | Some c => Done c
  | None => Throw (KeyError key)
  end.

(** [d.copy({key: v})]: a new FrozenDict with the entry added or
    replaced. *)
Definition frozen_copy (items : list (string * pytree ndarray)) (key : string)
    (v : pytree ndarray) : pytree ndarray :=
  Dict (dict_set key v items).

(** [d.pop(key)]: the FrozenDict without the entry, and the entry's
    value. *)
Definition frozen_pop (d : pytree ndarray) (key : string)
  : outcome (pytree ndarray * pytree ndarray) :=
  match d with
  | Dict items =>
      match dict_get key items with
      | Some c => Done (Dict (dict_remove key items), c)
      | None => Throw (KeyError key)
      end
  | PyNone => Throw (Inner NoSuchAttribute)
  | Leaf _ => Throw (Inner Unmodelled)
  end.

(** [self.replace(field=v)] of the [EmaState] dataclass: a keyword that is
    no field is refused by the constructor. *)
Definition EmaState_replace (self : EmaState ndarray) (field : string) (v : pyval)
  : result (EmaState ndarray) :=
  if decide (field = "variables") then
    match v with
    | VTree t => Ok (replace_variables self t)
    | VNone => Ok (replace_variables self PyNone)
    | _ => Raise Unmodelled
    end
  else if decide (field = "decay") then
    match v with
    | VFloat d => Ok (mkEmaState d (variables self))
    | _ => Raise Unmodelled
    end
  else Raise ArityError.

(** *** [sync_batch_stats] *)

Section SyncBatchStats.
(** [jax.pmap(lambda x: lax.pmean(x, 'x'), 'x')] *)
Variable avg : pytree ndarray -> outcome (pytree ndarray).

(** [m.copy({'batch_stats': avg(m['batch_stats'])})] for the object [m]:
    the method is looked up, then the argument is evaluated. *)
Definition copy_with_synced_stats (m : pyval) : outcome (pytree ndarray) :=
  match m with
  | VTree (Dict items) =>
      batch_stats ← frozen_getitem items "batch_stats";
      synced ← avg batch_stats;
      mret (frozen_copy items "batch_stats" synced)
  | VTree PyNone | VNone => Throw (Inner NoSuchAttribute)
  | _ => Throw (Inner Unmodelled)
  end.

Definition sync_batch_stats (state : TrainState) : outcome TrainState :=
  new_model_state ← copy_with_synced_stats (VTree (model_state state));
  match ema state with
  | Some e =>
      ema_model_state ← inner (getattr (VEma e) "model_state");
      new_ema_model_state ← copy_with_synced_stats ema_model_state;
      new_ema ← inner (EmaState_replace e "model_state" (VTree new_ema_model_state));
      mret (mkTrainState (step state) (optimizer state) new_model_state
              (dynamic_scale state) (Some new_ema))
  | None =>
      mret (mkTrainState (step state) (optimizer state) new_model_state
              (dynamic_scale state) None)
  end.
End SyncBatchStats.

(** *** [prepare_tf_data] *)

(** The shape [(local_device_count, -1) + x.shape[1:]] for an array of
    shape [s], as [reshape] resolves the [-1]: the number of elements must
    be a multiple of the product of the known dimensions, which must not
    be zero. *)
Definition prepare_shape (local_device_count : nat) (s : list nat)
  : option (list nat) :=
  let rest := tail s in
  let s_original := numel s in
  let s_known := (local_device_count * numel rest)%nat in
  if (s_known =? 0)%nat || negb (s_original mod s_known =? 0)%nat
  then None
  else Some (local_device_count :: (s_original / s_known)%nat :: rest).

Definition _prepare (local_device_count : nat) (x : ndarray) : outcome ndarray :=
  match prepare_shape local_device_count (shape x) with
  | Some s => Done (NdArray s (data x))
  | None => Throw ReshapeError
  end.

Definition prepare_tf_data (local_device_count : nat) (xs : pytree ndarray)
  : outcome (pytree ndarray) :=
  tree_mapM (_prepare local_device_count) xs.

(** *** [lr_prefetch_iter] and the items of the training loop *)

(** [range(a, b)] *)
Definition py_range (a b : Z) : list Z :=
  map (fun i => (a + Z.of_nat i)%Z) (seq 0 (Z.to_nat (b - a))).

Section LrPrefetch.
Variables LrArray Device : Type.
(** [jnp.ones([n]) * lr] *)
Variable ones_times : nat -> float -> LrArray.
Variable jax_local_device_count : nat.

(** The items the iterator yields; [prefetch_to_device] passes them on in
    order. *)
Definition lr_prefetch_iter (lr_fn : Z -> float) (first_step total_steps : Z)
    (devices : option (list Device)) : list LrArray :=
  let local_device_count :=
    match devices with
    | None => jax_local_device_count
    | Some ds => length ds
    end in
  let lr_iter :=
    map (fun i => ones_times local_device_count (lr_fn i))
        (py_range first_step total_steps) in
  lr_iter.

(** [zip(range(step_offset, num_steps), train_iter, lr_iter)] *)
Definition loop_items {Batch} (step_offset num_steps : Z) (train_iter : list Batch)
    (lr_iter : list LrArray) : list (Z * Batch * LrArray) :=
  zip (zip (py_range step_offset num_steps) train_iter) lr_iter.
End LrPrefetch.

(** *** The configuration *)

Module ConfigDict.
(** An [ml_collections.ConfigDict] with the entries of the configuration
    files and the entries [train_and_evaluate] reads besides.  [None] is
    an entry that is not set; [eval_batch_size] can be set to [None].  An
    entry that is set has the type the code uses it at. *)
Record t := mk {
  model : option string;
  image_size : option Z;
  batch_size : option Z;
  eval_batch_size : option (option Z);
  lr : option float;
  weight_decay : option float;
  ema_decay : option float;
  opt : option string;
  opt_eps : option float;
  opt_beta1 : option float;
  opt_beta2 : option float;
  opt_weight_decay : option float;
  lr_schedule : option string;
  lr_decay_rate : option float;
  lr_decay_epochs : option float;
  lr_warmup_epochs : option float;
  lr_minimum : option float;
  num_epochs : option Z;
  cache : option bool;
  half_precision : option bool;
  drop_rate : option float;
  drop_path_rate : option float;
  num_train_steps : option Z;
  steps_per_eval : option Z;
  dataset : option string;
  data_dir : option string
}.
End ConfigDict.

(** [config.name]: an entry that is not set raises an
    [AttributeError]. *)
Definition attr {X} (entry : option X) : outcome X :=
  match entry with
  | Some x => Done x
  | None => Throw (Inner NoSuchAttribute)
  end.

Definition is_set {X} (entry : option X) : bool :=
  match entry with Some _ => true | None => false end.

(** train_configs/default.py *)
Module default.
Definition get_config : ConfigDict.t := {|
  ConfigDict.model := Some "tf_efficientnet_b0";
  ConfigDict.image_size := Some 0%Z;
  ConfigDict.batch_size := Some 500%Z;
  ConfigDict.lr := Some 0.016%float;
  ConfigDict.weight_decay := Some 1e-5%float;
  ConfigDict.ema_decay := Some 0.9997%float;
  ConfigDict.opt := Some "rmsproptf";
  ConfigDict.opt_eps := Some 0.001%float;
  ConfigDict.opt_beta1 := Some 0.9%float;
  ConfigDict.opt_beta2 := Some 0.9%float;
  ConfigDict.opt_weight_decay := Some 0%float;
  ConfigDict.lr_schedule := Some "step";
  ConfigDict.lr_decay_rate := Some 0.97%float;
  ConfigDict.lr_decay_epochs := Some 2.4%float;
  ConfigDict.lr_warmup_epochs := Some 5%float;
  ConfigDict.lr_minimum := Some 1e-6%float;
  ConfigDict.num_epochs := Some 450%Z;
  ConfigDict.cache := Some false;
  ConfigDict.half_precision := Some true;
  ConfigDict.drop_rate := Some 0.2%float;
  ConfigDict.drop_path_rate := Some 0.1%float;
  ConfigDict.num_train_steps := Some (-1)%Z;
  ConfigDict.steps_per_eval := Some (-1)%Z;
  (* not set by the file *)
  ConfigDict.eval_batch_size := None;
  ConfigDict.dataset := None;
  ConfigDict.data_dir := None
|}.
End default.

(** train_configs/pt_efficientnet_b3-tpu_x8.py *)
Module pt_efficientnet_b3_tpu_x8.
Definition get_config : ConfigDict.t :=
  let config := default.get_config in
  {|
    ConfigDict.model := Some "pt_efficientnet_b3";
    ConfigDict.batch_size := Some 2000%Z;
    ConfigDict.ema_decay := Some 0.99993%float;
    ConfigDict.num_epochs := Some 550%Z;
    ConfigDict.drop_rate := Some 0.3%float;
    (* as in the default *)
    ConfigDict.image_size := ConfigDict.image_size config;
    ConfigDict.eval_batch_size := ConfigDict.eval_batch_size config;
    ConfigDict.lr := ConfigDict.lr config;
    ConfigDict.weight_decay := ConfigDict.weight_decay config;
    ConfigDict.opt := ConfigDict.opt config;
    ConfigDict.opt_eps := ConfigDict.opt_eps config;
    ConfigDict.opt_beta1 := ConfigDict.opt_beta1 config;
    ConfigDict.opt_beta2 := ConfigDict.opt_beta2 config;
    ConfigDict.opt_weight_decay := ConfigDict.opt_weight_decay config;
    ConfigDict.lr_schedule := ConfigDict.lr_schedule config;
    ConfigDict.lr_decay_rate := ConfigDict.lr_decay_rate config;
    ConfigDict.lr_decay_epochs := ConfigDict.lr_decay_epochs config;
    ConfigDict.lr_warmup_epochs := ConfigDict.lr_warmup_epochs config;
    ConfigDict.lr_minimum := ConfigDict.lr_minimum config;
    ConfigDict.cache := ConfigDict.cache config;
    ConfigDict.half_precision := ConfigDict.half_precision config;
    ConfigDict.drop_path_rate := ConfigDict.drop_path_rate config;
    ConfigDict.num_train_steps := ConfigDict.num_train_steps config;
    ConfigDict.steps_per_eval := ConfigDict.steps_per_eval config;
    ConfigDict.dataset := ConfigDict.dataset config;
    ConfigDict.data_dir := ConfigDict.data_dir config
  |}.
End pt_efficientnet_b3_tpu_x8.

(** *** [train_and_evaluate] up to the training loop *)

Inductive dtype := bfloat16 | float16 | float32.

(** [x or y] for an entry that is an int or [None]. *)
Definition int_or (x : option Z) (y : Z) : Z :=
  match x with
  | Some n => if (n =? 0)%Z then y else n
  | None => y
  end.

(** An entry used as an int: [None] is no operand of [%] or [//]. *)
Definition int_entry (x : option Z) : outcome Z :=
  match x with
  | Some n => Done n
  | None => Throw (Inner UnsupportedOperand)
  end.

(** [config.eval_batch_size = v] *)
Definition set_eval_batch_size (config : ConfigDict.t) (v : Z) : ConfigDict.t := {|
  ConfigDict.eval_batch_size := Some (Some v);
  ConfigDict.model := ConfigDict.model config;
  ConfigDict.image_size := ConfigDict.image_size config;
  ConfigDict.batch_size := ConfigDict.batch_size config;
  ConfigDict.lr := ConfigDict.lr config;
  ConfigDict.weight_decay := ConfigDict.weight_decay config;
  ConfigDict.ema_decay := ConfigDict.ema_decay config;
  ConfigDict.opt := ConfigDict.opt config;
  ConfigDict.opt_eps := ConfigDict.opt_eps config;
  ConfigDict.opt_beta1 := ConfigDict.opt_beta1 config;
  ConfigDict.opt_beta2 := ConfigDict.opt_beta2 config;
  ConfigDict.opt_weight_decay := ConfigDict.opt_weight_decay config;
  ConfigDict.lr_schedule := ConfigDict.lr_schedule config;
  ConfigDict.lr_decay_rate := ConfigDict.lr_decay_rate config;
  ConfigDict.lr_decay_epochs := ConfigDict.lr_decay_epochs config;
  ConfigDict.lr_warmup_epochs := ConfigDict.lr_warmup_epochs config;
  ConfigDict.lr_minimum := ConfigDict.lr_minimum config;
  ConfigDict.num_epochs := ConfigDict.num_epochs config;
  ConfigDict.cache := ConfigDict.cache config;
  ConfigDict.half_precision := ConfigDict.half_precision config;
  ConfigDict.drop_rate := ConfigDict.drop_rate config;
  ConfigDict.drop_path_rate := ConfigDict.drop_path_rate config;
  ConfigDict.num_train_steps := ConfigDict.num_train_steps config;
  ConfigDict.steps_per_eval := ConfigDict.steps_per_eval config;
  ConfigDict.dataset := ConfigDict.dataset config;
  ConfigDict.data_dir := ConfigDict.data_dir config
|}.

(** [a // b] on ints. *)
Definition py_floordiv (a b : Z) : outcome Z :=
  if (b =? 0)%Z then Throw ZeroDivisionError else Done (a / b)%Z.

(** The entries that lines 229 to 254 read. *)
Definition model_entries_set (config : ConfigDict.t) : bool :=
  is_set (ConfigDict.half_precision config) && is_set (ConfigDict.model config)
  && is_set (ConfigDict.drop_rate config) && is_set (ConfigDict.drop_path_rate config)
  && is_set (ConfigDict.image_size config) && is_set (ConfigDict.dataset config)
  && is_set (ConfigDict.data_dir config) && is_set (ConfigDict.cache config).

(** The entries that lines 258 to 271 and [create_train_state] read with
    [config.name]; [num_epochs] is read only when [num_train_steps] is
    [-1]. *)
Definition schedule_entries_set (config : ConfigDict.t) : bool :=
  match ConfigDict.num_train_steps config with
  | Some n => if (n =? -1)%Z then is_set (ConfigDict.num_epochs config) else true
  | None => false
  end
  && is_set (ConfigDict.steps_per_eval config) && is_set (ConfigDict.lr config)
  && is_set (ConfigDict.opt config) && is_set (ConfigDict.ema_decay config).

(** What the loop of [train_and_evaluate] starts from. *)
Record Setup (Rng Model Iter : Type) := mkSetup {
  setup_rng : Rng;
  setup_config : ConfigDict.t;
  setup_model : Model;
  setup_state : TrainState;
  setup_train_iter : Iter;
  setup_eval_iter : Iter;
  setup_steps_per_epoch : Z;
  setup_num_steps : Z;
  setup_steps_per_eval : Z;
  setup_steps_per_checkpoint : Z;
  setup_base_lr : float;
  setup_resume : string
}.
Arguments mkSetup {Rng Model Iter}.

Section TrainAndEvaluate.
(** [jax.device_count()], [jax.host_count()], the platform of the first
    local device. *)
Variables device_count host_count : positive.
Variable platform : string.
Variables Rng Model Dataset Iter : Type.
Variable PRNGKey : Z -> Rng.
Variable split : Rng -> Rng * Rng.
Variable create_model :
  string -> dtype -> float -> float -> Rng -> outcome (Model * pytree ndarray).
(** [model.default_cfg['input_size'][-1]] *)
Variable default_input_size : Model -> outcome Z.
Variable tfds_builder : string -> string -> outcome Dataset.
(** [dataset_builder.info.splits[name].num_examples] *)
Variable num_examples : Dataset -> string -> outcome Z.
Variable create_input_iter :
  Dataset -> Z -> bool -> Z -> bool -> bool -> outcome Iter.
(** The float of an int. *)
Variable float_of_int : Z -> float.
Variable DynamicScale_new : DynamicScale.
Variable create_optim :
  string -> pytree ndarray -> list (string * float) -> result Optimizer.
(** Lines 275 to 384: restoring, the training loop and the final wait. *)
Variable training_loop : Setup Rng Model Iter -> outcome unit.

(** The entries [create_train_state] reads, once [half_precision], [opt]
    and [ema_decay] are known to be set; the others are read with
    [config.get]. *)
Definition train_entries (config : ConfigDict.t) (half_precision : bool)
    (opt : string) (ema_decay : float) : Config :=
  mkConfig half_precision opt (ConfigDict.opt_eps config)
    (ConfigDict.opt_beta1 config) (ConfigDict.opt_beta2 config)
    (ConfigDict.opt_weight_decay config) ema_decay.

(** [create_train_state(config, params, model_state)] on a [ConfigDict]:
    [config.half_precision] is read at line 69, [config.opt] at line 76
    before the optimizer is created, [config.ema_decay] at line 77 after
    it. *)
Definition create_train_state_of (config : ConfigDict.t)
    (params model_state : pytree ndarray) : outcome TrainState :=
  half_precision ← attr (ConfigDict.half_precision config);
  opt ← attr (ConfigDict.opt config);
  match ConfigDict.ema_decay config with
  | Some ema_decay =>
      inner (create_train_state platform DynamicScale_new create_optim
               (train_entries config half_precision opt ema_decay) params model_state)
  | None =>
      optimizer ← inner (create_optim opt params
                           (opt_kwargs (train_entries config half_precision opt 0)));
      Throw (Inner NoSuchAttribute)
  end.

(** Lines 219 to 225. *)
Definition batch_sizes (config : ConfigDict.t) : outcome (Z * ConfigDict.t * Z) :=
  batch_size ← attr (ConfigDict.batch_size config);
  if (batch_size mod Z.pos device_count >? 0)%Z then
    Throw BatchSizeError
  else
    let local_batch_size := (batch_size / Z.pos host_count)%Z in
    eval_batch_size ← attr (ConfigDict.eval_batch_size config);
    let config := set_eval_batch_size config (int_or eval_batch_size batch_size) in
    eval_size ← attr (ConfigDict.eval_batch_size config) ≫= int_entry;
    if (eval_size mod Z.pos device_count >? 0)%Z then
      Throw EvalBatchSizeError
    else
      let local_eval_batch_size := (eval_size / Z.pos host_count)%Z in
      Done (local_batch_size, config, local_eval_batch_size).

(** Lines 230 to 235. *)
Definition model_dtype_of (half_prec : bool) : dtype :=
  if half_prec then
    if bool_decide (platform = "tpu") then bfloat16 else float16
  else float32.

Definition train_and_evaluate (config : ConfigDict.t) (resume : string)
  : outcome unit :=
  let rng := PRNGKey 42 in
  sizes ← batch_sizes config;
  let '(local_batch_size, config, local_eval_batch_size) := sizes in
  half_prec ← attr (ConfigDict.half_precision config);
  let model_dtype := model_dtype_of half_prec in
  let '(rng, model_create_rng) := split rng in
  model_name ← attr (ConfigDict.model config);
  drop_rate ← attr (ConfigDict.drop_rate config);
  drop_path_rate ← attr (ConfigDict.drop_path_rate config);
  created ← create_model model_name model_dtype drop_rate drop_path_rate
              model_create_rng;
  let '(model, variables) := created in
  popped ← frozen_pop variables "params";
  let '(model_state, params) := popped in
  image_size ← attr (ConfigDict.image_size config);
  image_size ←
    (if (image_size =? 0)%Z then default_input_size model else Done image_size);
  dataset ← attr (ConfigDict.dataset config);
  data_dir ← attr (ConfigDict.data_dir config);
  dataset_builder ← tfds_builder dataset data_dir;
  cache ← attr (ConfigDict.cache config);
  train_iter ← create_input_iter dataset_builder local_batch_size true
                 image_size half_prec cache;
  cache ← attr (ConfigDict.cache config);
  eval_iter ← create_input_iter dataset_builder local_eval_batch_size false
                image_size half_prec cache;
  train_examples ← num_examples dataset_builder "train";
  batch_size ← attr (ConfigDict.batch_size config);
  steps_per_epoch ← py_floordiv train_examples batch_size;
  num_train_steps ← attr (ConfigDict.num_train_steps config);
  num_steps ←
    (if (num_train_steps =? -1)%Z then
       num_epochs ← attr (ConfigDict.num_epochs config);
       Done (steps_per_epoch * num_epochs)%Z
     else Done num_train_steps);
  steps_per_eval ← attr (ConfigDict.steps_per_eval config);
  steps_per_eval ←
    (if (steps_per_eval =? -1)%Z then
       num_validation_examples ← num_examples dataset_builder "validation";
       eval_size ← attr (ConfigDict.eval_batch_size config) ≫= int_entry;
       py_floordiv num_validation_examples eval_size
     else Done steps_per_eval);
  let steps_per_checkpoint := (steps_per_epoch * 1)%Z in
  lr ← attr (ConfigDict.lr config);
  let base_lr := (lr * float_of_int batch_size / 256)%float in
  state ← create_train_state_of config params model_state;
  training_loop
    (mkSetup rng config model state train_iter eval_iter steps_per_epoch num_steps
       steps_per_eval steps_per_checkpoint base_lr resume).
End TrainAndEvaluate.

(** ** Containers as objects *)

(** The reading of [create] in which dicts are objects too.  An object of
    the store is an array or a dict; the value of a dict entry is [None]
    or a reference to an object, and a tree is given by its root. *)
Inductive pyobj :=
| ObjArray (a : ndarray)
| ObjDict (items : list (string * option loc)).

Abbreviation objstore := (gmap loc pyobj).

Definition objM (X : Type) : Type := objstore -> result X * objstore.

#[global] Instance obj_ret : MRet objM := fun _ x σ => (Ok x, σ).
#[global] Instance obj_bind : MBind objM := fun _ _ f m σ =>
  match m σ with
  | (Ok x, σ') => f x σ'
  | (Raise e, σ') => (Raise e, σ')
  end.
#[global] Instance obj_throw : MThrow exn objM := fun _ e σ => (Raise e, σ).

Definition obj_alloc (o : pyobj) : objM loc := fun σ =>
  let l := fresh (dom σ) in (Ok l, <[l := o]> σ).

Definition obj_read (l : loc) : objM pyobj := fun σ =>
  match σ !! l with
  | Some o => (Ok o, σ)
  | None => (Raise DanglingReference, σ)
  end.

(** [jax.tree_flatten]: the dicts are read down to the arrays, which are
    the leaves.  The recursion is bounded by [fuel]; a tree of that depth
    at most does not exhaust it (a dict that contains itself does). *)
Fixpoint flatten_obj (fuel : nat) (r : option loc) : objM (pytree loc) :=
  match r with
  | None => mret PyNone
  | Some l =>
      o ← obj_read l;
      match o with
      | ObjArray _ => mret (Leaf l)
      | ObjDict items =>
          match fuel with
          | 0 => mthrow Unmodelled
          | S fuel' => its ← items_mapM (flatten_obj fuel') items; mret (Dict its)
          end
      end
  end.

(** [jax.tree_unflatten]: a new dict for every dict of the structure. *)
Fixpoint unflatten_obj (t : pytree loc) : objM (option loc) :=
  match t with
  | Leaf l => mret (Some l)
  | PyNone => mret None
  | Dict items =>
      its ← items_mapM unflatten_obj items;
      l ← obj_alloc (ObjDict its);
      mret (Some l)
  end.

(** [jax.tree_map(f, tree)] *)
Definition tree_map_obj (fuel : nat) (f : loc -> objM loc) (tree : option loc)
  : objM (option loc) :=
  leaves ← flatten_obj fuel tree;
  leaves' ← tree_mapM f leaves;
  unflatten_obj leaves'.

Record EmaStateObj := mkEmaStateObj {
  obj_decay : float;
  obj_variables : option loc
}.

Definition create_obj (fuel : nat) (decay : float) (variables : option loc)
  : objM EmaStateObj :=
  if (decay =? 0)%float then
    mret (mkEmaStateObj 0 None)
  else
    ema_variables ← tree_map_obj fuel (fun x => mret x) variables;
    mret (mkEmaStateObj decay ema_variables).

(** [a.flat[i] = v] on the array object at [l]. *)
Definition obj_setitem (l : loc) (i : nat) (v : float) : objM unit := fun σ =>
  match σ !! l with
  | Some (ObjArray a) =>
      if (i <? length (data a))%nat
      then (Ok tt, <[l := ObjArray (NdArray (shape a) (<[i := v]> (data a)))]> σ)
      else (Raise IndexOutOfBounds, σ)
  | Some (ObjDict _) => (Raise Unmodelled, σ)
  | None => (Raise DanglingReference, σ)
  end.

(** [d[k] = v] on the dict object at [l]. *)
Definition obj_dict_setitem (l : loc) (k : string) (v : option loc) : objM unit :=
  fun σ =>
  match σ !! l with
  | Some (ObjDict items) => (Ok tt, <[l := ObjDict (dict_set k v items)]> σ)
  | Some (ObjArray _) => (Raise Unmodelled, σ)
  | None => (Raise DanglingReference, σ)
  end.

(** The tree at a root of the store: the dicts and keys of [t], and at
    each leaf of [t] an array object related to it by [leaf]. *)
Fixpoint obj_tree {A} (leaf : loc -> ndarray -> A -> Prop) (σ : objstore)
    (t : pytree A) (r : option loc) : Prop :=
  match t with
  | Leaf x => exists l a, r = Some l /\ σ !! l = Some (ObjArray a) /\ leaf l a x
  | PyNone => r = None
  | Dict items =>
      exists l its,
        r = Some l /\ σ !! l = Some (ObjDict its) /\
        items_Forall2 (obj_tree leaf σ) items its
  end.

(** The root stands for a tree of array values. *)
Definition obj_represents (σ : objstore) (t : pytree ndarray) (r : option loc) : Prop :=
  obj_tree (fun _ a x => x = a) σ t r.

(** The array objects of the tree at a root, each at its place. *)
Definition obj_leaves (σ : objstore) (t : pytree loc) (r : option loc) : Prop :=
  obj_tree (fun l _ x => x = l) σ t r.

(** The number of dicts on the longest path of a tree. *)
Fixpoint tree_depth {A} (t : pytree A) : nat :=
  match t with
  | Dict items => S (foldr Nat.max 0 (map (fun kv => tree_depth kv.2) items))
  | _ => 0
  end.

(** Two runs that end in the same exception. *)
Definition same_throw {X} (r1 r2 : outcome X) : Prop :=
  r1 = r2 /\ exists e, r1 = Throw e.

(** * Properties *)

(** ** Floats and arrays *)

Lemma float_mul_comm (x y : float) : (x * y)%float = (y * x)%float.
Proof.
  apply Prim2SF_inj. rewrite !mul_spec.
  unfold SF64mul, SFmul.
  destruct (Prim2SF x) as [sx|sx| |sx mx ex], (Prim2SF y) as [sy|sy| |sy my ey];
    try reflexivity; try (rewrite xorb_comm; reflexivity).
  rewrite xorb_comm, Pos.mul_comm, Z.add_comm. reflexivity.
Qed.

Lemma pad_shape_same (s : list nat) : pad_shape (length s) s = s.
Proof. unfold pad_shape. rewrite Nat.sub_diag. reflexivity. Qed.

Lemma broadcast_dims_same (s : list nat) : broadcast_dims s s = Some s.
Proof.
  induction s as [|d s IH]; [reflexivity|].
  cbn [broadcast_dims]. rewrite IH, Nat.eqb_refl. reflexivity.
Qed.

Lemma broadcast_shapes_same (s : list nat) : broadcast_shapes s s = Some s.
Proof.
  unfold broadcast_shapes. rewrite Nat.max_id, pad_shape_same.
  apply broadcast_dims_same.
Qed.

Lemma chunks_concat {X} (n k : nat) (xs : list X) :
  concat (chunks n k xs) = take (k * n) xs.
Proof.
  revert xs. induction k as [|k IH]; intros xs; [reflexivity|].
  cbn [chunks concat]. rewrite IH.
  replace (S k * n) with (n + k * n) by lia.
  rewrite <- (take_drop n xs) at 3.
  destruct (decide (n <= length xs)) as [Hle|Hgt].
  - rewrite take_app_ge by (rewrite length_take; lia).
    rewrite length_take. f_equal. f_equal. lia.
  - rewrite (drop_ge xs n) by lia. rewrite take_nil, !app_nil_r.
    rewrite (take_ge xs n) by lia. rewrite take_ge by lia. reflexivity.
Qed.

Lemma chunks_lengths {X} (n k : nat) (xs : list X) :
  k * n <= length xs -> Forall (fun c => length c = n) (chunks n k xs).
Proof.
  revert xs. induction k as [|k IH]; intros xs Hlen; cbn [chunks]; constructor.
  - rewrite length_take. lia.
  - apply IH. rewrite length_drop. lia.
Qed.

Lemma broadcast_data_same (s : list nat) (xs : list float) :
  length xs = numel s -> broadcast_data s s xs = xs.
Proof.
  revert xs. induction s as [|d s IH]; intros xs Hlen; [reflexivity|].
  cbn [broadcast_data]. rewrite Nat.eqb_refl.
  change (numel (d :: s)) with (d * numel s) in Hlen.
  assert (Hmap : map (broadcast_data s s) (chunks (numel s) d xs)
                 = chunks (numel s) d xs).
  { pose proof (chunks_lengths (numel s) d xs ltac:(lia)) as Hall.
    induction Hall as [|c cs Hc _ IHcs]; [reflexivity|].
    cbn [map]. rewrite IH by exact Hc. rewrite IHcs. reflexivity. }
  rewrite Hmap, chunks_concat. apply take_ge. lia.
Qed.

Lemma add_same_shape (a b : ndarray) :
  shape a = shape b -> wf_array a -> wf_array b ->
  add a b = Ok (NdArray (shape a) (zip_with PrimFloat.add (data a) (data b))).
Proof.
  unfold wf_array, add, broadcast_to. intros Hs Ha Hb.
  rewrite <- Hs, broadcast_shapes_same, pad_shape_same.
  rewrite broadcast_data_same by exact Ha.
  rewrite broadcast_data_same by (rewrite Hs; exact Hb).
  reflexivity.
Qed.

Lemma add_not_broadcastable (a b : ndarray) :
  broadcastable a b = false -> add a b = Raise BroadcastError.
Proof.
  unfold broadcastable, add.
  destruct (broadcast_shapes (shape a) (shape b)); [discriminate|reflexivity].
Qed.

Lemma add_broadcastable (a b : ndarray) :
  broadcastable a b = true -> exists r, add a b = Ok r.
Proof.
  unfold broadcastable, add.
  destruct (broadcast_shapes (shape a) (shape b)); [eauto|discriminate].
Qed.

Lemma add_error (a b : ndarray) (e : exn) : add a b = Raise e -> e = BroadcastError.
Proof.
  unfold add. destruct (broadcast_shapes (shape a) (shape b)); congruence.
Qed.

(** Broadcasting as numpy does it: a row against a matrix, a column
    against a matrix, a column against a row, and shapes that do not fit. *)
Example add_row :
  add (NdArray [2; 3] [1; 2; 3; 4; 5; 6]%float) (NdArray [3] [10; 20; 30]%float)
  = Ok (NdArray [2; 3] [11; 22; 33; 14; 25; 36]%float).
Proof. vm_compute. reflexivity. Qed.

Example add_column :
  add (NdArray [2; 3] [1; 2; 3; 4; 5; 6]%float) (NdArray [2; 1] [10; 20]%float)
  = Ok (NdArray [2; 3] [11; 12; 13; 24; 25; 26]%float).
Proof. vm_compute. reflexivity. Qed.

Example add_outer :
  add (NdArray [2; 1] [1; 2]%float) (NdArray [1; 3] [10; 20; 30]%float)
  = Ok (NdArray [2; 3] [11; 21; 31; 12; 22; 32]%float).
Proof. vm_compute. reflexivity. Qed.

Example add_incompatible :
  add (NdArray [2; 3] [1; 2; 3; 4; 5; 6]%float) (NdArray [2] [10; 20]%float)
  = Raise BroadcastError.
Proof. vm_compute. reflexivity. Qed.

(** The lambda of [update] on two arrays of the same shape. *)
Lemma ema_leaf_same_shape (d : float) (a b : ndarray) :
  shape a = shape b -> wf_array a -> wf_array b ->
  ema_leaf d a (Leaf b) = Ok (ema_array d a b).
Proof.
  intros Hs Ha Hb. unfold ema_leaf. cbn.
  rewrite add_same_shape; cbn; try assumption.
  - unfold ema_array. f_equal. f_equal.
    rewrite zip_with_fmap_l, zip_with_fmap_r.
    apply zip_with_ext; [|reflexivity..].
    intros x y. unfold ema_elem. rewrite (float_mul_comm x d). reflexivity.
  - unfold wf_array in *. cbn. rewrite length_map. exact Ha.
  - unfold wf_array in *. cbn. rewrite length_map. exact Hb.
Qed.

(** ** Trees *)

Lemma pytree_ind' {A} (P : pytree A -> Prop) :
  (forall a, P (Leaf a)) ->
  P PyNone ->
  (forall items, Forall (fun kv => P kv.2) items -> P (Dict items)) ->
  forall t, P t.
Proof.
  intros HL HN HD. fix IH 1. intros [a| |items].
  - apply HL.
  - apply HN.
  - apply HD. induction items as [|[k c] r IHr]; constructor.
    + apply IH.
    + apply IHr.
Qed.

Lemma tree_map_id {A} (t : pytree A) : tree_map (fun x => x) t = t.
Proof.
  induction t as [a| |items IH] using pytree_ind'; cbn; try reflexivity.
  f_equal. induction IH as [|[k c] r Hc _ IHr]; cbn; [reflexivity|].
  cbn in Hc. rewrite Hc, IHr. reflexivity.
Qed.

Lemma tree_leaves_map {A B} (f : A -> B) (t : pytree A) :
  tree_leaves (tree_map f t) = map f (tree_leaves t).
Proof.
  induction t as [a| |items IH] using pytree_ind'; cbn; try reflexivity.
  induction IH as [|[k c] r Hc _ IHr]; cbn; [reflexivity|].
  cbn in Hc. rewrite Hc, IHr, map_app. reflexivity.
Qed.

Lemma tree_Forall2_intro {A B} (R : A -> B -> bool) (P : A -> Prop) (Q : B -> Prop)
    (t : pytree A) (u : pytree B) :
  tree_all2 R t u = true ->
  Forall P (tree_leaves t) -> Forall Q (tree_leaves u) ->
  tree_Forall2 (fun a b => R a b = true /\ P a /\ Q b) t u.
Proof.
  revert u. induction t as [a| |items IH] using pytree_ind';
    intros [b| |items'] HR HP HQ; cbn in *; try discriminate; try exact I.
  - inversion HP; inversion HQ; subst. auto.
  - revert items' HR HP HQ.
    induction IH as [|[k c] r Hc _ IHr]; intros [|[k' c'] r'] HR HP HQ;
      cbn in *; try discriminate; try exact I.
    apply andb_true_iff in HR as [HR Hr]. apply andb_true_iff in HR as [Hk Hcc].
    apply bool_decide_eq_true in Hk.
    apply Forall_app in HP as [HPc HPr]. apply Forall_app in HQ as [HQc HQr].
    split; [exact Hk|]. split; [apply Hc; assumption|]. apply IHr; assumption.
Qed.

Lemma tree_Forall2_impl {A B} (R R' : A -> B -> Prop) (t : pytree A) (u : pytree B) :
  (forall a b, R a b -> R' a b) -> tree_Forall2 R t u -> tree_Forall2 R' t u.
Proof.
  intros HRR'. revert u. induction t as [a| |items IH] using pytree_ind';
    intros [b| |items'] H; cbn in *; try contradiction; auto.
  revert items' H.
  induction IH as [|[k c] r Hc _ IHr]; intros [|[k' c'] r'] H;
    cbn in *; try contradiction; auto.
  destruct H as (Hk & Hcc & Hr). auto.
Qed.

Lemma tree_Forall2_all2 {A B} (R : A -> B -> Prop) (Rb : A -> B -> bool)
    (t : pytree A) (u : pytree B) :
  (forall a b, R a b -> Rb a b = true) -> tree_Forall2 R t u -> tree_all2 Rb t u = true.
Proof.
  intros HR. revert u. induction t as [a| |items IH] using pytree_ind';
    intros [b| |items'] H; cbn in *; try contradiction; auto.
  revert items' H.
  induction IH as [|[k c] r Hc _ IHr]; intros [|[k' c'] r'] H;
    cbn in *; try contradiction; auto.
  destruct H as (Hk & Hcc & Hr).
  rewrite (bool_decide_eq_true_2 _ Hk), (Hc _ Hcc), (IHr _ Hr). reflexivity.
Qed.

Lemma items_Forall2_keys {X Y} (g : X -> Y -> Prop) its its' :
  items_Forall2 g its its' -> keys its = keys its'.
Proof.
  revert its'. induction its as [|[k x] r IH]; intros [|[k' y] r'] H;
    cbn in *; try contradiction; [reflexivity|].
  destruct H as (-> & _ & Hr). f_equal. apply IH. exact Hr.
Qed.

(** On trees with the same keys the structure check succeeds and pairs
    the leaves. *)
Lemma flatten_up_to_zip {A B} (R : A -> B -> Prop) (t : pytree A) (u : pytree B) :
  tree_Forall2 R t u ->
  flatten_up_to t u = Ok (tree_zip_with pair_leaf t u).
Proof.
  revert u. induction t as [a| |items IH] using pytree_ind';
    intros [b| |items'] H; cbn in *; try contradiction; try reflexivity.
  rewrite decide_True by (eapply items_Forall2_keys; exact H).
  assert (Hz : items_zipM flatten_up_to items items'
               = Ok (items_zip_with (tree_zip_with pair_leaf) items items')).
  { revert items' H.
    induction IH as [|[k c] r Hc _ IHr]; intros [|[k' c'] r'] H;
      cbn in *; try contradiction; try reflexivity.
    destruct H as (Hk & Hcc & Hr).
    rewrite (Hc _ Hcc). cbn. rewrite (IHr _ Hr). reflexivity. }
  rewrite Hz. reflexivity.
Qed.

Lemma tree_mapM_zip {A B C} (F : A * pytree B -> result C) (g : A -> B -> C)
    (R : A -> B -> Prop) (t : pytree A) (u : pytree B) :
  (forall a b, R a b -> F (a, Leaf b) = Ok (g a b)) ->
  tree_Forall2 R t u ->
  tree_mapM F (tree_zip_with pair_leaf t u) = Ok (tree_zip_with g t u).
Proof.
  intros HF. revert u. induction t as [a| |items IH] using pytree_ind';
    intros [b| |items'] H; cbn in *; try contradiction; try reflexivity.
  - unfold pair_leaf. rewrite (HF _ _ H). reflexivity.
  - assert (Hz : items_mapM (tree_mapM F)
                   (items_zip_with (tree_zip_with pair_leaf) items items')
                 = Ok (items_zip_with (tree_zip_with g) items items')).
    { revert items' H.
      induction IH as [|[k c] r Hc _ IHr]; intros [|[k' c'] r'] H;
        cbn in *; try contradiction; try reflexivity.
      destruct H as (Hk & Hcc & Hr).
      rewrite (Hc _ Hcc). cbn. rewrite (IHr _ Hr). reflexivity. }
    rewrite Hz. reflexivity.
Qed.

Lemma tree_multimap_zip {A B C} (f : A -> pytree B -> result C) (g : A -> B -> C)
    (R : A -> B -> Prop) (t : pytree A) (u : pytree B) :
  (forall a b, R a b -> f a (Leaf b) = Ok (g a b)) ->
  tree_Forall2 R t u ->
  tree_multimap f t u = Ok (tree_zip_with g t u).
Proof.
  intros Hf H. unfold tree_multimap.
  rewrite (flatten_up_to_zip R) by exact H. cbn.
  apply (tree_mapM_zip _ g R); [|exact H]. intros a b HR. cbn. auto.
Qed.

Lemma items_get_zip {X Y Z} (P : X -> Y -> Prop) (G : X -> Y -> Z) k its its' c c' :
  items_Forall2 P its its' ->
  dict_get k its = Some c -> dict_get k its' = Some c' ->
  P c c' /\ dict_get k (items_zip_with G its its') = Some (G c c').
Proof.
  revert its'. induction its as [|[k1 x] r IH]; intros [|[k2 y] r'] H Hc Hc';
    cbn in *; try contradiction; try discriminate.
  destruct H as (<- & Hxy & Hr).
  destruct (decide (k = k1)) as [->|Hne].
  - injection Hc as <-. injection Hc' as <-. auto.
  - eauto.
Qed.

(** Reading the combination of two trees at a path. *)
Lemma tree_get_zip {A B C} (R : A -> B -> Prop) (g : A -> B -> C) path :
  forall (t : pytree A) (u : pytree B) a b,
  tree_Forall2 R t u ->
  tree_get path t = Some (Leaf a) -> tree_get path u = Some (Leaf b) ->
  tree_get path (tree_zip_with g t u) = Some (Leaf (g a b)).
Proof.
  induction path as [|k path IH]; intros t u a b H Ht Hu; cbn in *.
  - injection Ht as ->. injection Hu as ->. reflexivity.
  - destruct t as [?| |its]; try discriminate.
    destruct u as [?| |its']; try discriminate. cbn in H. cbn.
    destruct (dict_get k its) as [c|] eqn:Hc; [|discriminate].
    destruct (dict_get k its') as [c'|] eqn:Hc'; [|discriminate].
    destruct (items_get_zip _ (tree_zip_with g) k its its' c c' H Hc Hc') as [Hcc ->].
    eapply IH; eassumption.
Qed.

Lemma tree_Forall2_zip {A B C} (R : A -> B -> Prop) (R' : A -> C -> Prop)
    (g : A -> B -> C) (t : pytree A) (u : pytree B) :
  (forall a b, R a b -> R' a (g a b)) ->
  tree_Forall2 R t u -> tree_Forall2 R' t (tree_zip_with g t u).
Proof.
  intros HR. revert u. induction t as [a| |items IH] using pytree_ind';
    intros [b| |items'] H; cbn in *; try contradiction; auto.
  revert items' H.
  induction IH as [|[k c] r Hc _ IHr]; intros [|[k' c'] r'] H;
    cbn in *; try contradiction; auto.
  destruct H as (Hk & Hcc & Hr). auto.
Qed.

Lemma tree_Forall2_diag {A} (P : A -> Prop) (t : pytree A) :
  Forall P (tree_leaves t) -> tree_Forall2 (fun a b => a = b /\ P a) t t.
Proof.
  induction t as [a| |items IH] using pytree_ind'; intros HP; cbn in *; auto.
  - inversion HP; subst. auto.
  - induction IH as [|[k c] r Hc _ IHr]; cbn in *; auto.
    apply Forall_app in HP as [HPc HPr]. auto.
Qed.

Lemma tree_zip_with_fst {A B} (R : A -> B -> Prop) (t : pytree A) (u : pytree B) :
  tree_Forall2 R t u -> tree_zip_with (fun a _ => a) t u = t.
Proof.
  revert u. induction t as [a| |items IH] using pytree_ind';
    intros [b| |items'] H; cbn in *; try contradiction; try reflexivity.
  f_equal. revert items' H.
  induction IH as [|[k c] r Hc _ IHr]; intros [|[k' c'] r'] H;
    cbn in *; try contradiction; try reflexivity.
  destruct H as (Hk & Hcc & Hr). rewrite (Hc _ Hcc), (IHr _ Hr). reflexivity.
Qed.

Lemma zip_with_diag_id {X} (f : X -> X -> X) (xs : list X) :
  Forall (fun x => f x x = x) xs -> zip_with f xs xs = xs.
Proof. induction 1 as [|x xs Hx _ IH]; cbn; [reflexivity|]. rewrite Hx, IH. reflexivity. Qed.

Lemma items_mapM_get {X Y} (G : X -> result Y) (k : string) :
  forall (its : list (string * X)) (its' : list (string * Y)) (c : X),
  items_mapM G its = Ok its' -> dict_get k its = Some c ->
  exists c', G c = Ok c' /\ dict_get k its' = Some c'.
Proof.
  induction its as [|[k1 x] r IH]; intros its' c Hrun Hget; cbn in *; [discriminate|].
  destruct (G x) as [y|] eqn:Hy; [|discriminate]. cbn in Hrun.
  destruct (items_mapM G r) as [ys|] eqn:Hys; [|discriminate]. cbn in Hrun.
  injection Hrun as <-. cbn.
  destruct (decide (k = k1)) as [->|Hne].
  - injection Hget as <-. eauto.
  - eapply IH; [reflexivity|exact Hget].
Qed.

(** What [tree_mapM] returns at a path is what the function returns on the
    leaf at that path. *)
Lemma tree_mapM_get {A B} (F : A -> result B) (path : list string) :
  forall (t : pytree A) (r : pytree B) (x : A),
  tree_mapM F t = Ok r -> tree_get path t = Some (Leaf x) ->
  exists c, F x = Ok c /\ tree_get path r = Some (Leaf c).
Proof.
  induction path as [|k path IH]; intros t r x Hrun Hget; cbn in Hget.
  - injection Hget as ->. cbn in Hrun.
    destruct (F x) as [c|] eqn:Hc; [|discriminate]. injection Hrun as <-. eauto.
  - destruct t as [?| |its]; try discriminate. cbn in Hrun.
    destruct (items_mapM (tree_mapM F) its) as [its'|] eqn:Hits; [|discriminate].
    injection Hrun as <-.
    destruct (dict_get k its) as [c|] eqn:Hc; [|discriminate].
    destruct (items_mapM_get _ k its its' c Hits Hc) as (c' & Hc' & Hget').
    destruct (IH c c' x Hc' Hget) as (y & Hy & Hgy).
    exists y. split; [exact Hy|]. cbn. rewrite Hget'. exact Hgy.
Qed.

Lemma tree_mapM_get_none {A B} (F : A -> result B) (path : list string) :
  forall (t : pytree A) (r : pytree B),
  tree_mapM F t = Ok r -> tree_get path t = Some PyNone ->
  tree_get path r = Some PyNone.
Proof.
  induction path as [|k path IH]; intros t r Hrun Hget; cbn in Hget.
  - injection Hget as ->. cbn in Hrun. injection Hrun as <-. reflexivity.
  - destruct t as [?| |its]; try discriminate. cbn in Hrun.
    destruct (items_mapM (tree_mapM F) its) as [its'|] eqn:Hits; [|discriminate].
    injection Hrun as <-.
    destruct (dict_get k its) as [c|] eqn:Hc; [|discriminate].
    destruct (items_mapM_get _ k its its' c Hits Hc) as (c' & Hc' & Hget').
    cbn. rewrite Hget'. exact (IH c c' Hc' Hget).
Qed.

(** What [flatten_up_to] returns at a key is what it returns on the two
    entries of that key. *)
Lemma items_zipM_get {X Y Z} (g : X -> Y -> result Z) (k : string) :
  forall (its : list (string * X)) (its' : list (string * Y)) zs (x : X),
  keys its = keys its' -> items_zipM g its its' = Ok zs ->
  dict_get k its = Some x ->
  exists y z, dict_get k its' = Some y /\ g x y = Ok z /\ dict_get k zs = Some z.
Proof.
  induction its as [|[k1 x1] r IH]; intros [|[k2 y2] r'] zs x Hk Hz Hget;
    cbn in *; try discriminate.
  injection Hk as <- Hk.
  destruct (g x1 y2) as [z1|] eqn:Hg; [|discriminate]. cbn in Hz.
  destruct (items_zipM g r r') as [zr|] eqn:Hzr; [|discriminate]. cbn in Hz.
  injection Hz as <-. cbn.
  destruct (decide (k = k1)) as [->|Hne].
  - injection Hget as <-. eauto.
  - eapply IH; eauto.
Qed.

(** At a path where the first tree has a leaf, [flatten_up_to] pairs it
    with what the second tree has there. *)
Lemma flatten_up_to_get {A B} (path : list string) :
  forall (t : pytree A) (u : pytree B) pairs (a : A) (c : pytree B),
  flatten_up_to t u = Ok pairs ->
  tree_get path t = Some (Leaf a) -> tree_get path u = Some c ->
  tree_get path pairs = Some (Leaf (a, c)).
Proof.
  induction path as [|k path IH]; intros t u pairs a c Hfl Ht Hu; cbn in Ht, Hu.
  - injection Ht as ->. injection Hu as ->. cbn in Hfl. injection Hfl as <-.
    reflexivity.
  - destruct t as [?| |its]; try discriminate.
    destruct u as [?| |its']; try discriminate. cbn in Hfl.
    destruct (decide (keys its = keys its')) as [Hk|]; [|discriminate].
    destruct (items_zipM flatten_up_to its its') as [zs|] eqn:Hz; [|discriminate].
    cbn in Hfl. injection Hfl as <-.
    destruct (dict_get k its) as [tc|] eqn:Htc; [|discriminate].
    destruct (items_zipM_get _ k _ _ _ _ Hk Hz Htc) as (y & z & Hy & Hg & Hgz).
    rewrite Hy in Hu. cbn. rewrite Hgz. eapply IH; eassumption.
Qed.

(** At a path where the first tree has [None], so has the result. *)
Lemma flatten_up_to_get_none {A B} (path : list string) :
  forall (t : pytree A) (u : pytree B) pairs,
  flatten_up_to t u = Ok pairs -> tree_get path t = Some PyNone ->
  tree_get path pairs = Some PyNone.
Proof.
  induction path as [|k path IH]; intros t u pairs Hfl Ht; cbn in Ht.
  - injection Ht as ->. cbn in Hfl. injection Hfl as <-. reflexivity.
  - destruct t as [?| |its]; try discriminate.
    destruct u as [?| |its']; try discriminate. cbn in Hfl.
    destruct (decide (keys its = keys its')) as [Hk|]; [|discriminate].
    destruct (items_zipM flatten_up_to its its') as [zs|] eqn:Hz; [|discriminate].
    cbn in Hfl. injection Hfl as <-.
    destruct (dict_get k its) as [tc|] eqn:Htc; [|discriminate].
    destruct (items_zipM_get _ k _ _ _ _ Hk Hz Htc) as (y & z & Hy & Hg & Hgz).
    cbn. rewrite Hgz. eapply IH; eassumption.
Qed.

(** ** Dicts in increasing key order *)

(** Two lists of keys in strictly increasing order with the same elements
    are the same list: for dicts kept in key order, the same key set is
    the same list of keys. *)
Lemma sorted_keys_unique (l1 l2 : list string) :
  Sorted String_as_OT.lt l1 -> Sorted String_as_OT.lt l2 ->
  (forall k, k ∈ l1 <-> k ∈ l2) -> l1 = l2.
Proof.
  assert (Htrans : Transitive String_as_OT.lt)
    by (intros x y z; apply String_as_OT.lt_trans).
  assert (Hnodup : forall l, Sorted String_as_OT.lt l -> NoDup l).
  { intros l Hl. apply Sorted_StronglySorted in Hl; [|exact Htrans].
    induction Hl as [|x l Hl IH Hx]; constructor; [|exact IH].
    intros Hin. rewrite Forall_forall in Hx.
    exact (String_as_OT.lt_not_eq _ _ (Hx _ Hin) eq_refl). }
  intros H1 H2 Hsame.
  apply (Sorted_unique_strong String_as_OT.lt); try assumption.
  - intros x1 x2 _ _ H12 H21.
    exfalso. exact (String_as_OT.lt_not_eq _ _ (Htrans _ _ _ H12 H21) eq_refl).
  - apply NoDup_Permutation; auto.
Qed.

Lemma canonical_same_key_set {X Y} (its : list (string * X)) (its' : list (string * Y)) :
  Sorted String_as_OT.lt (keys its) -> Sorted String_as_OT.lt (keys its') ->
  (keys its = keys its' <-> forall k, k ∈ keys its <-> k ∈ keys its').
Proof.
  intros H1 H2. split.
  - intros ->. tauto.
  - apply sorted_keys_unique; assumption.
Qed.

(** ** The update rule *)

(** C1.  For a state with [decay != 0] and new live parameters with the
    same key set and shapes as the shadow, [update] returns a state whose
    shadow has, at every key path, the array whose elements are
    [decay * shadow + (1 - decay) * new_live], element by element: the
    shadow is the leaf-by-leaf combination of the two trees, and it keeps the
    key set and the shapes. *)
Theorem update_shadow_formula (s : EmaState ndarray) (new_live : pytree ndarray) :
  (decay s =? 0)%float = false ->
  same_structure (variables s) new_live = true ->
  wf_tree (variables s) -> wf_tree new_live ->
  exists s',
    update s new_live = Ok s' /\
    variables s' = tree_zip_with (ema_array (decay s)) (variables s) new_live /\
    same_structure (variables s) (variables s') = true /\
    forall path a b,
      tree_get path (variables s) = Some (Leaf a) ->
      tree_get path new_live = Some (Leaf b) ->
      tree_get path (variables s') = Some (Leaf (ema_array (decay s) a b)) /\
      forall i x p,
        data a !! i = Some x -> data b !! i = Some p ->
        data (ema_array (decay s) a b) !! i
        = Some (decay s * x + (1 - decay s) * p)%float.
Proof.
  intros Hd Hss Hwf Hwf'.
  pose proof (tree_Forall2_intro _ wf_array wf_array _ _ Hss Hwf Hwf') as HR.
  exists (replace_variables s (tree_zip_with (ema_array (decay s)) (variables s) new_live)).
  split; [|split; [reflexivity|split]].
  - unfold update. rewrite Hd.
    erewrite (tree_multimap_zip _ (ema_array (decay s))); [reflexivity| |exact HR].
    intros a b (Hs & Ha & Hb). apply bool_decide_eq_true in Hs.
    apply ema_leaf_same_shape; assumption.
  - cbn. unfold same_structure.
    apply (tree_Forall2_all2 (fun a c => shape a = shape c)).
    + intros a c Hac. apply bool_decide_eq_true_2. exact Hac.
    + eapply tree_Forall2_zip; [|exact HR]. intros a b _. reflexivity.
  - intros path a b Ha Hb. split.
    + cbn. eapply tree_get_zip; eassumption.
    + intros i x p Hx Hp. cbn. rewrite lookup_zip_with, Hx. cbn. rewrite Hp. reflexivity.
Qed.

(** The scenario of the specification: shadow [{"w": 2.0}], decay [0.9],
    new live parameters [{"w": 12.0}]. *)
Lemma update_shadow_formula_witness :
  exists s',
    update (mkEmaState 0.9%float (Dict [("w", Leaf (scalar 2%float))]))
           (Dict [("w", Leaf (scalar 12%float))]) = Ok s' /\
    variables s' = Dict [("w", Leaf (ema_array 0.9%float (scalar 2%float) (scalar 12%float)))].
Proof.
  destruct (update_shadow_formula
              (mkEmaState 0.9%float (Dict [("w", Leaf (scalar 2%float))]))
              (Dict [("w", Leaf (scalar 12%float))]))
    as (s' & Hu & Hv & _).
  - reflexivity.
  - reflexivity.
  - repeat constructor.
  - repeat constructor.
  - exists s'. split; [exact Hu | exact Hv].
Defined.

Example update_scenario_w :
  update (mkEmaState 0.9%float (Dict [("w", Leaf (scalar 2%float))]))
         (Dict [("w", Leaf (scalar 12%float))])
  = Ok (mkEmaState 0.9%float (Dict [("w", Leaf (scalar 3%float))])).
Proof. vm_compute. reflexivity. Qed.

Example update_scenario_three_steps :
  update_all (mkEmaState 0.5%float (Dict [("w", Leaf (scalar 0%float))]))
    (replicate 3 (Dict [("w", Leaf (scalar 10%float))]))
  = Ok (mkEmaState 0.5%float (Dict [("w", Leaf (scalar 8.75%float))])).
Proof. vm_compute. reflexivity. Qed.

(** ** Disabled and enabled states *)

(** C3.  With [decay == 0], [create] returns a state without shadow for
    every parameter tree, and [update] returns a state without shadow for
    every state and every new tree; so does [update] after [create]. *)
Theorem disabled_shadow_absent :
  (forall (d : float) (P : pytree ndarray),
      (d =? 0)%float = true ->
      variables (create d P) = PyNone /\ (decay (create d P) =? 0)%float = true) /\
  (forall (P : pytree ndarray), variables (create 0%float P) = PyNone) /\
  (forall (s : EmaState ndarray) (P2 : pytree ndarray),
      (decay s =? 0)%float = true ->
      exists s', update s P2 = Ok s' /\ variables s' = PyNone /\ decay s' = decay s) /\
  (forall (P P2 : pytree ndarray),
      exists s', update (create 0%float P) P2 = Ok s' /\ variables s' = PyNone).
Proof.
  split; [|split; [|split]].
  - intros d P Hd. unfold create. rewrite Hd. split; reflexivity.
  - intros P. reflexivity.
  - intros s P2 Hd. unfold update. rewrite Hd. eexists. split; [reflexivity|]. split; reflexivity.
  - intros P P2. eexists. split; reflexivity.
Qed.

Lemma disabled_shadow_absent_witness :
  variables (create (-0)%float (Dict [("w", Leaf (scalar 2%float))])) = PyNone /\
  exists s',
    update (mkEmaState 0%float (Dict [("w", Leaf (scalar 2%float))])) (PyNone) = Ok s' /\
    variables s' = PyNone.
Proof.
  destruct disabled_shadow_absent as (Hc & _ & Hu & _). split.
  - apply Hc. reflexivity.
  - destruct (Hu (mkEmaState 0%float (Dict [("w", Leaf (scalar 2%float))])) PyNone eq_refl)
      as (s' & H1 & H2 & _).
    exists s'. split; assumption.
Defined.

(** C6.  The state [update] returns has the decay of the state it was
    called on, and so has the state reached by any sequence of updates: a
    state never changes between disabled ([decay == 0]) and enabled. *)
Theorem update_keeps_decay (s : EmaState ndarray) :
  (forall new_live s', update s new_live = Ok s' -> decay s' = decay s) /\
  (forall ps s', update_all s ps = Ok s' ->
     decay s' = decay s /\ (decay s' =? 0)%float = (decay s =? 0)%float).
Proof.
  assert (H1 : forall (s0 : EmaState ndarray) new_live s',
             update s0 new_live = Ok s' -> decay s' = decay s0).
  { intros s0 new_live s'. unfold update.
    destruct (decay s0 =? 0)%float.
    - intros [= <-]. reflexivity.
    - destruct (tree_multimap _ _ _) as [v|e]; cbn; [|discriminate].
      intros [= <-]. reflexivity. }
  split; [apply H1|].
  intros ps. revert s. induction ps as [|p ps IH]; intros s s' H; cbn in H.
  - injection H as <-. split; reflexivity.
  - destruct (update s p) as [s1|e] eqn:Hu; cbn in H; [|discriminate].
    apply H1 in Hu. destruct (IH _ _ H) as [Hd _]. rewrite Hd, Hu. split; reflexivity.
Qed.

Lemma update_keeps_decay_witness :
  exists s',
    update_all (mkEmaState 0.5%float (Dict [("w", Leaf (scalar 0%float))]))
      (replicate 3 (Dict [("w", Leaf (scalar 10%float))])) = Ok s' /\
    decay s' = 0.5%float.
Proof.
  exists (mkEmaState 0.5%float (Dict [("w", Leaf (scalar 8.75%float))])).
  assert (Hrun : update_all (mkEmaState 0.5%float (Dict [("w", Leaf (scalar 0%float))]))
                   (replicate 3 (Dict [("w", Leaf (scalar 10%float))]))
                 = Ok (mkEmaState 0.5%float (Dict [("w", Leaf (scalar 8.75%float))])))
    by (vm_compute; reflexivity).
  split; [exact Hrun|].
  exact (proj1 (proj2 (update_keeps_decay _) _ _ Hrun)).
Defined.

(** ** Updating with the shadow itself *)

Lemma tree_zip_with_diag {A C} (g : A -> A -> C) (t : pytree A) :
  tree_zip_with g t t = tree_map (fun a => g a a) t.
Proof.
  induction t as [a| |items IH] using pytree_ind'; cbn; try reflexivity.
  f_equal. induction IH as [|[k c] r Hc _ IHr]; cbn; [reflexivity|].
  cbn in Hc. rewrite Hc, IHr. reflexivity.
Qed.

Lemma tree_map_fixed {A} (f : A -> A) (t : pytree A) :
  Forall (fun a => f a = a) (tree_leaves t) -> tree_map f t = t.
Proof.
  induction t as [a| |items IH] using pytree_ind'; intros Hf; cbn in *; try reflexivity.
  - inversion Hf; subst. congruence.
  - f_equal. induction IH as [|[k c] r Hc _ IHr]; cbn in *; [reflexivity|].
    apply Forall_app in Hf as [Hfc Hfr]. rewrite (Hc Hfc), (IHr Hfr). reflexivity.
Qed.

(** C7, amended.  Updating an enabled state with its own shadow replaces
    every element [x] by the binary64 value of
    [decay * x + (1 - decay) * x]; the shadow is unchanged when that value
    is [x] for every element, which floating-point rounding does not
    guarantee. *)
Theorem update_with_own_shadow (s : EmaState ndarray) :
  (decay s =? 0)%float = false ->
  wf_tree (variables s) ->
  update s (variables s)
  = Ok (replace_variables s
          (tree_map (fun a => ema_array (decay s) a a) (variables s))) /\
  (Forall (fun a => Forall (fun x => ema_elem (decay s) x x = x) (data a))
     (tree_leaves (variables s)) ->
   update s (variables s) = Ok s).
Proof.
  intros Hd Hwf.
  assert (Hu : update s (variables s)
               = Ok (replace_variables s
                       (tree_map (fun a => ema_array (decay s) a a) (variables s)))).
  { unfold update. rewrite Hd.
    rewrite (tree_multimap_zip (ema_leaf (decay s)) (ema_array (decay s))
               (fun a b => a = b /\ wf_array a) (variables s) (variables s)).
    - cbn. rewrite tree_zip_with_diag. reflexivity.
    - intros a b [<- Ha]. apply ema_leaf_same_shape; auto.
    - apply tree_Forall2_diag. exact Hwf. }
  split; [exact Hu|].
  intros Hfix. rewrite Hu. f_equal.
  rewrite tree_map_fixed.
  - destruct s; reflexivity.
  - eapply Forall_impl; [exact Hfix|]. intros [sh xs] Hxs. unfold ema_array. cbn in *.
    f_equal. apply zip_with_diag_id. exact Hxs.
Qed.

Lemma update_with_own_shadow_witness :
  update (mkEmaState 0.5%float (Dict [("w", Leaf (NdArray [2] [2; 4]%float))]))
         (Dict [("w", Leaf (NdArray [2] [2; 4]%float))])
  = Ok (mkEmaState 0.5%float (Dict [("w", Leaf (NdArray [2] [2; 4]%float))])).
Proof.
  apply (update_with_own_shadow
           (mkEmaState 0.5%float (Dict [("w", Leaf (NdArray [2] [2; 4]%float))]))).
  - reflexivity.
  - repeat constructor.
  - repeat constructor.
Defined.

(** Decay [0.3] and a shadow whose one element is [1.5]: the update with
    the shadow itself returns [1.4999999999999998]. *)
Lemma update_with_own_shadow_counterexample :
  update (mkEmaState 0.3%float (Dict [("w", Leaf (scalar 1.5%float))]))
         (Dict [("w", Leaf (scalar 1.5%float))])
  = Ok (mkEmaState 0.3%float (Dict [("w", Leaf (scalar 1.4999999999999998%float))])) /\
  (0.3 * 1.5 + (1 - 0.3) * 1.5 =? 1.5)%float = false.
Proof. split; vm_compute; reflexivity. Qed.

(** ** Mismatching trees *)

Lemma same_keys_Forall2 {A B} (t : pytree A) (u : pytree B) :
  same_keys t u = true -> tree_Forall2 (fun _ _ => True) t u.
Proof.
  intros H.
  eapply tree_Forall2_impl;
    [|apply (tree_Forall2_intro _ (fun _ => True) (fun _ => True) _ _ H);
      apply Forall_forall; auto].
  auto.
Qed.

Lemma tree_all2_same_keys {A B} (R : A -> B -> bool) (t : pytree A) (u : pytree B) :
  tree_all2 R t u = true -> same_keys t u = true.
Proof.
  intros H. unfold same_keys.
  apply (tree_Forall2_all2 (fun _ _ => True)); [auto|].
  eapply tree_Forall2_impl;
    [|apply (tree_Forall2_intro _ (fun _ => True) (fun _ => True) _ _ H);
      apply Forall_forall; auto].
  auto.
Qed.

(** On two arrays it succeeds exactly when their shapes can be broadcast. *)
Lemma ema_leaf_outcome (d : float) (a b : ndarray) :
  match ema_leaf d a (Leaf b) with
  | Ok _ => broadcastable a b = true
  | Raise e => e = BroadcastError /\ broadcastable a b = false
  end.
Proof.
  unfold ema_leaf, broadcastable. cbn -[add]. unfold add. cbn -[broadcast_shapes].
  destruct (broadcast_shapes (shape a) (shape b)); auto.
Qed.

(** On a leaf of the shadow the lambda succeeds exactly on an array that
    can be broadcast. *)
Lemma ema_leaf_accepted (d : float) (a : ndarray) (p : pytree ndarray) :
  is_ok (ema_leaf d a p) = accepted (Leaf a) p.
Proof.
  destruct p as [b| |its]; try reflexivity.
  pose proof (ema_leaf_outcome d a b) as H. cbn [accepted].
  destruct (ema_leaf d a (Leaf b)) as [c|e]; cbn.
  - symmetry. exact H.
  - symmetry. exact (proj2 H).
Qed.

(** Once the structure check has passed, the second phase of
    [tree_multimap] succeeds exactly on the trees that [update]
    accepts. *)
Lemma tree_mapM_accepted (d : float) (t : pytree ndarray) :
  forall (u : pytree ndarray) pairs,
  flatten_up_to t u = Ok pairs ->
  is_ok (tree_mapM (fun ap : ndarray * pytree ndarray => ema_leaf d ap.1 ap.2) pairs)
  = accepted t u.
Proof.
  set (F := fun ap : ndarray * pytree ndarray => ema_leaf d ap.1 ap.2).
  induction t as [a| |items IH] using pytree_ind'; intros u pairs Hfl.
  - cbn in Hfl. injection Hfl as <-.
    rewrite <- ema_leaf_accepted with (d := d).
    cbn [tree_mapM]. change (F (a, u)) with (ema_leaf d a u).
    destruct (ema_leaf d a u); reflexivity.
  - cbn in Hfl. injection Hfl as <-. reflexivity.
  - destruct u as [?| |items']; try discriminate. cbn in Hfl.
    destruct (decide (keys items = keys items')) as [Hk|]; [|discriminate].
    destruct (items_zipM flatten_up_to items items') as [zs|] eqn:Hz; [|discriminate].
    cbn in Hfl. injection Hfl as <-. cbn [tree_mapM accepted].
    assert (Hit : is_ok (items_mapM (tree_mapM F) zs)
                  = items_all2 accepted items items').
    { clear -IH Hk Hz. revert items' zs Hk Hz.
      induction IH as [|[k c] rest Hc _ IHr]; intros [|[k' c'] rest'] zs Hk Hz;
        cbn in *; try discriminate.
      - injection Hz as <-. reflexivity.
      - injection Hk as <- Hk.
        destruct (flatten_up_to c c') as [z|] eqn:Hzc; [|discriminate]. cbn in Hz.
        destruct (items_zipM flatten_up_to rest rest') as [zs'|] eqn:Hzr;
          [|discriminate].
        cbn in Hz. injection Hz as <-. cbn.
        rewrite bool_decide_eq_true_2 by reflexivity. cbn.
        rewrite <- (Hc _ _ Hzc), <- (IHr _ _ Hk Hzr).
        destruct (tree_mapM F z) as [y|]; cbn; [|reflexivity].
        destruct (items_mapM (tree_mapM F) zs') as [ys|]; reflexivity. }
    rewrite <- Hit.
    destruct (items_mapM (tree_mapM F) zs); reflexivity.
Qed.

(** With the same keys, the second phase succeeds when every pair of
    leaves is accepted by the function, and raises the function's error
    otherwise. *)
Lemma tree_mapM_outcome {A B C} (F : A * pytree B -> result C)
    (Rb : A -> B -> bool) (E : exn) (t : pytree A) :
  (forall a b, match F (a, Leaf b) with
               | Ok _ => Rb a b = true
               | Raise e => e = E /\ Rb a b = false
               end) ->
  forall u : pytree B,
  tree_Forall2 (fun _ _ => True) t u ->
  match tree_mapM F (tree_zip_with pair_leaf t u) with
  | Ok _ => tree_all2 Rb t u = true
  | Raise e => e = E /\ tree_all2 Rb t u = false
  end.
Proof.
  intros HF. induction t as [a| |items IH] using pytree_ind';
    intros [b| |items'] H; cbn in *; try contradiction; auto.
  - unfold pair_leaf. specialize (HF a b). destruct (F (a, Leaf b)); cbn; auto.
  - assert (Hit : match items_mapM (tree_mapM F)
                          (items_zip_with (tree_zip_with pair_leaf) items items') with
                  | Ok _ => items_all2 (tree_all2 Rb) items items' = true
                  | Raise e => e = E /\ items_all2 (tree_all2 Rb) items items' = false
                  end).
    { revert items' H.
      induction IH as [|[k c] rest Hc _ IHr]; intros [|[k' c'] rest'] H;
        cbn in *; try contradiction; auto.
      destruct H as (-> & Hcc & Hr).
      rewrite bool_decide_eq_true_2 by reflexivity. cbn.
      specialize (Hc _ Hcc).
      destruct (tree_mapM F (tree_zip_with pair_leaf c c')) as [y|e]; cbn.
      - rewrite Hc. cbn. specialize (IHr _ Hr).
        destruct (items_mapM (tree_mapM F) _) as [ys|e]; cbn; auto.
      - destruct Hc as [-> ->]. auto. }
    destruct (items_mapM (tree_mapM F) _) as [ys|e]; cbn; auto.
Qed.

Lemma items_all2_keys {X Y} (g : X -> Y -> bool) its its' :
  items_all2 g its its' = true -> keys its = keys its'.
Proof.
  revert its'. induction its as [|[k x] r IH]; intros [|[k' y] r'] H;
    cbn in *; try discriminate; [reflexivity|].
  apply andb_true_iff in H as [H Hr]. apply andb_true_iff in H as [Hk _].
  apply bool_decide_eq_true in Hk. subst k'.
  change (k :: keys r = k :: keys r'). f_equal. apply IH. exact Hr.
Qed.

(** The structure check raises its own error, and exactly on the trees
    that do not match. *)
Lemma flatten_up_to_outcome {A B} (t : pytree A) :
  forall u : pytree B,
  match flatten_up_to t u with
  | Ok _ => structure_matches t u = true
  | Raise e => e = TreeStructureMismatch /\ structure_matches t u = false
  end.
Proof.
  induction t as [a| |items IH] using pytree_ind'; intros u; cbn.
  - reflexivity.
  - destruct u; auto.
  - destruct u as [?| |items']; auto.
    destruct (decide (keys items = keys items')) as [Hk|Hk]; cbn.
    + assert (Hz : match items_zipM flatten_up_to items items' with
                   | Ok _ => items_all2 structure_matches items items' = true
                   | Raise e => e = TreeStructureMismatch /\
                                items_all2 structure_matches items items' = false
                   end).
      { revert items' Hk.
        induction IH as [|[k c] r Hc _ IHr]; intros [|[k' c'] r'] Hk;
          cbn in *; try discriminate; auto.
        injection Hk as -> Hk. specialize (Hc c').
        rewrite bool_decide_eq_true_2 by reflexivity. cbn.
        destruct (flatten_up_to c c') as [z|e]; cbn.
        - rewrite Hc. cbn. specialize (IHr r' Hk).
          destruct (items_zipM flatten_up_to r r'); cbn; auto.
        - destruct Hc as [-> ->]. auto. }
      destruct (items_zipM flatten_up_to items items'); cbn; auto.
    + split; [reflexivity|].
      destruct (items_all2 structure_matches items items') eqn:E; [|reflexivity].
      apply items_all2_keys in E. contradiction.
Qed.

(** What [update] accepts has the dicts and keys of the shadow. *)
Lemma accepted_structure (t : pytree ndarray) :
  forall u : pytree ndarray, accepted t u = true -> structure_matches t u = true.
Proof.
  induction t as [a| |items IH] using pytree_ind'; intros u H; cbn in *; auto.
  destruct u as [?| |items']; try discriminate.
  revert items' H.
  induction IH as [|[k c] r Hc _ IHr]; intros [|[k' c'] r'] H;
    cbn in *; try discriminate; auto.
  apply andb_true_iff in H as [H Hr]. apply andb_true_iff in H as [Hk Hcc].
  rewrite Hk, (Hc _ Hcc), (IHr _ Hr). reflexivity.
Qed.

(** An enabled [update] returns a state exactly on the trees it accepts. *)
Lemma update_ok_accepted (s : EmaState ndarray) (new_live : pytree ndarray) :
  (decay s =? 0)%float = false ->
  is_ok (update s new_live) = accepted (variables s) new_live.
Proof.
  intros Hd. unfold update. rewrite Hd. unfold tree_multimap.
  pose proof (flatten_up_to_outcome (variables s) new_live) as Hfl.
  destruct (flatten_up_to (variables s) new_live) as [pairs|e] eqn:Hp.
  - cbn. rewrite <- (tree_mapM_accepted (decay s) _ _ _ Hp).
    destruct (tree_mapM _ pairs); reflexivity.
  - cbn. destruct Hfl as [_ Hm].
    destruct (accepted (variables s) new_live) eqn:Ha; [|reflexivity].
    apply accepted_structure in Ha. congruence.
Qed.

(** A dict of the first tree that meets anything but a dict with its keys
    fails the structure check. *)
Lemma structure_matches_get {A B} (path : list string) :
  forall (t : pytree A) (u : pytree B) its c,
  structure_matches t u = true ->
  tree_get path t = Some (Dict its) -> tree_get path u = Some c ->
  exists its', c = Dict its' /\ keys its = keys its'.
Proof.
  induction path as [|k path IH]; intros t u its c Hm Ht Hu; cbn in Ht, Hu.
  - injection Ht as ->. injection Hu as ->. cbn in Hm.
    destruct c as [?| |its']; try discriminate.
    exists its'. split; [reflexivity|]. eapply items_all2_keys. exact Hm.
  - destruct t as [?| |tits]; try discriminate.
    destruct u as [?| |uits]; try discriminate. cbn in Hm.
    destruct (dict_get k tits) as [tc|] eqn:Htc; [|discriminate].
    destruct (dict_get k uits) as [uc|] eqn:Huc; [|discriminate].
    assert (Hcc : structure_matches tc uc = true).
    { clear -Hm Htc Huc. revert uits Hm Huc.
      induction tits as [|[k1 x1] r IHr]; intros [|[k2 y2] r'] Hm Huc;
        cbn in *; try discriminate.
      apply andb_true_iff in Hm as [Hm Hr]. apply andb_true_iff in Hm as [Hk Hxy].
      apply bool_decide_eq_true in Hk. subst k2.
      destruct (decide (k = k1)) as [->|Hne].
      - injection Htc as <-. injection Huc as <-. exact Hxy.
      - eapply IHr; eassumption. }
    eapply IH; eassumption.
Qed.

(** C5, amended.  An enabled [update] returns a state exactly when the new
    tree has, at every dict of the shadow, a dict with the same key set
    and, at every array of the shadow, an array whose shape can be
    broadcast against it.  A dict of the shadow that meets anything else
    than a dict with its keys, in particular a mapping that lacks a key of
    the shadow or has one more, makes [update] fail with the error of the
    structure check, raised before any arithmetic.  With the same keys, an
    array whose shape cannot be broadcast makes [update] fail with the
    broadcast error.  Two mismatches are not rejected: shapes that differ
    but can be broadcast are broadcast, and where the shadow holds [None]
    nothing is checked, what the new tree holds there is dropped and the
    new shadow holds [None] again. *)
Theorem update_mismatch (s : EmaState ndarray) (new_live : pytree ndarray) :
  (decay s =? 0)%float = false ->
  ((exists s', update s new_live = Ok s') <->
     accepted (variables s) new_live = true) /\
  (structure_matches (variables s) new_live = false ->
     update s new_live = Raise TreeStructureMismatch) /\
  (forall its its', variables s = Dict its -> new_live = Dict its' ->
     keys its <> keys its' ->
     update s new_live = Raise TreeStructureMismatch) /\
  (forall path its c,
     tree_get path (variables s) = Some (Dict its) ->
     tree_get path new_live = Some c ->
     (forall its', c = Dict its' -> keys its <> keys its') ->
     update s new_live = Raise TreeStructureMismatch) /\
  (same_keys (variables s) new_live = true ->
     compatible (variables s) new_live = false ->
     update s new_live = Raise BroadcastError) /\
  (compatible (variables s) new_live = true ->
     exists s', update s new_live = Ok s') /\
  (forall s' path,
     update s new_live = Ok s' ->
     tree_get path (variables s) = Some PyNone ->
     tree_get path (variables s') = Some PyNone).
Proof.
  intros Hd.
  assert (Hsame : same_keys (variables s) new_live = true ->
            match update s new_live with
            | Ok _ => compatible (variables s) new_live = true
            | Raise e => e = BroadcastError /\ compatible (variables s) new_live = false
            end).
  { intros Hk. apply same_keys_Forall2 in Hk.
    unfold update. rewrite Hd. unfold tree_multimap.
    rewrite (flatten_up_to_zip _ _ _ Hk). cbn.
    pose proof (tree_mapM_outcome
                  (fun ap : ndarray * pytree ndarray => ema_leaf (decay s) ap.1 ap.2)
                  broadcastable BroadcastError (variables s)
                  (fun a b => ema_leaf_outcome (decay s) a b) new_live Hk) as Hout.
    destruct (tree_mapM _ _) as [v|e]; cbn; exact Hout. }
  assert (Hstruct : structure_matches (variables s) new_live = false ->
            update s new_live = Raise TreeStructureMismatch).
  { intros Hm. unfold update. rewrite Hd. unfold tree_multimap.
    pose proof (flatten_up_to_outcome (variables s) new_live) as Hfl.
    destruct (flatten_up_to (variables s) new_live) as [pairs|e]; [congruence|].
    destruct Hfl as [-> _]. reflexivity. }
  split; [|split; [|split; [|split; [|split; [|split]]]]].
  - pose proof (update_ok_accepted s new_live Hd) as Hok. split.
    + intros [s' Hu]. rewrite Hu in Hok. symmetry. exact Hok.
    + intros Ha. rewrite Ha in Hok.
      destruct (update s new_live) as [s'|e]; [eauto|discriminate].
  - exact Hstruct.
  - intros its its' Hv -> Hne. unfold update. rewrite Hd, Hv. unfold tree_multimap. cbn.
    rewrite decide_False by exact Hne. reflexivity.
  - intros path its c Ht Hu Hne. apply Hstruct.
    destruct (structure_matches (variables s) new_live) eqn:Hm; [|reflexivity].
    destruct (structure_matches_get path _ _ _ _ Hm Ht Hu) as (its' & Hc & Hk).
    exfalso. exact (Hne its' Hc Hk).
  - intros Hk Hc. specialize (Hsame Hk).
    destruct (update s new_live) as [s'|e]; [congruence|].
    destruct Hsame as [-> _]. reflexivity.
  - intros Hc. specialize (Hsame (tree_all2_same_keys _ _ _ Hc)).
    destruct (update s new_live) as [s'|e]; [eauto|].
    destruct Hsame as [_ Hf]. congruence.
  - intros s' path Hu Ht. unfold update in Hu. rewrite Hd in Hu.
    unfold tree_multimap in Hu.
    destruct (flatten_up_to (variables s) new_live) as [pairs|] eqn:Hfl; [|discriminate].
    cbn in Hu.
    destruct (tree_mapM _ pairs) as [r|] eqn:Hr; [|discriminate].
    cbn in Hu. injection Hu as <-. cbn.
    eapply tree_mapM_get_none; [exact Hr|].
    eapply flatten_up_to_get_none; eassumption.
Qed.

(** A live mapping without the key ["b"] of the shadow, and a live array
    whose shape cannot be broadcast. *)
Lemma update_mismatch_witness :
  update (mkEmaState 0.9%float
            (Dict [("a", Leaf (scalar 1%float)); ("b", Leaf (scalar 2%float))]))
         (Dict [("a", Leaf (scalar 1%float))])
  = Raise TreeStructureMismatch /\
  update (mkEmaState 0.9%float (Dict [("w", Leaf (NdArray [2] [1; 2]%float))]))
         (Dict [("w", Leaf (NdArray [3] [5; 6; 7]%float))])
  = Raise BroadcastError.
Proof.
  split.
  - destruct (update_mismatch
                (mkEmaState 0.9%float
                   (Dict [("a", Leaf (scalar 1%float)); ("b", Leaf (scalar 2%float))]))
                (Dict [("a", Leaf (scalar 1%float))]) eq_refl)
      as (_ & _ & Hkeys & _).
    eapply Hkeys; [reflexivity..|]. cbn. discriminate.
  - destruct (update_mismatch
                (mkEmaState 0.9%float (Dict [("w", Leaf (NdArray [2] [1; 2]%float))]))
                (Dict [("w", Leaf (NdArray [3] [5; 6; 7]%float))]) eq_refl)
      as (_ & _ & _ & _ & Hshape & _).
    apply Hshape; reflexivity.
Defined.

(** A shadow of shape [(2,)] and a live array of shape [(1,)]: the shapes
    differ and the update goes through, the one live element used twice.
    A shadow with [None] at ["b"] and a live mapping with a dict there:
    the update goes through and the dict is dropped. *)
Lemma update_mismatch_counterexample :
  same_structure (Dict [("w", Leaf (NdArray [2] [1; 2]%float))])
                 (Dict [("w", Leaf (NdArray [1] [5]%float))]) = false /\
  update (mkEmaState 0.9%float (Dict [("w", Leaf (NdArray [2] [1; 2]%float))]))
         (Dict [("w", Leaf (NdArray [1] [5]%float))])
  = Ok (mkEmaState 0.9%float
          (Dict [("w", Leaf (NdArray [2]
                   [0.9 * 1 + (1 - 0.9) * 5; 0.9 * 2 + (1 - 0.9) * 5]%float))])) /\
  same_keys (Dict [("a", Leaf (scalar 1%float)); ("b", PyNone)])
            (Dict [("a", Leaf (scalar 1%float));
                   ("b", Dict [("c", Leaf (scalar 5%float))])]) = false /\
  update (mkEmaState 0.9%float (Dict [("a", Leaf (scalar 1%float)); ("b", PyNone)]))
         (Dict [("a", Leaf (scalar 1%float));
                ("b", Dict [("c", Leaf (scalar 5%float))])])
  = Ok (mkEmaState 0.9%float
          (Dict [("a", Leaf (scalar (0.9 * 1 + (1 - 0.9) * 1)%float)); ("b", PyNone)])).
Proof. repeat split; vm_compute; reflexivity. Qed.

(** ** References and the store *)

Lemma heap_bind_ok {X Y} (m : heapM X) (f : X -> heapM Y) σ x σ' :
  m σ = (Ok x, σ') -> (m ≫= f) σ = f x σ'.
Proof. intros H. unfold mbind, heap_bind. rewrite H. reflexivity. Qed.

Lemma heap_bind_raise {X Y} (m : heapM X) (f : X -> heapM Y) σ e σ' :
  m σ = (Raise e, σ') -> (m ≫= f) σ = (Raise e, σ').
Proof. intros H. unfold mbind, heap_bind. rewrite H. reflexivity. Qed.

Lemma alloc_spec (a : ndarray) (σ : store) :
  exists l, alloc a σ = (Ok l, <[l := a]> σ) /\ σ !! l = None.
Proof.
  exists (fresh (dom σ)). split; [reflexivity|].
  apply not_elem_of_dom. apply is_fresh.
Qed.

Lemma read_spec (l : loc) (σ : store) (a : ndarray) :
  σ !! l = Some a -> read l σ = (Ok a, σ).
Proof. intros H. unfold read. rewrite H. reflexivity. Qed.

Lemma represents_mono (σ σ' : store) t tv :
  σ ⊆ σ' -> represents σ t tv -> represents σ' t tv.
Proof.
  intros Hsub. apply tree_Forall2_impl. intros l a Hl.
  eapply lookup_weaken; eassumption.
Qed.

(** The lambda of [update] on references: it reads its operands, leaves
    the arrays of the store as they are, and returns a new array holding
    what the lambda on array values returns. *)
Lemma ema_leaf_heap (d : float) (l : loc) (p : pytree loc) (σ : store)
    (a : ndarray) (pv : pytree ndarray) :
  σ !! l = Some a -> represents σ p pv ->
  exists r σ', ema_leaf d l p σ = (r, σ') /\ σ ⊆ σ' /\
    match r with
    | Ok l' => σ !! l' = None /\ exists c, ema_leaf d a pv = Ok c /\ σ' !! l' = Some c
    | Raise e => ema_leaf d a pv = Raise e
    end.
Proof.
  intros Hl Hp. unfold ema_leaf.
  destruct (alloc_spec (mul_scalar a d) σ) as (l1 & Hal1 & Hf1).
  set (σ1 := <[l1 := mul_scalar a d]> σ) in *.
  assert (Hsub1 : σ ⊆ σ1) by (apply insert_subseteq; exact Hf1).
  assert (Ht1 : (array_mul_scalar l d : heapM loc) σ = (Ok l1, σ1)).
  { cbn. erewrite heap_bind_ok; [|apply read_spec; exact Hl]. exact Hal1. }
  erewrite heap_bind_ok; [|exact Ht1].
  destruct p as [l'| |its], pv as [b| |itsv]; cbn in Hp; try contradiction.
  - (* a leaf of the new tree *)
    destruct (alloc_spec (rmul_scalar (1 - d) b) σ1) as (l2 & Hal2 & Hf2).
    set (σ2 := <[l2 := rmul_scalar (1 - d) b]> σ1) in *.
    assert (Hsub2 : σ1 ⊆ σ2) by (apply insert_subseteq; exact Hf2).
    erewrite heap_bind_ok;
      [|cbn; erewrite heap_bind_ok;
        [exact Hal2|apply read_spec; eapply lookup_weaken; eassumption]].
    assert (H1 : σ2 !! l1 = Some (mul_scalar a d)).
    { eapply lookup_weaken; [|exact Hsub2]. apply lookup_insert_eq. }
    assert (H2 : σ2 !! l2 = Some (rmul_scalar (1 - d) b)) by apply lookup_insert_eq.
    cbn -[add].
    erewrite heap_bind_ok; [|apply read_spec; exact H1].
    erewrite heap_bind_ok; [|apply read_spec; exact H2].
    destruct (add (mul_scalar a d) (rmul_scalar (1 - d) b)) as [r|e] eqn:Hadd.
    + destruct (alloc_spec r σ2) as (l3 & Hal3 & Hf3).
      erewrite heap_bind_ok; [|reflexivity]. rewrite Hal3.
      eexists _, _. split; [reflexivity|]. split.
      * etrans; [exact Hsub1|]. etrans; [exact Hsub2|]. apply insert_subseteq; exact Hf3.
      * split.
        -- destruct (σ !! l3) eqn:E; [|reflexivity].
           eapply lookup_weaken in E; [|etrans; [exact Hsub1|exact Hsub2]]. congruence.
        -- exists r. split; [reflexivity|]. apply lookup_insert_eq.
    + erewrite heap_bind_raise; [|reflexivity].
      eexists _, _. split; [reflexivity|]. split; [|reflexivity].
      etrans; eassumption.
  - erewrite heap_bind_raise; [|reflexivity].
    eexists _, _. split; [reflexivity|]. split; [exact Hsub1|reflexivity].
  - erewrite heap_bind_raise; [|reflexivity].
    eexists _, _. split; [reflexivity|]. split; [exact Hsub1|reflexivity].
Qed.

(** The structure check sees keys only: on related trees it has the same
    outcome. *)
Lemma flatten_up_to_rel {A A' B B'} (R : A -> A' -> Prop) (Q : B -> B' -> Prop)
    (t : pytree A) :
  forall (tv : pytree A') (u : pytree B) (uv : pytree B'),
  tree_Forall2 R t tv -> tree_Forall2 Q u uv ->
  match flatten_up_to t u, flatten_up_to tv uv with
  | Ok ps, Ok psv =>
      tree_Forall2 (fun x y => R x.1 y.1 /\ tree_Forall2 Q x.2 y.2) ps psv
  | Raise e, Raise e' => e = e'
  | _, _ => False
  end.
Proof.
  induction t as [a| |items IH] using pytree_ind';
    intros [a'| |itemsv] u uv Ht Hu; cbn in Ht; try contradiction.
  - cbn. auto.
  - destruct u, uv; cbn in Hu; try contradiction; cbn; auto.
  - destruct u as [?| |items'], uv as [?| |itemsv']; cbn in Hu; try contradiction;
      cbn; auto.
    rewrite <- (items_Forall2_keys _ _ _ Ht), <- (items_Forall2_keys _ _ _ Hu).
    destruct (decide (keys items = keys items')) as [_|_]; [|reflexivity].
    assert (Hz : match items_zipM flatten_up_to items items',
                       items_zipM flatten_up_to itemsv itemsv' with
                 | Ok zs, Ok zsv =>
                     items_Forall2
                       (tree_Forall2 (fun x y => R x.1 y.1 /\ tree_Forall2 Q x.2 y.2))
                       zs zsv
                 | Raise e, Raise e' => e = e'
                 | _, _ => False
                 end).
    { clear - IH Ht Hu. revert itemsv items' itemsv' Ht Hu.
      induction IH as [|[k c] r Hc _ IHr];
        intros [|[kv cv] rv] [|[k' c'] r'] [|[kv' cv'] rv'] Ht Hu;
        cbn in *; try contradiction; auto.
      destruct Ht as (<- & Hcc & Hr). destruct Hu as (<- & Hcc' & Hr').
      specialize (Hc _ _ _ Hcc Hcc').
      destruct (flatten_up_to c c') as [z|e], (flatten_up_to cv cv') as [zv|ev];
        cbn; try contradiction; auto.
      specialize (IHr _ _ _ Hr Hr').
      destruct (items_zipM flatten_up_to r r') as [zs|e],
               (items_zipM flatten_up_to rv rv') as [zsv|ev];
        cbn; try contradiction; auto. }
    destruct (items_zipM flatten_up_to items items') as [zs|e],
             (items_zipM flatten_up_to itemsv itemsv') as [zsv|ev];
      cbn; try contradiction; auto.
Qed.

Lemma pair_represents_mono (σ σ' : store) ps psv :
  σ ⊆ σ' ->
  tree_Forall2 (pair_represents σ) ps psv -> tree_Forall2 (pair_represents σ') ps psv.
Proof.
  intros Hsub. apply tree_Forall2_impl. intros x y [Hx Hy]. split.
  - eapply lookup_weaken; eassumption.
  - eapply represents_mono; eassumption.
Qed.

Lemma fresh_mono (σ σ' : store) (ls : list loc) :
  σ ⊆ σ' -> Forall (fun l => σ' !! l = None) ls -> Forall (fun l => σ !! l = None) ls.
Proof.
  intros Hsub Hall. eapply Forall_impl; [exact Hall|]. intros l Hl.
  destruct (σ !! l) eqn:E; [|reflexivity].
  eapply lookup_weaken in E; [|exact Hsub]. congruence.
Qed.


Lemma heap_ret_run {X} (x : X) (σ : store) : (mret x : heapM X) σ = (Ok x, σ).
Proof. reflexivity. Qed.

Lemma items_mapM_cons {M : Type -> Type} `{!MRet M, !MBind M} {X Y}
    (g : X -> M Y) k x (r : list (string * X)) :
  items_mapM g ((k, x) :: r)
  = (y ← g x; ys ← items_mapM g r; mret ((k, y) :: ys)).
Proof. reflexivity. Qed.

Lemma tree_mapM_leaf {M : Type -> Type} `{!MRet M, !MBind M} {A B}
    (f : A -> M B) (a : A) :
  tree_mapM f (Leaf a) = (b ← f a; mret (Leaf b)).
Proof. reflexivity. Qed.

Lemma tree_mapM_dict {M : Type -> Type} `{!MRet M, !MBind M} {A B}
    (f : A -> M B) (items : list (string * pytree A)) :
  tree_mapM f (Dict items) = (its ← items_mapM (tree_mapM f) items; mret (Dict its)).
Proof. reflexivity. Qed.

Section HeapSimulation.
Variable F : loc * pytree loc -> heapM loc.
Variable Fv : ndarray * pytree ndarray -> result ndarray.
Hypothesis leaf_simulation :
  forall σ x y, pair_represents σ x y ->
  exists r σ', F x σ = (r, σ') /\ σ ⊆ σ' /\
    match r with
    | Ok l' => σ !! l' = None /\ exists c, Fv y = Ok c /\ σ' !! l' = Some c
    | Raise e => Fv y = Raise e
    end.

Lemma tree_mapM_heap (ps : pytree (loc * pytree loc)) :
  forall (psv : pytree (ndarray * pytree ndarray)) (σ : store),
  tree_Forall2 (pair_represents σ) ps psv ->
  exists r σ', tree_mapM F ps σ = (r, σ') /\ σ ⊆ σ' /\
    match r with
    | Ok t' =>
        exists tv', tree_mapM Fv psv = Ok tv' /\ represents σ' t' tv' /\
                    Forall (fun l => σ !! l = None) (tree_leaves t')
    | Raise e => tree_mapM Fv psv = Raise e
    end.
Proof.
  induction ps as [x| |items IH] using pytree_ind';
    intros [y| |itemsv] σ H; cbn in H; try contradiction.
  - destruct (leaf_simulation σ x y H) as (r & σ' & HF & Hsub & Hr).
    rewrite tree_mapM_leaf. destruct r as [l'|e].
    + destruct Hr as (Hfresh & c & HFv & Hc).
      exists (Ok (Leaf l')), σ'.
      split; [erewrite heap_bind_ok by exact HF; reflexivity|].
      split; [exact Hsub|].
      exists (Leaf c). cbn. rewrite HFv. split; [reflexivity|]. split; [exact Hc|].
      constructor; [exact Hfresh|constructor].
    + exists (Raise e), σ'.
      split; [erewrite heap_bind_raise by exact HF; reflexivity|].
      split; [exact Hsub|]. cbn. rewrite Hr. reflexivity.
  - exists (Ok PyNone), σ. split; [reflexivity|]. split; [reflexivity|].
    exists PyNone. split; [reflexivity|]. split; [exact I|constructor].
  - assert (Hit : exists r σ', items_mapM (tree_mapM F) items σ = (r, σ') /\ σ ⊆ σ' /\
              match r with
              | Ok its' =>
                  exists itsv', items_mapM (tree_mapM Fv) itemsv = Ok itsv' /\
                    items_Forall2 (represents σ') its' itsv' /\
                    Forall (fun l => σ !! l = None)
                      (concat (map (fun kv => tree_leaves kv.2) its'))
              | Raise e => items_mapM (tree_mapM Fv) itemsv = Raise e
              end).
    { revert itemsv σ H.
      induction IH as [|[k c] rest Hc _ IHr]; intros [|[kv cv] restv] σ H;
        cbn in H; try contradiction.
      - exists (Ok []), σ. split; [reflexivity|]. split; [reflexivity|].
        exists []. split; [reflexivity|]. split; [exact I|constructor].
      - destruct H as (<- & Hcc & Hrest). change ((k, c).2) with c in Hc.
        destruct (Hc _ _ Hcc) as (r1 & σ1 & Hrun1 & Hsub1 & Hr1).
        rewrite items_mapM_cons. destruct r1 as [c1|e].
        + destruct Hr1 as (cv1 & Hv1 & Hrep1 & Hfresh1).
          destruct (IHr restv σ1 (pair_represents_mono σ σ1 (Dict rest) (Dict restv) Hsub1 Hrest))
            as (r2 & σ2 & Hrun2 & Hsub2 & Hr2).
          destruct r2 as [rest2|e].
          * destruct Hr2 as (restv2 & Hv2 & Hrep2 & Hfresh2).
            exists (Ok ((k, c1) :: rest2)), σ2.
            split.
            { erewrite heap_bind_ok by exact Hrun1.
              erewrite heap_bind_ok by exact Hrun2. reflexivity. }
            split; [etrans; eassumption|].
            exists ((k, cv1) :: restv2). cbn. rewrite Hv1. cbn. rewrite Hv2. cbn.
            split; [reflexivity|]. split.
            -- split; [reflexivity|]. split; [|exact Hrep2].
               eapply represents_mono; eassumption.
            -- apply Forall_app. split; [exact Hfresh1|].
               eapply fresh_mono; eassumption.
          * exists (Raise e), σ2.
            split.
            { erewrite heap_bind_ok by exact Hrun1.
              erewrite heap_bind_raise by exact Hrun2. reflexivity. }
            split; [etrans; eassumption|].
            cbn. rewrite Hv1. cbn. rewrite Hr2. reflexivity.
        + exists (Raise e), σ1.
          split; [erewrite heap_bind_raise by exact Hrun1; reflexivity|].
          split; [exact Hsub1|]. cbn. rewrite Hr1. reflexivity. }
    destruct Hit as (r & σ' & Hrun & Hsub & Hr).
    rewrite tree_mapM_dict. destruct r as [its'|e].
    + destruct Hr as (itsv' & Hv & Hrep & Hfresh).
      exists (Ok (Dict its')), σ'.
      split; [erewrite heap_bind_ok by exact Hrun; reflexivity|].
      split; [exact Hsub|].
      exists (Dict itsv'). cbn. rewrite Hv. split; [reflexivity|]. split; assumption.
    + exists (Raise e), σ'.
      split; [erewrite heap_bind_raise by exact Hrun; reflexivity|].
      split; [exact Hsub|]. cbn. rewrite Hr. reflexivity.
Qed.
End HeapSimulation.

Lemma heap_lift_run {X} (r : result X) (σ : store) : (lift r : heapM X) σ = (r, σ).
Proof. destruct r; reflexivity. Qed.

Lemma tree_multimap_heap (d : float) (t u : pytree loc) (tv uv : pytree ndarray)
    (σ : store) :
  represents σ t tv -> represents σ u uv ->
  exists r σ', tree_multimap (ema_leaf d) t u σ = (r, σ') /\ σ ⊆ σ' /\
    match r with
    | Ok t' =>
        exists tv', tree_multimap (ema_leaf d) tv uv = Ok tv' /\
                    represents σ' t' tv' /\
                    Forall (fun l => σ !! l = None) (tree_leaves t')
    | Raise e => tree_multimap (ema_leaf d) tv uv = Raise e
    end.
Proof.
  intros Ht Hu. unfold tree_multimap.
  pose proof (flatten_up_to_rel _ _ t tv u uv Ht Hu) as Hfl.
  destruct (flatten_up_to t u) as [ps|e], (flatten_up_to tv uv) as [psv|ev];
    try contradiction.
  - destruct (tree_mapM_heap
                (fun ap : loc * pytree loc => ema_leaf d ap.1 ap.2)
                (fun ap : ndarray * pytree ndarray => ema_leaf d ap.1 ap.2)
                ltac:(intros σ0 [l p] [a pv] [Hl Hp]; exact (ema_leaf_heap d l p σ0 a pv Hl Hp))
                ps psv σ Hfl)
      as (r & σ' & Hrun & Hsub & Hr).
    exists r, σ'. split; [|split; [exact Hsub|exact Hr]].
    erewrite heap_bind_ok by apply heap_lift_run. exact Hrun.
  - subst ev. exists (Raise e), σ. split; [|split; reflexivity].
    erewrite heap_bind_raise by apply heap_lift_run. reflexivity.
Qed.

(** C8.  [update] on array objects is a function of the values of its two
    inputs and writes to no existing array.  In any store in which the
    shadow stands for the values [sv] and the new parameters for [nv], the
    call returns what [update] on the values [sv] and [nv] returns (the
    same exception, or a state with the same decay whose shadow stands for
    the shadow computed on values), whatever else the store holds; the
    store afterwards extends the store before, so the state and the new
    parameters still stand for [sv] and [nv]; and every array of the
    returned shadow is newly allocated. *)
Theorem update_allocates_fresh (σ : store) (s : EmaState loc) (new_live : pytree loc)
    (sv nv : pytree ndarray) :
  represents σ (variables s) sv -> represents σ new_live nv ->
  exists r σ',
    update s new_live σ = (r, σ') /\
    σ ⊆ σ' /\
    represents σ' (variables s) sv /\ represents σ' new_live nv /\
    match r with
    | Ok s' =>
        exists v', update (mkEmaState (decay s) sv) nv = Ok v' /\
                   decay s' = decay v' /\
                   represents σ' (variables s') (variables v') /\
                   Forall (fun l => σ !! l = None) (tree_leaves (variables s'))
    | Raise e => update (mkEmaState (decay s) sv) nv = Raise e
    end.
Proof.
  intros Hs Hn.
  assert (Hrun : exists r σ', update s new_live σ = (r, σ') /\ σ ⊆ σ' /\
            match r with
            | Ok s' =>
                exists v', update (mkEmaState (decay s) sv) nv = Ok v' /\
                   decay s' = decay v' /\
                   represents σ' (variables s') (variables v') /\
                   Forall (fun l => σ !! l = None) (tree_leaves (variables s'))
            | Raise e => update (mkEmaState (decay s) sv) nv = Raise e
            end).
  { unfold update. cbn [decay variables].
    destruct (decay s =? 0)%float.
    - exists (Ok (replace_variables s PyNone)), σ.
      split; [reflexivity|]. split; [reflexivity|].
      eexists. split; [reflexivity|]. split; [reflexivity|]. split; [exact I|constructor].
    - destruct (tree_multimap_heap (decay s) _ _ _ _ σ Hs Hn)
        as (r & σ' & Hrun & Hsub & Hr).
      destruct r as [t'|e].
      + destruct Hr as (tv' & Hv & Hrep & Hfresh).
        exists (Ok (replace_variables s t')), σ'.
        split; [erewrite heap_bind_ok by exact Hrun; reflexivity|].
        split; [exact Hsub|].
        rewrite Hv. eexists. split; [reflexivity|]. split; [reflexivity|].
        split; assumption.
      + exists (Raise e), σ'.
        split; [erewrite heap_bind_raise by exact Hrun; reflexivity|].
        split; [exact Hsub|]. rewrite Hr. reflexivity. }
  destruct Hrun as (r & σ' & Hrun & Hsub & Hr).
  exists r, σ'. split; [exact Hrun|]. split; [exact Hsub|].
  split; [eapply represents_mono; eassumption|].
  split; [eapply represents_mono; eassumption|]. exact Hr.
Qed.

(** The scenario of the specification on array objects 1 and 2. *)
Lemma update_allocates_fresh_witness :
  exists r σ',
    update (mkEmaState 0.9%float (Dict [("w", Leaf 1%positive)]))
           (Dict [("w", Leaf 2%positive)])
           (<[1%positive := scalar 2%float]> (<[2%positive := scalar 12%float]> ∅))
    = (r, σ') /\
    σ' !! 1%positive = Some (scalar 2%float) /\
    match r with
    | Ok s' => represents σ' (variables s') (Dict [("w", Leaf (scalar 3%float))])
    | Raise _ => False
    end.
Proof.
  destruct (update_allocates_fresh
              (<[1%positive := scalar 2%float]> (<[2%positive := scalar 12%float]> ∅))
              (mkEmaState 0.9%float (Dict [("w", Leaf 1%positive)]))
              (Dict [("w", Leaf 2%positive)])
              (Dict [("w", Leaf (scalar 2%float))])
              (Dict [("w", Leaf (scalar 12%float))]))
    as (r & σ' & Hrun & Hsub & Hs & Hn & Hr).
  - cbn. split; [reflexivity|]. split; [reflexivity|exact I].
  - cbn. split; [reflexivity|]. split; [reflexivity|exact I].
  - exists r, σ'. split; [exact Hrun|]. split.
    + cbn in Hs. tauto.
    + destruct r as [s'|e].
      * destruct Hr as (v' & Hv & _ & Hrep & _).
        vm_compute in Hv. injection Hv as <-. exact Hrep.
      * vm_compute in Hr. discriminate Hr.
Defined.

(** ** The copy made by [create] *)

Lemma represents_leaves (σ σ' : store) (t : pytree loc) :
  forall tv : pytree ndarray,
  Forall (fun l => σ' !! l = σ !! l) (tree_leaves t) ->
  represents σ t tv -> represents σ' t tv.
Proof.
  unfold represents.
  induction t as [l| |items IH] using pytree_ind';
    intros [a| |itemsv] Hl H; cbn in *; try contradiction; auto.
  - inversion Hl; subst. congruence.
  - revert itemsv Hl H.
    induction IH as [|[k c] r Hc _ IHr]; intros [|[kv cv] rv] Hl H;
      cbn in *; try contradiction; auto.
    apply Forall_app in Hl as [Hlc Hlr]. destruct H as (Hk & Hcc & Hr). auto.
Qed.

Lemma obj_bind_ok {X Y} (m : objM X) (f : X -> objM Y) σ x σ' :
  m σ = (Ok x, σ') -> (m ≫= f) σ = f x σ'.
Proof. intros H. unfold mbind, obj_bind. rewrite H. reflexivity. Qed.

(** A root that stands for a tree of values has array objects at the
    places of the leaves. *)
Lemma obj_represents_leaves (σ : objstore) (Pv : pytree ndarray) :
  forall r, obj_represents σ Pv r ->
  exists t : pytree loc,
    obj_leaves σ t r /\
    tree_Forall2 (fun l a => σ !! l = Some (ObjArray a)) t Pv /\
    tree_depth t = tree_depth Pv.
Proof.
  unfold obj_represents, obj_leaves.
  induction Pv as [a| |items IH] using pytree_ind'; intros r H; cbn in H.
  - destruct H as (l & a' & -> & Hl & ->).
    exists (Leaf l). cbn. split; [eauto|]. split; [exact Hl|reflexivity].
  - subst r. exists PyNone. cbn. auto.
  - destruct H as (l & its & -> & Hl & Hits).
    assert (Hi : exists titems : list (string * pytree loc),
               items_Forall2 (obj_tree (fun l _ x => x = l) σ) titems its /\
               items_Forall2
                 (tree_Forall2 (fun l a => σ !! l = Some (ObjArray a))) titems items /\
               map (fun kv => tree_depth kv.2) titems
               = map (fun kv => tree_depth kv.2) items).
    { clear Hl. revert its Hits.
      induction IH as [|[k c] rest Hc _ IHr]; intros [|[k' rc] its] Hits;
        cbn in *; try contradiction.
      - exists []. cbn. auto.
      - destruct Hits as (<- & Hcc & Hr).
        destruct (Hc _ Hcc) as (tc & Htc & Hfc & Hdc).
        destruct (IHr _ Hr) as (trest & Htr & Hfr & Hdr).
        exists ((k, tc) :: trest). cbn. rewrite Hdc, Hdr. auto. }
    destruct Hi as (titems & Ht & Hf & Hd).
    exists (Dict titems). cbn. rewrite Hd. split; [|auto].
    exists l, its. auto.
Qed.

(** Flattening returns the array objects of the tree and leaves the store
    as it is. *)
Lemma flatten_obj_leaves (σ : objstore) (t : pytree loc) :
  forall (fuel : nat) (r : option loc),
  obj_leaves σ t r -> tree_depth t <= fuel ->
  flatten_obj fuel r σ = (Ok t, σ).
Proof.
  unfold obj_leaves.
  induction t as [x| |items IH] using pytree_ind'; intros fuel r H Hfuel; cbn in H.
  - destruct H as (l & a & -> & Hl & ->).
    destruct fuel; cbn; unfold mbind, obj_bind, obj_read; rewrite Hl; reflexivity.
  - subst r. destruct fuel; reflexivity.
  - destruct H as (l & its & -> & Hl & Hits).
    change (tree_depth (Dict items))
      with (S (foldr Nat.max 0 (map (fun kv => tree_depth kv.2) items))) in Hfuel.
    destruct fuel as [|fuel]; [lia|]. apply le_S_n in Hfuel.
    cbn [flatten_obj]. unfold mbind at 1, obj_bind at 1, obj_read. rewrite Hl.
    assert (Hi : items_mapM (flatten_obj fuel) its σ = (Ok items, σ)).
    { clear Hl. revert its Hits Hfuel.
      induction IH as [|[k c] rest Hc _ IHr]; intros [|[k' rc] its] Hits Hfuel;
        cbn in Hits; try contradiction; [reflexivity|].
      destruct Hits as (<- & Hcc & Hr).
      change (foldr Nat.max 0 (map (fun kv => tree_depth kv.2) ((k, c) :: rest)))
        with (Nat.max (tree_depth c)
                (foldr Nat.max 0 (map (fun kv => tree_depth kv.2) rest))) in Hfuel.
      rewrite items_mapM_cons. cbn [snd] in Hc.
      erewrite obj_bind_ok by (apply Hc; [exact Hcc|lia]).
      erewrite obj_bind_ok by (apply IHr; [exact Hr|lia]).
      reflexivity. }
    erewrite obj_bind_ok by exact Hi. reflexivity.
Qed.

(** The lambda of [create] returns the array object it is given. *)
Lemma tree_mapM_obj_id (t : pytree loc) (σ : objstore) :
  tree_mapM (fun x : loc => (mret x : objM loc)) t σ = (Ok t, σ).
Proof.
  revert σ. induction t as [x| |items IH] using pytree_ind'; intros σ.
  - reflexivity.
  - reflexivity.
  - rewrite tree_mapM_dict.
    assert (Hi : forall σ,
               items_mapM (tree_mapM (fun x : loc => (mret x : objM loc))) items σ
               = (Ok items, σ)).
    { induction IH as [|[k c] rest Hc _ IHr]; intros σ0; [reflexivity|].
      rewrite items_mapM_cons.
      erewrite obj_bind_ok by apply Hc.
      erewrite obj_bind_ok by apply IHr.
      reflexivity. }
    erewrite obj_bind_ok by apply Hi. reflexivity.
Qed.

Lemma tree_Forall2_allocated (σ : objstore) (t : pytree loc) :
  forall Pv : pytree ndarray,
  tree_Forall2 (fun l a => σ !! l = Some (ObjArray a)) t Pv ->
  Forall (fun l => is_Some (σ !! l)) (tree_leaves t).
Proof.
  induction t as [l| |items IH] using pytree_ind';
    intros [a| |itemsv] H; cbn in *; try contradiction; try constructor; eauto.
  revert itemsv H.
  induction IH as [|[k c] r Hc _ IHr]; intros [|[kv cv] rv] H;
    cbn in *; try contradiction; try constructor.
  destruct H as (Hk & Hcc & Hr). apply Forall_app. eauto.
Qed.

(** Unflattening allocates the dicts of the result and writes nothing
    else.  The result stands for the values of the leaves, with the same
    array objects, in every store that holds the new dicts and the
    arrays. *)
Lemma unflatten_obj_fresh (t : pytree loc) :
  forall (Pv : pytree ndarray) (σ : objstore),
  tree_Forall2 (fun l a => σ !! l = Some (ObjArray a)) t Pv ->
  exists r σ',
    unflatten_obj t σ = (Ok r, σ') /\
    σ ⊆ σ' /\
    (forall items l, t = Dict items -> r = Some l -> σ !! l = None) /\
    forall σ'' : objstore,
      (forall l, l ∈ tree_leaves t -> σ'' !! l = σ !! l) ->
      (forall l o, σ !! l = None -> σ' !! l = Some o -> σ'' !! l = Some o) ->
      obj_represents σ'' Pv r /\ obj_leaves σ'' t r.
Proof.
  unfold obj_represents, obj_leaves.
  induction t as [l| |items IH] using pytree_ind';
    intros [a| |itemsv] σ H; cbn in H; try contradiction.
  - exists (Some l), σ. split; [reflexivity|]. split; [reflexivity|].
    split; [discriminate|].
    intros σ'' Hl _. cbn.
    assert (Hl' : σ'' !! l = Some (ObjArray a))
      by (rewrite Hl by (cbn; left); exact H).
    split; exists l, a; auto.
  - exists None, σ. split; [reflexivity|]. split; [reflexivity|].
    split; [discriminate|].
    intros σ'' _ _. cbn. auto.
  - assert (Hi : exists its σ1,
               items_mapM unflatten_obj items σ = (Ok its, σ1) /\
               σ ⊆ σ1 /\
               forall σ'' : objstore,
                 (forall l, l ∈ tree_leaves (Dict items) -> σ'' !! l = σ !! l) ->
                 (forall l o, σ !! l = None -> σ1 !! l = Some o -> σ'' !! l = Some o) ->
                 items_Forall2 (obj_tree (fun _ a x => x = a) σ'') itemsv its /\
                 items_Forall2 (obj_tree (fun l _ x => x = l) σ'') items its).
    { revert itemsv σ H.
      induction IH as [|[k c] rest Hc _ IHr]; intros [|[kv cv] restv] σ H;
        cbn in H; try contradiction.
      - exists [], σ. split; [reflexivity|]. split; [reflexivity|].
        intros σ'' _ _. cbn. auto.
      - destruct H as (<- & Hcc & Hr).
        destruct (Hc _ _ Hcc) as (rc & σa & Hrun_c & Hsub_c & _ & Hrep_c).
        assert (Hr' : items_Forall2
                        (tree_Forall2 (fun l a => σa !! l = Some (ObjArray a)))
                        rest restv).
        { clear -Hr Hsub_c. revert restv Hr.
          induction rest as [|[k1 c1] rest1 IH1]; intros [|[k2 c2] rest2] Hr;
            cbn in *; try contradiction; auto.
          destruct Hr as (Hk & Hcc & Hr). split; [exact Hk|]. split; [|auto].
          eapply tree_Forall2_impl; [|exact Hcc]. cbn. intros l a Hl.
          eapply lookup_weaken; eassumption. }
        destruct (IHr _ _ Hr') as (its & σ1 & Hrun_r & Hsub_r & Hrep_r).
        exists ((k, rc) :: its), σ1.
        split.
        { rewrite items_mapM_cons.
          erewrite obj_bind_ok by exact Hrun_c.
          erewrite obj_bind_ok by exact Hrun_r. reflexivity. }
        split; [etrans; eassumption|].
        intros σ'' Hleaves Hnew.
        assert (Halloc : Forall (fun l => is_Some (σ !! l)) (tree_leaves (Dict rest))).
        { apply (tree_Forall2_allocated σ (Dict rest) (Dict restv)). exact Hr. }
        rewrite Forall_forall in Halloc.
        destruct (Hrep_c σ'') as [Hc1 Hc2].
        { intros l Hl. apply Hleaves. cbn. apply elem_of_app. left. exact Hl. }
        { intros l o Hnone Hsome. apply (Hnew l o Hnone).
          eapply lookup_weaken; eassumption. }
        destruct (Hrep_r σ'') as [Hr1 Hr2].
        { intros l Hl.
          rewrite Hleaves by (cbn; apply elem_of_app; right; exact Hl).
          destruct (Halloc l Hl) as [o Ho]. rewrite Ho. symmetry.
          eapply lookup_weaken; eassumption. }
        { intros l o Hnone Hsome. apply (Hnew l o); [|exact Hsome].
          destruct (σ !! l) as [o'|] eqn:Ho'; [|reflexivity].
          rewrite (lookup_weaken _ _ _ _ Ho' Hsub_c) in Hnone. discriminate. }
        cbn. auto. }
    destruct Hi as (its & σ1 & Hrun & Hsub & Hrep).
    set (l' := fresh (dom σ1)).
    assert (Hl' : σ1 !! l' = None)
      by (apply not_elem_of_dom; apply is_fresh).
    exists (Some l'), (<[l' := ObjDict its]> σ1).
    split.
    { cbn [unflatten_obj].
      erewrite obj_bind_ok by exact Hrun. reflexivity. }
    split.
    { etrans; [exact Hsub|]. apply insert_subseteq. exact Hl'. }
    assert (Hσl' : σ !! l' = None).
    { destruct (σ !! l') as [o|] eqn:Ho; [|reflexivity].
      rewrite (lookup_weaken _ _ _ _ Ho Hsub) in Hl'. discriminate. }
    split; [intros items0 l0 _ [= <-]; exact Hσl'|].
    intros σ'' Hleaves Hnew.
    destruct (Hrep σ'') as [H1 H2].
    { exact Hleaves. }
    { intros l o Hnone Hsome. apply (Hnew l o Hnone).
      rewrite lookup_insert_ne; [exact Hsome|].
      intros <-. congruence. }
    assert (Hroot : σ'' !! l' = Some (ObjDict its)).
    { apply (Hnew l' _ Hσl'). apply lookup_insert_eq. }
    cbn. split; exists l', its; auto.
Qed.

(** [create] on a root of the store: the shadow has new dicts and the
    array objects of the tree it was made from. *)
Lemma create_obj_copy (d : float) (fuel : nat) (σ : objstore) (p : option loc)
    (Pv : pytree ndarray) :
  (d =? 0)%float = false ->
  obj_represents σ Pv p -> tree_depth Pv <= fuel ->
  exists (t : pytree loc) (s' : EmaStateObj) (σ' : objstore),
    create_obj fuel d p σ = (Ok s', σ') /\
    obj_decay s' = d /\
    σ ⊆ σ' /\
    obj_leaves σ t p /\
    obj_leaves σ' t (obj_variables s') /\
    obj_represents σ' (variables (create d Pv)) (obj_variables s') /\
    (forall items l,
        Pv = Dict items -> obj_variables s' = Some l -> σ !! l = None) /\
    (forall σ'' : objstore,
        (forall l, l ∈ tree_leaves t -> σ'' !! l = σ !! l) ->
        (forall l o, σ !! l = None -> σ' !! l = Some o -> σ'' !! l = Some o) ->
        obj_represents σ'' Pv (obj_variables s')).
Proof.
  intros Hd HP Hfuel.
  destruct (obj_represents_leaves _ _ _ HP) as (t & Ht & HF & Hdepth).
  destruct (unflatten_obj_fresh t Pv σ HF) as (r & σ' & Hun & Hsub & Hroot & Hrep).
  assert (Hσ' : obj_represents σ' Pv r /\ obj_leaves σ' t r).
  { apply Hrep.
    - pose proof (tree_Forall2_allocated _ _ _ HF) as Ha.
      rewrite Forall_forall in Ha. intros l Hl.
      destruct (Ha l Hl) as [o Ho]. rewrite Ho.
      eapply lookup_weaken; eassumption.
    - auto. }
  exists t, (mkEmaStateObj d r), σ'.
  split.
  { unfold create_obj. rewrite Hd. unfold tree_map_obj.
    erewrite obj_bind_ok
      by (erewrite obj_bind_ok by (apply flatten_obj_leaves; [exact Ht|lia]);
          erewrite obj_bind_ok by apply tree_mapM_obj_id;
          exact Hun).
    reflexivity. }
  split; [reflexivity|]. split; [exact Hsub|]. split; [exact Ht|].
  split; [exact (proj2 Hσ')|].
  split.
  { unfold create. rewrite Hd. cbn [variables]. rewrite tree_map_id.
    exact (proj1 Hσ'). }
  split.
  { intros items l -> Hl. cbn in Hl. subst r.
    destruct t as [?| |titems]; cbn in HF; try contradiction.
    eapply Hroot; reflexivity. }
  intros σ'' Hleaves Hnew. exact (proj1 (Hrep σ'' Hleaves Hnew)).
Qed.

(** C4, amended.  For [decay != 0], the shadow of [create(decay, P)] equals
    [P] exactly, key by key and element by element, and the decay is
    stored.  The copy is one of the dicts only.  With the arrays as
    objects, the shadow refers to the array objects of [P]: it stands for
    what [P] stands for in every store.  With the dicts as objects too,
    [create] writes to no object of [P], every dict of the shadow is a new
    object and its arrays are the array objects of [P], at the same
    places: the shadow stands for the same values in every later store
    that holds the new dicts and has not written to an array of [P],
    whatever has been done to the dicts of [P]. *)
Theorem create_shares_leaves (d : float) :
  (d =? 0)%float = false ->
  (forall (A : Type) (P : pytree A),
      variables (create d P) = P /\ decay (create d P) = d) /\
  (forall (P : pytree loc) (σ σ' : store) (Pv : pytree ndarray),
      represents σ P Pv ->
      represents σ (variables (create d P)) Pv /\
      (Forall (fun l => σ' !! l = σ !! l) (tree_leaves P) ->
       represents σ' (variables (create d P)) Pv) /\
      (forall Pv', represents σ' P Pv' ->
                   represents σ' (variables (create d P)) Pv')) /\
  (forall (fuel : nat) (σ : objstore) (p : option loc) (Pv : pytree ndarray),
      obj_represents σ Pv p -> tree_depth Pv <= fuel ->
      exists (t : pytree loc) (s' : EmaStateObj) (σ' : objstore),
        create_obj fuel d p σ = (Ok s', σ') /\
        obj_decay s' = d /\
        σ ⊆ σ' /\
        obj_leaves σ t p /\
        obj_leaves σ' t (obj_variables s') /\
        obj_represents σ' (variables (create d Pv)) (obj_variables s') /\
        (forall items l,
            Pv = Dict items -> obj_variables s' = Some l -> σ !! l = None) /\
        (forall σ'' : objstore,
            (forall l, l ∈ tree_leaves t -> σ'' !! l = σ !! l) ->
            (forall l o, σ !! l = None -> σ' !! l = Some o -> σ'' !! l = Some o) ->
            obj_represents σ'' Pv (obj_variables s'))).
Proof.
  intros Hd.
  assert (Hc : forall (A : Type) (P : pytree A),
             variables (create d P) = P /\ decay (create d P) = d).
  { intros A P. unfold create. rewrite Hd. cbn. rewrite tree_map_id. auto. }
  split; [exact Hc|]. split.
  - intros P σ σ' Pv HP. rewrite (proj1 (Hc _ P)).
    split; [exact HP|]. split; [|auto].
    intros Hl. eapply represents_leaves; eassumption.
  - intros fuel σ p Pv HP Hfuel. apply create_obj_copy; assumption.
Qed.

(** [P = {"w": a}] with the dict at 2 and the array [a = [1.0]] at 1. *)
Lemma create_shares_leaves_witness :
  exists s' σ',
    create_obj 1 0.9%float (Some 2%positive)
      (<[1%positive := ObjArray (NdArray [1] [1%float])]>
         (<[2%positive := ObjDict [("w", Some 1%positive)]]> ∅))
    = (Ok s', σ') /\
    obj_decay s' = 0.9%float /\
    obj_represents σ' (Dict [("w", Leaf (NdArray [1] [1%float]))]) (obj_variables s').
Proof.
  destruct (create_shares_leaves 0.9%float eq_refl) as (_ & _ & Hobj).
  destruct (Hobj 1
              (<[1%positive := ObjArray (NdArray [1] [1%float])]>
                 (<[2%positive := ObjDict [("w", Some 1%positive)]]> ∅))
              (Some 2%positive) (Dict [("w", Leaf (NdArray [1] [1%float]))]))
    as (t & s' & σ' & Hrun & Hdecay & _ & _ & _ & Hrep & _).
  - exists 2%positive, [("w", Some 1%positive)].
    split; [reflexivity|]. split; [reflexivity|].
    split; [reflexivity|]. split; [|exact I].
    exists 1%positive, (NdArray [1] [1%float]). auto.
  - cbn. lia.
  - exists s', σ'. split; [exact Hrun|]. split; [exact Hdecay|exact Hrep].
Defined.

(** After [create(0.9, P)] for that [P]: the write [P["w"] = None] to the
    dict of [P] leaves the shadow as it is, the write [a[0] = 5.0] to the
    array is seen through the shadow. *)
Lemma create_shares_leaves_counterexample :
  exists s' σ' σ1 σ2,
    create_obj 1 0.9%float (Some 2%positive)
      (<[1%positive := ObjArray (NdArray [1] [1%float])]>
         (<[2%positive := ObjDict [("w", Some 1%positive)]]> ∅))
    = (Ok s', σ') /\
    obj_represents σ' (Dict [("w", Leaf (NdArray [1] [1%float]))]) (obj_variables s') /\
    obj_dict_setitem 2%positive "w" None σ' = (Ok tt, σ1) /\
    obj_represents σ1 (Dict [("w", PyNone)]) (Some 2%positive) /\
    obj_represents σ1 (Dict [("w", Leaf (NdArray [1] [1%float]))]) (obj_variables s') /\
    obj_setitem 1%positive 0 5%float σ' = (Ok tt, σ2) /\
    obj_represents σ2 (Dict [("w", Leaf (NdArray [1] [5%float]))]) (obj_variables s').
Proof.
  eexists _, _, _, _.
  split; [vm_compute; reflexivity|].
  split.
  { exists 3%positive, [("w", Some 1%positive)].
    split; [reflexivity|]. split; [vm_compute; reflexivity|].
    split; [reflexivity|]. split; [|exact I].
    exists 1%positive, (NdArray [1] [1%float]). auto. }
  split; [vm_compute; reflexivity|].
  split.
  { exists 2%positive, [("w", None)].
    split; [reflexivity|]. split; [vm_compute; reflexivity|].
    split; [reflexivity|]. split; [reflexivity|exact I]. }
  split.
  { exists 3%positive, [("w", Some 1%positive)].
    split; [reflexivity|]. split; [vm_compute; reflexivity|].
    split; [reflexivity|]. split; [|exact I].
    exists 1%positive, (NdArray [1] [1%float]).
    split; [reflexivity|]. split; [vm_compute; reflexivity|reflexivity]. }
  split; [vm_compute; reflexivity|].
  exists 3%positive, [("w", Some 1%positive)].
  split; [reflexivity|]. split; [vm_compute; reflexivity|].
  split; [reflexivity|]. split; [|exact I].
  exists 1%positive, (NdArray [1] [5%float]).
  split; [reflexivity|]. split; [vm_compute; reflexivity|reflexivity].
Qed.

(** ** The calls of the training script *)

(** C9.  [EmaState.create] has the two parameters [decay] and
    [variables]; a call with three arguments raises a [TypeError].
    [create_train_state] makes that call, so for every configuration (also
    with [ema_decay == 0]) it returns no training state, and raises the
    [TypeError] as soon as the optimizer has been created. *)
Theorem create_train_state_raises (platform : string) (DynamicScale_new : DynamicScale)
    (create_optim : string -> pytree ndarray -> list (string * float) -> result Optimizer)
    (config : Config) (params model_state : pytree ndarray) :
  def_params EmaState_create = ["decay"; "variables"] /\
  (forall a b c, call EmaState_create [a; b; c] = Raise ArityError) /\
  class_of ArityError = TypeError /\
  (forall st, create_train_state platform DynamicScale_new create_optim
                config params model_state <> Ok st) /\
  (forall optimizer,
      create_optim (opt config) params (opt_kwargs config) = Ok optimizer ->
      create_train_state platform DynamicScale_new create_optim
        config params model_state = Raise ArityError).
Proof.
  split; [reflexivity|]. split; [reflexivity|]. split; [reflexivity|].
  unfold create_train_state. split.
  - intros st. destruct (create_optim _ _ _); cbn; discriminate.
  - intros optimizer ->. reflexivity.
Qed.

Lemma create_train_state_raises_witness :
  create_train_state "tpu" (mkDynamicScale 65536%float)
    (fun _ params _ => Ok (mkOptimizer params PyNone))
    (mkConfig true "rmsproptf" (Some 0.001%float) (Some 0.9%float) (Some 0.9%float)
       (Some 0%float) 0.9997%float)
    (Dict [("w", Leaf (scalar 2%float))]) (Dict [])
  = Raise ArityError.
Proof.
  destruct (create_train_state_raises "tpu" (mkDynamicScale 65536%float)
              (fun _ params _ => Ok (mkOptimizer params PyNone))
              (mkConfig true "rmsproptf" (Some 0.001%float) (Some 0.9%float)
                 (Some 0.9%float) (Some 0%float) 0.9997%float)
              (Dict [("w", Leaf (scalar 2%float))]) (Dict []))
    as (_ & _ & _ & _ & Hraise).
  apply (Hraise (mkOptimizer (Dict [("w", Leaf (scalar 2%float))]) PyNone)).
  reflexivity.
Defined.

(** C2.  [update] has the parameters [self] and [new_variables]; the call
    [ema.update(new_optimizer.target, new_model_state)] of [train_step]
    passes two arguments besides the instance and raises a [TypeError].
    So a training step on a state that holds an [EmaState] returns no new
    state, and raises the [TypeError] once the optimizer step is done. *)
Theorem train_step_update_arity (Batch Metrics ApplyFn Rng : Type)
    (forward_backward :
       ApplyFn -> TrainState -> Batch -> float -> float -> float -> option Rng ->
       result (Optimizer * pytree ndarray * option DynamicScale * Metrics))
    (apply_fn : ApplyFn) (state : TrainState) (batch : Batch)
    (lr label_smoothing weight_decay : float) (dropout_rng : option Rng) :
  def_params EmaState_update = ["self"; "new_variables"] /\
  (forall self a b, call_method EmaState_update self [a; b] = Raise ArityError) /\
  class_of ArityError = TypeError /\
  (forall e, ema state = Some e ->
     (forall out,
         train_step Batch Metrics ApplyFn Rng forward_backward apply_fn state batch
           lr label_smoothing weight_decay dropout_rng <> Ok out) /\
     (forall r,
         forward_backward apply_fn state batch lr label_smoothing weight_decay dropout_rng
         = Ok r ->
         train_step Batch Metrics ApplyFn Rng forward_backward apply_fn state batch
           lr label_smoothing weight_decay dropout_rng = Raise ArityError)).
Proof.
  split; [reflexivity|]. split; [reflexivity|]. split; [reflexivity|].
  intros e He. unfold train_step. rewrite He. split.
  - intros out. destruct (forward_backward _ _ _ _ _ _ _) as [[[[o m] ds] mt]|]; cbn; discriminate.
  - intros [[[o m] ds] mt] ->. reflexivity.
Qed.

Lemma train_step_update_arity_witness :
  train_step unit unit unit unit
    (fun _ st _ _ _ _ _ => Ok (optimizer st, model_state st, None, tt))
    tt
    (mkTrainState 0 (mkOptimizer (Dict [("w", Leaf (scalar 2%float))]) PyNone)
       (Dict []) None
       (Some (mkEmaState 0.9997%float (Dict [("w", Leaf (scalar 2%float))]))))
    tt 0.016%float 0.1%float 0.0001%float None
  = Raise ArityError.
Proof.
  destruct (train_step_update_arity unit unit unit unit
              (fun _ st _ _ _ _ _ => Ok (optimizer st, model_state st, None, tt))
              tt
              (mkTrainState 0 (mkOptimizer (Dict [("w", Leaf (scalar 2%float))]) PyNone)
                 (Dict []) None
                 (Some (mkEmaState 0.9997%float (Dict [("w", Leaf (scalar 2%float))]))))
              tt 0.016%float 0.1%float 0.0001%float None)
    as (_ & _ & _ & Hstep).
  destruct (Hstep _ eq_refl) as [_ Hraise].
  apply (Hraise _ eq_refl).
Defined.

(** C10.  [params] and [model_state] are not among the attributes of an
    [EmaState] (fields [decay] and [variables], methods [create], [update]
    and [replace]); [eval_step_ema] reads [state.ema.params] first, so on
    every input it raises an [AttributeError] and never reads the
    shadow. *)
Theorem eval_step_ema_raises (Batch Metrics ApplyFn : Type)
    (evaluate : ApplyFn -> pyval -> pyval -> Batch -> result Metrics)
    (apply_fn : ApplyFn) (state : TrainState) (batch : Batch) :
  ("params" ∉ (EmaState_fields ++ EmaState_methods)%list) /\
  ("model_state" ∉ (EmaState_fields ++ EmaState_methods)%list) /\
  getattr (ema_object state) "params" = Raise NoSuchAttribute /\
  getattr (ema_object state) "model_state" = Raise NoSuchAttribute /\
  class_of NoSuchAttribute = AttributeError /\
  eval_step_ema Batch Metrics ApplyFn evaluate apply_fn state batch
  = Raise NoSuchAttribute.
Proof.
  assert (Hp : getattr (ema_object state) "params" = Raise NoSuchAttribute).
  { unfold ema_object. destruct (ema state); reflexivity. }
  assert (Hm : getattr (ema_object state) "model_state" = Raise NoSuchAttribute).
  { unfold ema_object. destruct (ema state); reflexivity. }
  split; [apply (proj1 (bool_decide_eq_false _)); vm_compute; reflexivity|].
  split; [apply (proj1 (bool_decide_eq_false _)); vm_compute; reflexivity|].
  split; [exact Hp|]. split; [exact Hm|]. split; [reflexivity|].
  unfold eval_step_ema. rewrite Hp. reflexivity.
Qed.

(** ** Sequences of updates, and shapes *)

Lemma tree_Forall2_flip {A B} (R : A -> B -> Prop) (t : pytree A) :
  forall u : pytree B, tree_Forall2 R t u -> tree_Forall2 (fun b a => R a b) u t.
Proof.
  induction t as [a| |items IH] using pytree_ind';
    intros [b| |items'] H; cbn in *; try contradiction; auto.
  revert items' H.
  induction IH as [|[k c] r Hc _ IHr]; intros [|[k' c'] r'] H;
    cbn in *; try contradiction; auto.
  destruct H as (Hk & Hcc & Hr). auto.
Qed.

Lemma tree_Forall2_trans {A B C} (R : A -> B -> Prop) (R' : B -> C -> Prop)
    (t : pytree A) :
  forall (u : pytree B) (v : pytree C),
  tree_Forall2 R t u -> tree_Forall2 R' u v ->
  tree_Forall2 (fun a c => exists b, R a b /\ R' b c) t v.
Proof.
  induction t as [a| |items IH] using pytree_ind';
    intros [b| |items'] [c| |items''] H H'; cbn in *; try contradiction; eauto.
  revert items' items'' H H'.
  induction IH as [|[k c] r Hc _ IHr];
    intros [|[k' c'] r'] [|[k'' c''] r''] H H';
    cbn in *; try contradiction; auto.
  destruct H as (Hk & Hcc & Hr). destruct H' as (Hk' & Hcc' & Hr').
  split; [congruence|]. eauto.
Qed.

Lemma tree_all2_Forall2 {A B} (Rb : A -> B -> bool) (t : pytree A) (u : pytree B) :
  tree_all2 Rb t u = true -> tree_Forall2 (fun a b => Rb a b = true) t u.
Proof.
  intros H.
  eapply tree_Forall2_impl;
    [|apply (tree_Forall2_intro _ (fun _ => True) (fun _ => True) _ _ H);
      apply Forall_forall; auto].
  cbn. tauto.
Qed.

Lemma same_structure_sym (t u : pytree ndarray) :
  same_structure t u = true -> same_structure u t = true.
Proof.
  intros H. apply tree_all2_Forall2, tree_Forall2_flip in H.
  unfold same_structure.
  eapply tree_Forall2_all2; [|exact H].
  cbn. intros a b Hab. apply bool_decide_eq_true in Hab.
  apply bool_decide_eq_true_2. congruence.
Qed.

Lemma same_structure_trans (t u v : pytree ndarray) :
  same_structure t u = true -> same_structure u v = true ->
  same_structure t v = true.
Proof.
  intros H H'. apply tree_all2_Forall2 in H, H'.
  unfold same_structure.
  eapply tree_Forall2_all2; [|exact (tree_Forall2_trans _ _ _ _ _ H H')].
  cbn. intros a c (b & Hab & Hbc).
  apply bool_decide_eq_true in Hab, Hbc. apply bool_decide_eq_true_2. congruence.
Qed.

Lemma tree_zip_leaves_Forall {A B C} (R : A -> B -> Prop) (P : C -> Prop)
    (g : A -> B -> C) (t : pytree A) :
  (forall a b, R a b -> P (g a b)) ->
  forall u : pytree B,
  tree_Forall2 R t u -> Forall P (tree_leaves (tree_zip_with g t u)).
Proof.
  intros Hg. induction t as [a| |items IH] using pytree_ind';
    intros [b| |items'] H; cbn in *; try contradiction; try constructor; auto.
  revert items' H.
  induction IH as [|[k c] r Hc _ IHr]; intros [|[k' c'] r'] H;
    cbn in *; try contradiction; try constructor.
  destruct H as (Hk & Hcc & Hr). apply Forall_app. auto.
Qed.

Lemma ema_array_wf (d : float) (a b : ndarray) :
  shape a = shape b -> wf_array a -> wf_array b -> wf_array (ema_array d a b).
Proof.
  unfold wf_array, ema_array. intros Hs Ha Hb.
  cbn [data shape]. rewrite length_zip_with, Ha, Hb, Hs. apply Nat.min_id.
Qed.

(** One update with a tree of the shadow's structure. *)
Lemma update_step (s : EmaState ndarray) (p : pytree ndarray) :
  (decay s =? 0)%float = false ->
  same_structure (variables s) p = true ->
  wf_tree (variables s) -> wf_tree p ->
  update s p
  = Ok (replace_variables s (tree_zip_with (ema_array (decay s)) (variables s) p)) /\
  same_structure (variables s) (tree_zip_with (ema_array (decay s)) (variables s) p) = true /\
  wf_tree (tree_zip_with (ema_array (decay s)) (variables s) p).
Proof.
  intros Hd Hss Hwf Hwf'.
  pose proof (tree_Forall2_intro _ wf_array wf_array _ _ Hss Hwf Hwf') as HR.
  split; [|split].
  - unfold update. rewrite Hd.
    erewrite (tree_multimap_zip _ (ema_array (decay s))); [reflexivity| |exact HR].
    intros a b (Hs & Ha & Hb). apply bool_decide_eq_true in Hs.
    apply ema_leaf_same_shape; assumption.
  - unfold same_structure.
    apply (tree_Forall2_all2 (fun a c => shape a = shape c)).
    + intros a c Hac. apply bool_decide_eq_true_2. exact Hac.
    + eapply tree_Forall2_zip; [|exact HR]. intros a b _. reflexivity.
  - eapply tree_zip_leaves_Forall; [|exact HR].
    intros a b (Hs & Ha & Hb). apply bool_decide_eq_true in Hs.
    apply ema_array_wf; assumption.
Qed.

(** X1.  On an enabled state with a well-formed shadow, every sequence of
    updates with well-formed trees of the shadow's keys and shapes
    succeeds; the state reached has the decay of the first one, and its
    shadow has the keys and shapes of the first one and is well formed. *)
Theorem update_all_keeps_structure (s : EmaState ndarray) (ps : list (pytree ndarray)) :
  (decay s =? 0)%float = false ->
  wf_tree (variables s) ->
  Forall (fun p => same_structure (variables s) p = true /\ wf_tree p) ps ->
  exists s',
    update_all s ps = Ok s' /\
    decay s' = decay s /\
    same_structure (variables s) (variables s') = true /\
    wf_tree (variables s').
Proof.
  revert s. induction ps as [|p ps IH]; intros s Hd Hwf Hps.
  - exists s. split; [reflexivity|]. split; [reflexivity|]. split; [|exact Hwf].
    unfold same_structure. apply (tree_Forall2_all2 (fun a b => a = b /\ True)).
    + intros a b [-> _]. apply bool_decide_eq_true_2. reflexivity.
    + apply tree_Forall2_diag. apply Forall_forall. auto.
  - inversion Hps as [|p' ps' [Hss Hwfp] Hrest]; subst.
    destruct (update_step s p Hd Hss Hwf Hwfp) as (Hu & Hss1 & Hwf1).
    set (s1 := replace_variables s
                 (tree_zip_with (ema_array (decay s)) (variables s) p)) in *.
    destruct (IH s1) as (s' & Hrun & Hd' & Hss' & Hwf').
    + exact Hd.
    + exact Hwf1.
    + eapply Forall_impl; [exact Hrest|]. cbn. intros q [Hq Hwq].
      split; [|exact Hwq].
      eapply same_structure_trans; [apply same_structure_sym; exact Hss1|exact Hq].
    + exists s'. cbn. rewrite Hu. cbn. split; [exact Hrun|].
      split; [exact Hd'|]. split; [|exact Hwf'].
      eapply same_structure_trans; [exact Hss1|exact Hss'].
Qed.

Lemma update_all_keeps_structure_witness :
  exists s',
    update_all (mkEmaState 0.9%float (Dict [("w", Leaf (scalar 2%float))]))
      [Dict [("w", Leaf (scalar 12%float))]; Dict [("w", Leaf (scalar 3%float))]]
    = Ok s' /\
    decay s' = 0.9%float /\ wf_tree (variables s').
Proof.
  destruct (update_all_keeps_structure
              (mkEmaState 0.9%float (Dict [("w", Leaf (scalar 2%float))]))
              [Dict [("w", Leaf (scalar 12%float))]; Dict [("w", Leaf (scalar 3%float))]])
    as (s' & Hrun & Hd & _ & Hwf).
  - reflexivity.
  - repeat constructor.
  - repeat constructor.
  - exists s'. split; [exact Hrun|]. split; [exact Hd|exact Hwf].
Defined.

Lemma add_shape (a b c : ndarray) :
  add a b = Ok c -> broadcast_shapes (shape a) (shape b) = Some (shape c).
Proof.
  unfold add. destruct (broadcast_shapes (shape a) (shape b)); [|discriminate].
  intros [= <-]. reflexivity.
Qed.

(** X2.  When [update] succeeds on an enabled state, then at every path at
    which the shadow and the new tree both hold an array, the new shadow
    holds [ema * decay + (1 - decay) * p], and the shape of that array is
    the broadcast of the two shapes: the shadow takes the shape of a
    larger new array. *)
Theorem update_result_shapes (s s' : EmaState ndarray) (new_live : pytree ndarray) :
  (decay s =? 0)%float = false ->
  update s new_live = Ok s' ->
  forall path a b,
    tree_get path (variables s) = Some (Leaf a) ->
    tree_get path new_live = Some (Leaf b) ->
    exists c,
      tree_get path (variables s') = Some (Leaf c) /\
      add (mul_scalar a (decay s)) (rmul_scalar (1 - decay s) b) = Ok c /\
      broadcast_shapes (shape a) (shape b) = Some (shape c).
Proof.
  intros Hd Hu path a b Ha Hb.
  unfold update in Hu. rewrite Hd in Hu. unfold tree_multimap in Hu.
  set (F := fun ap : ndarray * pytree ndarray => ema_leaf (decay s) ap.1 ap.2) in Hu.
  destruct (flatten_up_to (variables s) new_live) as [pairs|] eqn:Hfl; [|discriminate].
  cbn in Hu. destruct (tree_mapM F pairs) as [r|] eqn:Hr; [|discriminate].
  cbn in Hu. injection Hu as <-.
  pose proof (flatten_up_to_get path _ _ _ _ _ Hfl Ha Hb) as Hp.
  destruct (tree_mapM_get F path _ _ _ Hr Hp) as (c & Hc & Hgc).
  exists c. split; [exact Hgc|].
  assert (Hadd : add (mul_scalar a (decay s)) (rmul_scalar (1 - decay s) b) = Ok c)
    by exact Hc.
  split; [exact Hadd|]. exact (add_shape _ _ _ Hadd).
Qed.

Lemma update_result_shapes_witness :
  exists c,
    tree_get ["w"]
      (Dict [("w", Leaf (NdArray [2]
               [0.9 * 1 + (1 - 0.9) * 5; 0.9 * 1 + (1 - 0.9) * 6]%float))])
    = Some (Leaf c) /\
    broadcast_shapes [1] [2] = Some (shape c).
Proof.
  destruct (update_result_shapes
              (mkEmaState 0.9%float (Dict [("w", Leaf (NdArray [1] [1%float]))]))
              (mkEmaState 0.9%float
                 (Dict [("w", Leaf (NdArray [2]
                          [0.9 * 1 + (1 - 0.9) * 5; 0.9 * 1 + (1 - 0.9) * 6]%float))]))
              (Dict [("w", Leaf (NdArray [2] [5; 6]%float))])
              eq_refl ltac:(vm_compute; reflexivity)
              ["w"] (NdArray [1] [1%float]) (NdArray [2] [5; 6]%float)
              eq_refl eq_refl)
    as (c & Hget & Hadd & Hshape).
  exists c. split; [exact Hget|exact Hshape].
Defined.

Lemma update_disabled_fixed (s : EmaState ndarray) (p : pytree ndarray) :
  (decay s =? 0)%float = true -> variables s = PyNone -> update s p = Ok s.
Proof.
  intros Hd Hv. unfold update. rewrite Hd. destruct s as [d v]. cbn in *. subst v.
  reflexivity.
Qed.

(** X3.  A state with decay [0.] takes any sequence of trees, of whatever
    keys and shapes: no update raises, the shadow is [None] from the first
    update on, and a state made by [create] stays [EmaState()]. *)
Theorem disabled_absorbs_updates (s : EmaState ndarray) (ps : list (pytree ndarray)) :
  (decay s =? 0)%float = true ->
  update_all s ps = Ok (match ps with [] => s | _ => replace_variables s PyNone end) /\
  forall (P : pytree ndarray),
    update_all (create (decay s) P) ps = Ok EmaState_default.
Proof.
  intros Hd.
  assert (Hfix : forall s1 : EmaState ndarray,
             (decay s1 =? 0)%float = true -> variables s1 = PyNone ->
             update_all s1 ps = Ok s1).
  { induction ps as [|q qs IH]; intros s1 Hd1 Hv1; [reflexivity|].
    cbn. rewrite (update_disabled_fixed s1 q Hd1 Hv1). cbn. apply IH; assumption. }
  split.
  - destruct ps as [|p qs]; [reflexivity|].
    cbn. unfold update at 1. rewrite Hd. cbn.
    clear Hfix.
    assert (Hfix : forall s1 : EmaState ndarray,
               (decay s1 =? 0)%float = true -> variables s1 = PyNone ->
               update_all s1 qs = Ok s1).
    { induction qs as [|q qs' IH]; intros s1 Hd1 Hv1; [reflexivity|].
      cbn. rewrite (update_disabled_fixed s1 q Hd1 Hv1). cbn. apply IH; assumption. }
    apply Hfix; [exact Hd|reflexivity].
  - intros P. unfold create. rewrite Hd. apply Hfix; reflexivity.
Qed.

Lemma disabled_absorbs_updates_witness :
  update_all (create 0%float (Dict [("w", Leaf (scalar 2%float))]))
    [Dict [("v", Leaf (NdArray [3] [1; 2; 3]%float))]; PyNone; Leaf (scalar 1%float)]
  = Ok EmaState_default.
Proof.
  apply (disabled_absorbs_updates (mkEmaState 0%float PyNone)). reflexivity.
Defined.

Lemma tree_leaves_nil_dict {A} (k : string) (c : pytree A) r :
  tree_leaves (Dict ((k, c) :: r)) = [] -> tree_leaves c = [] /\ tree_leaves (Dict r) = [].
Proof. cbn. intros H. apply app_eq_nil in H. exact H. Qed.

Lemma tree_map_leafless {A B} (g h : A -> B) (t : pytree A) :
  tree_leaves t = [] -> tree_map g t = tree_map h t.
Proof.
  induction t as [a| |items IH] using pytree_ind'; intros Hl; try discriminate;
    [reflexivity|].
  cbn. f_equal.
  induction IH as [|[k c] r Hc _ IHr]; [reflexivity|].
  apply tree_leaves_nil_dict in Hl as [Hlc Hlr]. cbn in Hc |- *.
  rewrite (Hc Hlc), (IHr Hlr). reflexivity.
Qed.

(** On a tree without leaves the structure check is all [tree_multimap]
    does. *)
Lemma tree_multimap_leafless {A B} (f : A -> pytree B -> result A) (t : pytree A) :
  tree_leaves t = [] ->
  forall u : pytree B, structure_matches t u = true -> tree_multimap f t u = Ok t.
Proof.
  intros Hl u Hm. unfold tree_multimap.
  assert (Hfl : flatten_up_to t u = Ok (tree_map (fun a => (a, u)) t)).
  { generalize u at 2 as w. revert u Hm.
    induction t as [a| |items IH] using pytree_ind'; intros u Hm w.
    - discriminate.
    - reflexivity.
    - destruct u as [?| |items']; try discriminate. cbn in Hm |- *.
      rewrite decide_True by (eapply items_all2_keys; exact Hm).
      assert (Hz : items_zipM flatten_up_to items items'
                   = Ok (map (fun kv => (kv.1, tree_map (fun a => (a, w)) kv.2)) items)).
      { revert items' Hm Hl.
        induction IH as [|[k c] r Hc _ IHr]; intros [|[k' c'] r'] Hm Hl;
          cbn in Hm; try discriminate; [reflexivity|].
        apply tree_leaves_nil_dict in Hl as [Hlc Hlr].
        apply andb_true_iff in Hm as [Hm Hr]. apply andb_true_iff in Hm as [_ Hcc].
        cbn in Hc. cbn. rewrite (Hc Hlc _ Hcc w). cbn.
        rewrite (IHr _ Hr Hlr). reflexivity. }
      rewrite Hz. reflexivity. }
  rewrite Hfl. cbn. clear Hfl Hm.
  induction t as [a| |items IH] using pytree_ind'; try discriminate; [reflexivity|].
  cbn.
  assert (Hz : items_mapM (tree_mapM (fun ap : A * pytree B => f ap.1 ap.2))
                 (map (fun kv => (kv.1, tree_map (fun a => (a, u)) kv.2)) items)
               = Ok items).
  { induction IH as [|[k c] r Hc _ IHr]; [reflexivity|].
    apply tree_leaves_nil_dict in Hl as [Hlc Hlr]. cbn in Hc |- *.
    rewrite (Hc Hlc). cbn. rewrite (IHr Hlr). reflexivity. }
  rewrite Hz. reflexivity.
Qed.

(** X4.  On an enabled state whose shadow holds no array ([None], or dicts
    without arrays), [update] only compares the structures: it returns the
    state as it is when the new tree has a dict with the same keys at every
    dict of the shadow (whatever it has where the shadow has [None]), and
    raises the tree-structure error otherwise. *)
Theorem update_without_arrays (s : EmaState ndarray) (new_live : pytree ndarray) :
  (decay s =? 0)%float = false ->
  tree_leaves (variables s) = [] ->
  update s new_live
  = if structure_matches (variables s) new_live then Ok s
    else Raise TreeStructureMismatch.
Proof.
  intros Hd Hl. unfold update. rewrite Hd.
  destruct (structure_matches (variables s) new_live) eqn:Hm.
  - rewrite tree_multimap_leafless by assumption. destruct s; reflexivity.
  - unfold tree_multimap.
    pose proof (flatten_up_to_outcome (variables s) new_live) as Hfl.
    destruct (flatten_up_to (variables s) new_live) as [pairs|e]; [congruence|].
    destruct Hfl as [-> _]. reflexivity.
Qed.

Lemma update_without_arrays_witness :
  update (create 0.9%float (Dict [("aux", PyNone); ("head", Dict [])]))
         (Dict [("aux", Dict [("w", Leaf (scalar 1%float))]); ("head", Dict [])])
  = Ok (create 0.9%float (Dict [("aux", PyNone); ("head", Dict [])])) /\
  update (create 0.9%float PyNone) (Dict [("w", Leaf (scalar 1%float))])
  = Ok (create 0.9%float PyNone) /\
  update (create 0.9%float (Dict [("aux", PyNone); ("head", Dict [])]))
         (Dict [("aux", PyNone); ("head", Dict [("w", Leaf (scalar 1%float))])])
  = Raise TreeStructureMismatch.
Proof.
  split; [|split].
  - apply (update_without_arrays
             (create 0.9%float (Dict [("aux", PyNone); ("head", Dict [])]))
             (Dict [("aux", Dict [("w", Leaf (scalar 1%float))]); ("head", Dict [])]));
      reflexivity.
  - apply (update_without_arrays (create 0.9%float PyNone)
             (Dict [("w", Leaf (scalar 1%float))])); reflexivity.
  - apply (update_without_arrays
             (create 0.9%float (Dict [("aux", PyNone); ("head", Dict [])]))
             (Dict [("aux", PyNone); ("head", Dict [("w", Leaf (scalar 1%float))])]));
      reflexivity.
Defined.

(** ** The arrays of the shadow after an update *)

Lemma represents_allocated (σ : store) (t : pytree loc) :
  forall tv : pytree ndarray,
  represents σ t tv -> Forall (fun l => is_Some (σ !! l)) (tree_leaves t).
Proof.
  unfold represents.
  induction t as [l| |items IH] using pytree_ind';
    intros [a| |itemsv] H; cbn in *; try contradiction; try constructor; eauto.
  revert itemsv H.
  induction IH as [|[k c] r Hc _ IHr]; intros [|[kv cv] rv] H;
    cbn in *; try contradiction; try constructor.
  destruct H as (Hk & Hcc & Hr). apply Forall_app. eauto.
Qed.

(** X5.  The shadow made by [create] shares its arrays with the tree it
    was made from, the shadow after one [update] does not: none of its
    arrays is an array of that tree or of the new tree, so a store that
    differs from the one after the update only at arrays of those two
    trees (after writes in place to them) holds the same shadow. *)
Theorem update_ends_sharing (σ σ' : store) (d : float) (P new_live : pytree loc)
    (Pv nv : pytree ndarray) (s' : EmaState loc) :
  (d =? 0)%float = false ->
  represents σ P Pv -> represents σ new_live nv ->
  update (create d P) new_live σ = (Ok s', σ') ->
  Forall (fun l => (l ∉ tree_leaves P) /\ (l ∉ tree_leaves new_live))
    (tree_leaves (variables s')) /\
  forall (σ'' : store) (v' : pytree ndarray),
    represents σ' (variables s') v' ->
    (forall l, l ∉ tree_leaves P -> l ∉ tree_leaves new_live -> σ'' !! l = σ' !! l) ->
    represents σ'' (variables s') v'.
Proof.
  intros Hd HP Hn Hrun.
  assert (Hfresh : Forall (fun l => σ !! l = None) (tree_leaves (variables s'))).
  { unfold update, create in Hrun. rewrite Hd in Hrun. cbn [decay variables] in Hrun.
    rewrite Hd, tree_map_id in Hrun.
    destruct (tree_multimap_heap d P new_live Pv nv σ HP Hn)
      as (r & σ1 & Hmm & _ & Hr).
    destruct r as [t'|e].
    - erewrite heap_bind_ok in Hrun by exact Hmm.
      cbn in Hrun. injection Hrun as <- <-.
      destruct Hr as (_ & _ & _ & Hf). exact Hf.
    - erewrite heap_bind_raise in Hrun by exact Hmm. discriminate. }
  assert (Hdisj : Forall (fun l => (l ∉ tree_leaves P) /\ (l ∉ tree_leaves new_live))
                    (tree_leaves (variables s'))).
  { pose proof (represents_allocated _ _ _ HP) as HaP.
    pose proof (represents_allocated _ _ _ Hn) as Han.
    rewrite Forall_forall in HaP, Han.
    eapply Forall_impl; [exact Hfresh|]. cbn. intros l Hl. split.
    - intros Hin. destruct (HaP _ Hin) as [a Ha]. congruence.
    - intros Hin. destruct (Han _ Hin) as [a Ha]. congruence. }
  split; [exact Hdisj|].
  intros σ'' v' Hrep Hsame. eapply represents_leaves; [|exact Hrep].
  eapply Forall_impl; [exact Hdisj|]. cbn. intros l [H1 H2]. auto.
Qed.

Lemma update_ends_sharing_witness :
  exists s' σ' σ'',
    update (create 0.9%float (Dict [("w", Leaf 1%positive)]))
           (Dict [("w", Leaf 2%positive)])
           (<[1%positive := scalar 2%float]> (<[2%positive := scalar 12%float]> ∅))
    = (Ok s', σ') /\
    setitem 1%positive 0 7%float σ' = (Ok tt, σ'') /\
    represents σ'' (variables s') (Dict [("w", Leaf (scalar 3%float))]).
Proof.
  eexists _, _, _. split; [reflexivity|]. split; [reflexivity|].
  eapply (update_ends_sharing
            (<[1%positive := scalar 2%float]> (<[2%positive := scalar 12%float]> ∅))
            _ 0.9%float (Dict [("w", Leaf 1%positive)]) (Dict [("w", Leaf 2%positive)])
            (Dict [("w", Leaf (scalar 2%float))]) (Dict [("w", Leaf (scalar 12%float))])).
  - reflexivity.
  - cbn. split; [reflexivity|]. split; [reflexivity|exact I].
  - cbn. split; [reflexivity|]. split; [reflexivity|exact I].
  - reflexivity.
  - cbn. split; [reflexivity|]. split; [vm_compute; reflexivity|exact I].
  - intros l H1 H2. apply lookup_insert_ne. intros <-. apply H1. cbn. left.
Defined.

(** ** A training step without [EmaState] *)

Lemma int32_wrap_range (z : Z) : (- 2 ^ 31 <= int32_wrap z < 2 ^ 31)%Z.
Proof.
  unfold int32_wrap.
  pose proof (Z.mod_pos_bound (z + 2 ^ 31) (2 ^ 32) ltac:(lia)). lia.
Qed.

Lemma int32_wrap_small (z : Z) :
  (- 2 ^ 31 <= z < 2 ^ 31)%Z -> int32_wrap z = z.
Proof.
  intros H. unfold int32_wrap. rewrite Z.mod_small by lia. lia.
Qed.

(** X15.  A training step returns a state only on a state without
    [EmaState]: it succeeds exactly when [state.ema] is [None] and the
    optimizer step succeeds, and the state returned has again no
    [EmaState].  Its step counter is a 32-bit integer: the counter of the
    state plus one as long as that is below [2^31], and [-2^31] after the
    step [2^31 - 1]. *)
Theorem train_step_only_without_ema (Batch Metrics ApplyFn Rng : Type)
    (forward_backward :
       ApplyFn -> TrainState -> Batch -> float -> float -> float -> option Rng ->
       result (Optimizer * pytree ndarray * option DynamicScale * Metrics))
    (apply_fn : ApplyFn) (state : TrainState) (batch : Batch)
    (lr label_smoothing weight_decay : float) (dropout_rng : option Rng)
    (new_state : TrainState) (metrics : Metrics) :
  (train_step Batch Metrics ApplyFn Rng forward_backward apply_fn state batch
     lr label_smoothing weight_decay dropout_rng = Ok (new_state, metrics)
   <->
   ema state = None /\
   exists new_optimizer new_model_state dynamic_scale,
     forward_backward apply_fn state batch lr label_smoothing weight_decay dropout_rng
     = Ok (new_optimizer, new_model_state, dynamic_scale, metrics) /\
     new_state = mkTrainState (int32_wrap (step state + 1)) new_optimizer
                   new_model_state dynamic_scale None) /\
  (train_step Batch Metrics ApplyFn Rng forward_backward apply_fn state batch
     lr label_smoothing weight_decay dropout_rng = Ok (new_state, metrics) ->
   ema new_state = None /\
   (- 2 ^ 31 <= step new_state < 2 ^ 31)%Z /\
   ((- 2 ^ 31 <= step state < 2 ^ 31 - 1)%Z -> step new_state = (step state + 1)%Z) /\
   (step state = (2 ^ 31 - 1)%Z -> step new_state = (- 2 ^ 31)%Z)).
Proof.
  assert (Hiff :
    train_step Batch Metrics ApplyFn Rng forward_backward apply_fn state batch
      lr label_smoothing weight_decay dropout_rng = Ok (new_state, metrics)
    <->
    ema state = None /\
    exists new_optimizer new_model_state dynamic_scale,
      forward_backward apply_fn state batch lr label_smoothing weight_decay dropout_rng
      = Ok (new_optimizer, new_model_state, dynamic_scale, metrics) /\
      new_state = mkTrainState (int32_wrap (step state + 1)) new_optimizer
                    new_model_state dynamic_scale None).
  { unfold train_step. split.
    - destruct (forward_backward _ _ _ _ _ _ _) as [[[[o ms] ds] mt]|]; [|discriminate].
      destruct (ema state) as [e|]; [discriminate|].
      cbn. intros [= <- <-]. split; [reflexivity|]. eauto.
    - intros (-> & o & ms & ds & -> & ->). reflexivity. }
  split; [exact Hiff|].
  intros Hrun. apply Hiff in Hrun as (_ & o & ms & ds & _ & ->). cbn [ema step].
  split; [reflexivity|]. split; [apply int32_wrap_range|]. split.
  - intros Hs. apply int32_wrap_small. lia.
  - intros ->. reflexivity.
Qed.

(** ** Batch statistics *)

Lemma dict_get_set_eq {X} (k : string) (v : X) (items : list (string * X)) :
  dict_get k (dict_set k v items) = Some v.
Proof.
  induction items as [|[k' x] rest IH]; cbn.
  - rewrite decide_True by reflexivity. reflexivity.
  - destruct (String_as_OT.cmp k k') eqn:Hc; cbn.
    + apply String_as_OT.cmp_eq in Hc. rewrite decide_True by exact Hc. reflexivity.
    + rewrite decide_True by reflexivity. reflexivity.
    + destruct (decide (k = k')) as [->|_]; [|exact IH].
      rewrite (proj2 (String_as_OT.cmp_eq k' k') eq_refl) in Hc. discriminate.
Qed.

Lemma dict_get_set_ne {X} (k k2 : string) (v : X) (items : list (string * X)) :
  k2 <> k -> dict_get k2 (dict_set k v items) = dict_get k2 items.
Proof.
  intros Hne. induction items as [|[k' x] rest IH]; cbn.
  - rewrite decide_False by exact Hne. reflexivity.
  - destruct (String_as_OT.cmp k k') eqn:Hc; cbn.
    + apply String_as_OT.cmp_eq in Hc. subst k'.
      rewrite !decide_False by exact Hne. reflexivity.
    + rewrite decide_False by exact Hne. reflexivity.
    + destruct (decide (k2 = k')); [reflexivity|exact IH].
Qed.

Lemma dict_get_keys {X} (k : string) (items : list (string * X)) (x : X) :
  dict_get k items = Some x -> k ∈ keys items.
Proof.
  induction items as [|[k' y] rest IH]; cbn; [discriminate|].
  destruct (decide (k = k')) as [->|_]; intros H.
  - left.
  - right. apply IH. exact H.
Qed.

(** Replacing the value of a key that is there keeps the keys. *)
Lemma dict_set_keys {X} (k : string) (v x : X) (items : list (string * X)) :
  Sorted String_as_OT.lt (keys items) -> dict_get k items = Some x ->
  keys (dict_set k v items) = keys items.
Proof.
  intros Hs. apply Sorted_StronglySorted in Hs;
    [|intros a b c; apply String_as_OT.lt_trans].
  induction items as [|[k' y] rest IH]; cbn; [discriminate|].
  cbn in Hs. apply StronglySorted_inv in Hs as [Hrest Hall].
  destruct (String_as_OT.cmp k k') eqn:Hc; cbn.
  - intros _. reflexivity.
  - apply String_as_OT.cmp_lt in Hc.
    destruct (decide (k = k')) as [->|_].
    + exfalso. exact (String_as_OT.lt_not_eq _ _ Hc eq_refl).
    + intros Hget. exfalso. apply dict_get_keys in Hget.
      rewrite Forall_forall in Hall. specialize (Hall _ Hget).
      exact (String_as_OT.lt_not_eq _ _ (String_as_OT.lt_trans _ _ _ Hc Hall) eq_refl).
  - destruct (decide (k = k')) as [->|_].
    + rewrite (proj2 (String_as_OT.cmp_eq k' k') eq_refl) in Hc. discriminate.
    + intros Hget. f_equal. apply IH; assumption.
Qed.

Section SyncProperties.
Variable avg : pytree ndarray -> outcome (pytree ndarray).

Lemma copy_with_synced_stats_dict (items : list (string * pytree ndarray)) bs bs' :
  dict_get "batch_stats" items = Some bs -> avg bs = Done bs' ->
  copy_with_synced_stats avg (VTree (Dict items))
  = Done (Dict (dict_set "batch_stats" bs' items)).
Proof.
  intros Hget Havg. cbn. unfold frozen_getitem. rewrite Hget. cbn.
  rewrite Havg. reflexivity.
Qed.

(** X6.  [sync_batch_stats] on a state that holds an [EmaState] returns no
    state: once the batch statistics of the model state are averaged,
    [state.ema.model_state] raises an [AttributeError]. *)
Theorem sync_batch_stats_with_ema (state : TrainState) (e : EmaState ndarray) :
  ema state = Some e ->
  (forall st, sync_batch_stats avg state <> Done st) /\
  (forall items bs bs',
     model_state state = Dict items ->
     dict_get "batch_stats" items = Some bs -> avg bs = Done bs' ->
     sync_batch_stats avg state = Throw (Inner NoSuchAttribute)).
Proof.
  intros He. unfold sync_batch_stats. rewrite He. split.
  - intros st. destruct (copy_with_synced_stats avg _); cbn; discriminate.
  - intros items bs bs' Hm Hget Havg. rewrite Hm.
    rewrite (copy_with_synced_stats_dict _ _ _ Hget Havg). reflexivity.
Qed.

(** X7.  On a state without [EmaState] whose model state has the entry
    [batch_stats], [sync_batch_stats] returns the state with that entry
    replaced by its average: step, optimizer and loss scale are kept, the
    other entries of the model state are kept, and so are its keys. *)
Theorem sync_batch_stats_without_ema (state : TrainState)
    (items : list (string * pytree ndarray)) (bs bs' : pytree ndarray) :
  ema state = None ->
  model_state state = Dict items ->
  dict_get "batch_stats" items = Some bs ->
  avg bs = Done bs' ->
  exists items',
    sync_batch_stats avg state
    = Done (mkTrainState (step state) (optimizer state) (Dict items')
              (dynamic_scale state) None) /\
    dict_get "batch_stats" items' = Some bs' /\
    (forall k, k <> "batch_stats" -> dict_get k items' = dict_get k items) /\
    (Sorted String_as_OT.lt (keys items) -> keys items' = keys items).
Proof.
  intros He Hm Hget Havg. exists (dict_set "batch_stats" bs' items).
  split; [|split; [|split]].
  - unfold sync_batch_stats. rewrite He, Hm.
    rewrite (copy_with_synced_stats_dict _ _ _ Hget Havg). reflexivity.
  - apply dict_get_set_eq.
  - intros k Hk. apply dict_get_set_ne. exact Hk.
  - intros Hs. eapply dict_set_keys; eassumption.
Qed.

(** X8.  On a model state without the entry [batch_stats],
    [sync_batch_stats] raises [KeyError('batch_stats')], with or without
    an [EmaState]. *)
Theorem sync_batch_stats_missing_key (state : TrainState)
    (items : list (string * pytree ndarray)) :
  model_state state = Dict items ->
  dict_get "batch_stats" items = None ->
  sync_batch_stats avg state = Throw (KeyError "batch_stats").
Proof.
  intros Hm Hget. unfold sync_batch_stats. rewrite Hm. cbn.
  unfold frozen_getitem. rewrite Hget. reflexivity.
Qed.
End SyncProperties.

Lemma sync_batch_stats_with_ema_witness :
  sync_batch_stats (fun t => Done (tree_map (fun a => mul_scalar a 0.5%float) t))
    (mkTrainState 7 (mkOptimizer (Dict [("w", Leaf (scalar 2%float))]) PyNone)
       (Dict [("batch_stats", Dict [("mean", Leaf (scalar 1%float))]);
              ("cache", PyNone)])
       None (Some (mkEmaState 0.9997%float (Dict [("w", Leaf (scalar 2%float))]))))
  = Throw (Inner NoSuchAttribute).
Proof.
  destruct (sync_batch_stats_with_ema (fun t => Done (tree_map (fun a => mul_scalar a 0.5%float) t))
              (mkTrainState 7 (mkOptimizer (Dict [("w", Leaf (scalar 2%float))]) PyNone)
                 (Dict [("batch_stats", Dict [("mean", Leaf (scalar 1%float))]);
                        ("cache", PyNone)])
                 None (Some (mkEmaState 0.9997%float (Dict [("w", Leaf (scalar 2%float))]))))
              (mkEmaState 0.9997%float (Dict [("w", Leaf (scalar 2%float))])) eq_refl)
    as [_ H].
  exact (H _ _ _ eq_refl eq_refl eq_refl).
Defined.

Lemma sync_batch_stats_without_ema_witness :
  exists items',
    sync_batch_stats (fun t => Done (tree_map (fun a => mul_scalar a 0.5%float) t))
      (mkTrainState 7 (mkOptimizer (Dict [("w", Leaf (scalar 2%float))]) PyNone)
         (Dict [("batch_stats", Dict [("mean", Leaf (scalar 1%float))]);
                ("cache", PyNone)])
         None None)
    = Done (mkTrainState 7 (mkOptimizer (Dict [("w", Leaf (scalar 2%float))]) PyNone)
              (Dict items') None None) /\
    dict_get "batch_stats" items' = Some (Dict [("mean", Leaf (scalar 0.5%float))]) /\
    dict_get "cache" items' = Some PyNone /\
    keys items' = ["batch_stats"; "cache"].
Proof.
  destruct (sync_batch_stats_without_ema (fun t => Done (tree_map (fun a => mul_scalar a 0.5%float) t))
              (mkTrainState 7 (mkOptimizer (Dict [("w", Leaf (scalar 2%float))]) PyNone)
                 (Dict [("batch_stats", Dict [("mean", Leaf (scalar 1%float))]);
                        ("cache", PyNone)])
                 None None)
              [("batch_stats", Dict [("mean", Leaf (scalar 1%float))]); ("cache", PyNone)]
              (Dict [("mean", Leaf (scalar 1%float))])
              (Dict [("mean", Leaf (scalar 0.5%float))])
              eq_refl eq_refl eq_refl ltac:(vm_compute; reflexivity))
    as (items' & Hrun & Hget & Hother & Hkeys).
  exists items'. split; [exact Hrun|]. split; [exact Hget|]. split.
  - apply (Hother "cache"). discriminate.
  - apply Hkeys. repeat constructor.
Defined.

Lemma sync_batch_stats_missing_key_witness :
  sync_batch_stats (fun t => Done (tree_map (fun a => mul_scalar a 0.5%float) t))
    (mkTrainState 7 (mkOptimizer (Dict [("w", Leaf (scalar 2%float))]) PyNone)
       (Dict [("cache", PyNone)]) None None)
  = Throw (KeyError "batch_stats").
Proof.
  apply (sync_batch_stats_missing_key (fun t => Done (tree_map (fun a => mul_scalar a 0.5%float) t))
           (mkTrainState 7 (mkOptimizer (Dict [("w", Leaf (scalar 2%float))]) PyNone)
              (Dict [("cache", PyNone)]) None None)
           [("cache", PyNone)]); reflexivity.
Defined.

(** ** The learning rate of a step *)

Lemma py_range_lookup (a b : Z) (i : nat) (z : Z) :
  py_range a b !! i = Some z <-> z = (a + Z.of_nat i)%Z /\ (Z.of_nat i < b - a)%Z.
Proof.
  unfold py_range. rewrite list_lookup_fmap.
  destruct (seq 0 (Z.to_nat (b - a)) !! i) as [j|] eqn:Hj; cbn.
  - apply lookup_seq in Hj as [-> Hlt]. cbn. split.
    + intros [= <-]. split; [reflexivity|lia].
    + intros [-> _]. reflexivity.
  - split; [discriminate|]. intros [_ Hlt].
    assert (Hs : seq 0 (Z.to_nat (b - a)) !! i = Some (0 + i)%nat)
      by (apply lookup_seq; split; [reflexivity|lia]).
    congruence.
Qed.

Lemma py_range_length (a b : Z) : length (py_range a b) = Z.to_nat (b - a).
Proof. unfold py_range. rewrite length_map, length_seq. reflexivity. Qed.

(** X9.  The [i]-th item of the training loop,
    [zip(range(step_offset, num_steps), train_iter, lr_iter)] with
    [lr_iter = lr_prefetch_iter(lr_fn, step_offset, num_steps)], is the
    step [step_offset + i], below [num_steps], the [i]-th batch, and the
    learning rate of that very step on every local device. *)
Theorem lr_follows_step (LrArray Device Batch : Type)
    (ones_times : nat -> float -> LrArray) (jax_local_device_count : nat)
    (lr_fn : Z -> float) (step_offset num_steps : Z) (devices : option (list Device))
    (train_iter : list Batch) (i : nat) (step : Z) (batch : Batch) (lr : LrArray) :
  loop_items LrArray step_offset num_steps train_iter
    (lr_prefetch_iter LrArray Device ones_times jax_local_device_count
       lr_fn step_offset num_steps devices) !! i
  = Some (step, batch, lr) ->
  step = (step_offset + Z.of_nat i)%Z /\
  (step_offset <= step < num_steps)%Z /\
  train_iter !! i = Some batch /\
  lr = ones_times
         (match devices with None => jax_local_device_count | Some ds => length ds end)
         (lr_fn step).
Proof.
  unfold loop_items, lr_prefetch_iter. intros H.
  apply lookup_zip_with_Some in H as ([s0 b0] & l & Heq & Hsb & Hl).
  injection Heq as -> -> ->.
  apply lookup_zip_with_Some in Hsb as (s1 & b1 & Heq & Hs & Hb).
  injection Heq as -> ->.
  apply py_range_lookup in Hs as [-> Hlt].
  rewrite list_lookup_fmap in Hl.
  destruct (py_range step_offset num_steps !! i) as [z|] eqn:Hz; [|discriminate].
  apply py_range_lookup in Hz as [-> _]. injection Hl as <-.
  split; [reflexivity|]. split; [lia|]. split; [exact Hb|reflexivity].
Qed.

Lemma lr_follows_step_witness :
  (12 = 10 + Z.of_nat 2)%Z /\ (10 <= 12 < 15)%Z /\
  ["a"; "b"; "c"; "d"] !! 2%nat = Some "c".
Proof.
  destruct (lr_follows_step (nat * float) unit string (fun n x => (n, x)) 8
              (fun i => if (i <? 12)%Z then 0.016%float else 0.008%float)
              10 15 None ["a"; "b"; "c"; "d"] 2 12 "c" (8, 0.008%float) eq_refl)
    as (H1 & H2 & H3 & _).
  split; [exact H1|]. split; [exact H2|exact H3].
Defined.

(** ** Sharding a batch *)

Lemma prepare_shape_batch (n b : nat) (rest : list nat) :
  (0 < n)%nat -> (0 < numel rest)%nat ->
  prepare_shape n (b :: rest)
  = if (b mod n =? 0)%nat then Some (n :: (b / n)%nat :: rest) else None.
Proof.
  intros Hn HR. unfold prepare_shape. cbn [tail].
  change (numel (b :: rest)) with (b * numel rest)%nat.
  set (R := numel rest) in *.
  assert (H0 : (n * R =? 0)%nat = false) by (apply Nat.eqb_neq; nia).
  rewrite H0. cbn [orb].
  rewrite Nat.Div0.mul_mod_distr_r.
  rewrite Nat.Div0.div_mul_cancel_r by lia.
  destruct (b mod n =? 0)%nat eqn:Hm.
  - apply Nat.eqb_eq in Hm. rewrite Hm. cbn. reflexivity.
  - apply Nat.eqb_neq in Hm.
    assert (Hne : (b mod n * R =? 0)%nat = false) by (apply Nat.eqb_neq; nia).
    rewrite Hne. reflexivity.
Qed.

Lemma prepare_shape_numel (n : nat) (s s' : list nat) :
  prepare_shape n s = Some s' ->
  numel s' = numel s /\ hd 0%nat s' = n /\ tail (tail s') = tail s.
Proof.
  unfold prepare_shape.
  destruct (n * numel (tail s) =? 0)%nat eqn:H0; [discriminate|]. cbn [orb].
  destruct (numel s mod (n * numel (tail s)) =? 0)%nat eqn:Hm; [|discriminate].
  cbn [negb]. intros [= <-].
  apply Nat.eqb_neq in H0. apply Nat.eqb_eq in Hm.
  split; [|split; reflexivity].
  change (numel (n :: (numel s / (n * numel (tail s)))%nat :: tail s))
    with (n * ((numel s / (n * numel (tail s))) * numel (tail s)))%nat.
  apply Nat.Div0.div_exact in Hm. nia.
Qed.

Lemma tree_mapM_done_map {A B} (F : A -> outcome B) (g : A -> B) (t : pytree A) :
  Forall (fun a => F a = Done (g a)) (tree_leaves t) ->
  tree_mapM F t = Done (tree_map g t).
Proof.
  induction t as [a| |items IH] using pytree_ind'; intros HF; cbn in *.
  - inversion HF as [|? ? Ha _]; subst. rewrite Ha. reflexivity.
  - reflexivity.
  - assert (Hz : items_mapM (tree_mapM F) items
                 = Done (map (fun kv => (kv.1, tree_map g kv.2)) items)).
    { induction IH as [|[k c] r Hc _ IHr]; [reflexivity|]. cbn in *.
      apply Forall_app in HF as [HFc HFr].
      rewrite (Hc HFc). cbn. rewrite (IHr HFr). reflexivity. }
    rewrite Hz. reflexivity.
Qed.

Lemma tree_mapM_leafless_done {A B} (F : A -> outcome B) (t : pytree A) :
  tree_leaves t = [] -> exists t', tree_mapM F t = Done t'.
Proof.
  induction t as [a| |items IH] using pytree_ind'; intros Hl.
  - discriminate.
  - eexists. reflexivity.
  - cbn. assert (Hi : exists its', items_mapM (tree_mapM F) items = Done its').
    { induction IH as [|[k c] r Hc _ IHr]; [eexists; reflexivity|].
      cbn in Hl. apply app_eq_nil in Hl as [H1 H2].
      destruct (Hc H1) as [c' Hc']. destruct (IHr H2) as [r' Hr'].
      cbn in Hc' |- *. rewrite Hc'. cbn. rewrite Hr'. eexists. reflexivity. }
    destruct Hi as [its' ->]. eexists. reflexivity.
Qed.

Lemma tree_mapM_throw {A B} (F : A -> outcome B) (E : script_exn) (t : pytree A) :
  Forall (fun a => F a = Throw E) (tree_leaves t) ->
  tree_leaves t <> [] ->
  tree_mapM F t = Throw E.
Proof.
  induction t as [a| |items IH] using pytree_ind'; intros HF Hne; cbn in *.
  - inversion HF as [|? ? Ha _]; subst. rewrite Ha. reflexivity.
  - contradiction.
  - assert (Hz : items_mapM (tree_mapM F) items = Throw E).
    { induction IH as [|[k c] r Hc _ IHr]; [contradiction|]. cbn in *.
      apply Forall_app in HF as [HFc HFr].
      destruct (decide (tree_leaves c = [])) as [Hlc|Hlc].
      - destruct (tree_mapM_leafless_done F c Hlc) as [c' ->]. cbn.
        rewrite Hlc in Hne. rewrite (IHr HFr Hne). reflexivity.
      - cbn in Hc. rewrite (Hc HFc Hlc). reflexivity. }
    rewrite Hz. reflexivity.
Qed.

Lemma items_mapM_get_outcome {X Y} (G : X -> outcome Y) (k : string) :
  forall (its : list (string * X)) (its' : list (string * Y)) (c : X),
  items_mapM G its = Done its' -> dict_get k its = Some c ->
  exists c', G c = Done c' /\ dict_get k its' = Some c'.
Proof.
  induction its as [|[k1 x] r IH]; intros its' c Hrun Hget; cbn in *; [discriminate|].
  destruct (G x) as [y|] eqn:Hy; [|discriminate]. cbn in Hrun.
  destruct (items_mapM G r) as [ys|] eqn:Hys; [|discriminate]. cbn in Hrun.
  injection Hrun as <-. cbn.
  destruct (decide (k = k1)) as [->|Hne].
  - injection Hget as <-. eauto.
  - eapply IH; [reflexivity|exact Hget].
Qed.

Lemma tree_mapM_get_outcome {A B} (F : A -> outcome B) (path : list string) :
  forall (t : pytree A) (r : pytree B) (x : A),
  tree_mapM F t = Done r -> tree_get path t = Some (Leaf x) ->
  exists c, F x = Done c /\ tree_get path r = Some (Leaf c).
Proof.
  induction path as [|k path IH]; intros t r x Hrun Hget; cbn in Hget.
  - injection Hget as ->. cbn in Hrun.
    destruct (F x) as [c|] eqn:Hc; [|discriminate]. injection Hrun as <-. eauto.
  - destruct t as [?| |its]; try discriminate. cbn in Hrun.
    destruct (items_mapM (tree_mapM F) its) as [its'|] eqn:Hits; [|discriminate].
    injection Hrun as <-.
    destruct (dict_get k its) as [c|] eqn:Hc; [|discriminate].
    destruct (items_mapM_get_outcome _ k its its' c Hits Hc) as (c' & Hc' & Hget').
    destruct (IH c c' x Hc' Hget) as (y & Hy & Hgy).
    exists y. split; [exact Hy|]. cbn. rewrite Hget'. exact Hgy.
Qed.

(** X10.  When [prepare_tf_data] returns, every array of the batch is
    there at its path with the same elements in the same order; the new
    shape has the same number of elements, starts with the number of local
    devices, and ends with the dimensions after the first of the old
    one. *)
Theorem prepare_tf_data_keeps_elements (n : nat) (xs ys : pytree ndarray) :
  prepare_tf_data n xs = Done ys ->
  forall path x,
    tree_get path xs = Some (Leaf x) ->
    exists y,
      tree_get path ys = Some (Leaf y) /\
      data y = data x /\
      numel (shape y) = numel (shape x) /\
      hd 0%nat (shape y) = n /\
      tail (tail (shape y)) = tail (shape x) /\
      (wf_array x -> wf_array y).
Proof.
  intros Hrun path x Hx. unfold prepare_tf_data in Hrun.
  destruct (tree_mapM_get_outcome _ path _ _ _ Hrun Hx) as (y & Hy & Hget).
  exists y. split; [exact Hget|].
  unfold _prepare in Hy.
  destruct (prepare_shape n (shape x)) as [s'|] eqn:Hs; [|discriminate].
  injection Hy as <-. cbn [data shape].
  destruct (prepare_shape_numel _ _ _ Hs) as (Hn & Hh & Ht).
  split; [reflexivity|]. split; [exact Hn|]. split; [exact Hh|]. split; [exact Ht|].
  unfold wf_array. cbn [data shape]. intros Hw. rewrite Hw, Hn. reflexivity.
Qed.

Lemma prepare_tf_data_keeps_elements_witness :
  exists y,
    tree_get ["image"]
      (Dict [("image", Leaf (NdArray [2; 2; 1] [1; 2; 3; 4]%float))])
    = Some (Leaf y) /\
    data y = [1; 2; 3; 4]%float /\ hd 0%nat (shape y) = 2%nat.
Proof.
  destruct (prepare_tf_data_keeps_elements 2
              (Dict [("image", Leaf (NdArray [4; 1] [1; 2; 3; 4]%float))])
              (Dict [("image", Leaf (NdArray [2; 2; 1] [1; 2; 3; 4]%float))])
              eq_refl ["image"] (NdArray [4; 1] [1; 2; 3; 4]%float) eq_refl)
    as (y & Hget & Hdata & _ & Hhd & _).
  exists y. split; [exact Hget|]. split; [exact Hdata|exact Hhd].
Defined.

(** X11.  On a batch whose arrays all have [b] as first dimension (and no
    empty dimension after it), [prepare_tf_data] succeeds when the number
    of local devices divides [b], each array getting the shape
    [(n, b / n) + x.shape[1:]], and raises the error of [reshape] when it
    does not, unless the batch holds no array. *)
Theorem prepare_tf_data_shards (n b : nat) (xs : pytree ndarray) :
  (0 < n)%nat ->
  Forall (fun x => exists rest, shape x = b :: rest /\ (0 < numel rest)%nat)
    (tree_leaves xs) ->
  (b mod n = 0%nat ->
   prepare_tf_data n xs
   = Done (tree_map
             (fun x => NdArray (n :: (b / n)%nat :: tail (shape x)) (data x)) xs)) /\
  (b mod n <> 0%nat -> tree_leaves xs <> [] ->
   prepare_tf_data n xs = Throw ReshapeError).
Proof.
  intros Hn Hall. unfold prepare_tf_data. split.
  - intros Hdiv. apply tree_mapM_done_map.
    eapply Forall_impl; [exact Hall|]. cbn. intros x (rest & Hs & HR).
    unfold _prepare. rewrite Hs, prepare_shape_batch by assumption.
    rewrite (proj2 (Nat.eqb_eq _ _) Hdiv). reflexivity.
  - intros Hdiv Hne. apply tree_mapM_throw; [|exact Hne].
    eapply Forall_impl; [exact Hall|]. cbn. intros x (rest & Hs & HR).
    unfold _prepare. rewrite Hs, prepare_shape_batch by assumption.
    rewrite (proj2 (Nat.eqb_neq _ _) Hdiv). reflexivity.
Qed.

Lemma prepare_tf_data_shards_witness :
  prepare_tf_data 2 (Dict [("image", Leaf (NdArray [4; 1] [1; 2; 3; 4]%float));
                           ("label", Leaf (NdArray [4] [0; 1; 1; 0]%float))])
  = Done (Dict [("image", Leaf (NdArray [2; 2; 1] [1; 2; 3; 4]%float));
                ("label", Leaf (NdArray [2; 2] [0; 1; 1; 0]%float))]) /\
  prepare_tf_data 3 (Dict [("image", Leaf (NdArray [4; 1] [1; 2; 3; 4]%float));
                           ("label", Leaf (NdArray [4] [0; 1; 1; 0]%float))])
  = Throw ReshapeError.
Proof.
  split.
  - apply (prepare_tf_data_shards 2 4
             (Dict [("image", Leaf (NdArray [4; 1] [1; 2; 3; 4]%float));
                    ("label", Leaf (NdArray [4] [0; 1; 1; 0]%float))])).
    + lia.
    + repeat constructor; eexists; (split; [reflexivity|cbn; lia]).
    + reflexivity.
  - apply (prepare_tf_data_shards 3 4
             (Dict [("image", Leaf (NdArray [4; 1] [1; 2; 3; 4]%float));
                    ("label", Leaf (NdArray [4] [0; 1; 1; 0]%float))])).
    + lia.
    + repeat constructor; eexists; (split; [reflexivity|cbn; lia]).
    + cbn. lia.
    + discriminate.
Defined.

(** ** The set-up of [train_and_evaluate] *)





Lemma create_train_state_throws (platform : string) (DynamicScale_new : DynamicScale)
    (create_optim : string -> pytree ndarray -> list (string * float) -> result Optimizer)
    (config : Config) (params model_state : pytree ndarray) :
  exists e,
    create_train_state platform DynamicScale_new create_optim config params model_state
    = Raise e.
Proof.
  unfold create_train_state. destruct (create_optim _ _ _); cbn; eauto.
Qed.

Lemma create_train_state_of_throws (platform : string)
    (DynamicScale_new : DynamicScale)
    (create_optim : string -> pytree ndarray -> list (string * float) -> result Optimizer)
    (config : ConfigDict.t) (params model_state : pytree ndarray) :
  exists e,
    create_train_state_of platform DynamicScale_new create_optim config
      params model_state = Throw e.
Proof.
  unfold create_train_state_of.
  destruct (ConfigDict.half_precision config) as [h|]; cbn; [|eauto].
  destruct (ConfigDict.opt config) as [o|]; cbn; [|eauto].
  destruct (ConfigDict.ema_decay config) as [d|].
  - destruct (create_train_state_throws platform DynamicScale_new create_optim
                (train_entries config h o d) params model_state) as [e ->].
    cbn. eauto.
  - destruct (create_optim _ _ _); cbn; eauto.
Qed.

Lemma same_throw_bind {X Y} (m : outcome X) (f1 f2 : X -> outcome Y) :
  (forall x, same_throw (f1 x) (f2 x)) -> same_throw (m ≫= f1) (m ≫= f2).
Proof.
  intros H. destruct m as [x|e]; cbn; [apply H|].
  split; [reflexivity|eauto].
Qed.

Lemma same_throw_stop {X Y} (m : outcome X) (f1 f2 : X -> outcome Y) :
  (exists e, m = Throw e) -> same_throw (m ≫= f1) (m ≫= f2).
Proof. intros [e ->]. split; [reflexivity|]. cbn. eauto. Qed.

(** Reading entries of a configuration given by its entries. *)
Ltac entries_step :=
  cbn [attr mbind outcome_bind int_entry is_set andb negb
       ConfigDict.model ConfigDict.image_size ConfigDict.batch_size
       ConfigDict.eval_batch_size ConfigDict.lr ConfigDict.ema_decay ConfigDict.opt
       ConfigDict.num_epochs ConfigDict.cache ConfigDict.half_precision
       ConfigDict.drop_rate ConfigDict.drop_path_rate ConfigDict.num_train_steps
       ConfigDict.steps_per_eval ConfigDict.dataset ConfigDict.data_dir].

Section TrainAndEvaluateProperties.
Variables device_count host_count : positive.
Variable platform : string.
Variables Rng Model Dataset Iter : Type.
Variable PRNGKey : Z -> Rng.
Variable split : Rng -> Rng * Rng.
Variable create_model :
  string -> dtype -> float -> float -> Rng -> outcome (Model * pytree ndarray).
Variable default_input_size : Model -> outcome Z.
Variable tfds_builder : string -> string -> outcome Dataset.
Variable num_examples : Dataset -> string -> outcome Z.
Variable create_input_iter :
  Dataset -> Z -> bool -> Z -> bool -> bool -> outcome Iter.
Variable float_of_int : Z -> float.
Variable DynamicScale_new : DynamicScale.
Variable create_optim :
  string -> pytree ndarray -> list (string * float) -> result Optimizer.

(** X13.  [train_and_evaluate] never reaches the code after
    [create_train_state] (restoring, the training loop, evaluation and
    checkpoints): whatever that code is, the call ends in the same
    exception. *)
Theorem train_and_evaluate_never_trains
    (loop1 loop2 : Setup Rng Model Iter -> outcome unit)
    (config : ConfigDict.t) (resume : string) :
  train_and_evaluate device_count host_count platform Rng Model Dataset Iter
    PRNGKey split create_model default_input_size tfds_builder num_examples
    create_input_iter float_of_int DynamicScale_new create_optim loop1 config resume
  = train_and_evaluate device_count host_count platform Rng Model Dataset Iter
      PRNGKey split create_model default_input_size tfds_builder num_examples
      create_input_iter float_of_int DynamicScale_new create_optim loop2 config resume /\
  exists e,
    train_and_evaluate device_count host_count platform Rng Model Dataset Iter
      PRNGKey split create_model default_input_size tfds_builder num_examples
      create_input_iter float_of_int DynamicScale_new create_optim loop1 config resume
    = Throw e.
Proof.
  change (same_throw
            (train_and_evaluate device_count host_count platform Rng Model Dataset Iter
               PRNGKey split create_model default_input_size tfds_builder num_examples
               create_input_iter float_of_int DynamicScale_new create_optim loop1 config resume)
            (train_and_evaluate device_count host_count platform Rng Model Dataset Iter
               PRNGKey split create_model default_input_size tfds_builder num_examples
               create_input_iter float_of_int DynamicScale_new create_optim loop2 config resume)).
  unfold train_and_evaluate.
  apply same_throw_bind. intros [[local_batch_size config'] local_eval_batch_size].
  apply same_throw_bind. intros half_prec.
  destruct (split (PRNGKey 42)) as [rng model_create_rng].
  apply same_throw_bind. intros model_name.
  apply same_throw_bind. intros drop_rate.
  apply same_throw_bind. intros drop_path_rate.
  apply same_throw_bind. intros [model variables].
  apply same_throw_bind. intros [model_state params].
  apply same_throw_bind. intros image_size0.
  apply same_throw_bind. intros image_size.
  apply same_throw_bind. intros dataset.
  apply same_throw_bind. intros data_dir.
  apply same_throw_bind. intros dataset_builder.
  apply same_throw_bind. intros cache.
  apply same_throw_bind. intros train_iter.
  apply same_throw_bind. intros cache'.
  apply same_throw_bind. intros eval_iter.
  apply same_throw_bind. intros train_examples.
  apply same_throw_bind. intros batch_size.
  apply same_throw_bind. intros steps_per_epoch.
  apply same_throw_bind. intros num_train_steps.
  apply same_throw_bind. intros num_steps.
  apply same_throw_bind. intros steps_per_eval0.
  apply same_throw_bind. intros steps_per_eval.
  apply same_throw_bind. intros lr.
  apply same_throw_stop.
  apply create_train_state_of_throws.
Qed.

(** X14.  When model creation, the dataset and the optimizer raise
    nothing, [train_and_evaluate] ends in one of these exceptions, in this
    order: an [AttributeError] when [batch_size] is not set; the
    [ValueError] on a batch size not divisible by the number of devices;
    an [AttributeError] when [eval_batch_size] is not set; the
    [ValueError] on the evaluation batch size; an [AttributeError] when an
    entry read up to line 254 is not set; a [ZeroDivisionError] for the
    batch size [0], which passes both checks; an [AttributeError] when an
    entry read after that is not set; and otherwise the [TypeError] of
    [EmaState.create]. *)
Theorem train_and_evaluate_outcome (loop : Setup Rng Model Iter -> outcome unit)
    (config : ConfigDict.t) (resume : string) :
  (forall name dt dr dpr rng, exists m items p,
      create_model name dt dr dpr rng = Done (m, Dict items) /\
      dict_get "params" items = Some p) ->
  (forall m, exists size, default_input_size m = Done size) ->
  (forall name dir, exists ds, tfds_builder name dir = Done ds) ->
  (forall ds name, exists n, num_examples ds name = Done n) ->
  (forall ds b t size h c, exists it, create_input_iter ds b t size h c = Done it) ->
  (forall name params kwargs, exists o, create_optim name params kwargs = Ok o) ->
  train_and_evaluate device_count host_count platform Rng Model Dataset Iter
    PRNGKey split create_model default_input_size tfds_builder num_examples
    create_input_iter float_of_int DynamicScale_new create_optim loop config resume
  = match ConfigDict.batch_size config with
    | None => Throw (Inner NoSuchAttribute)
    | Some batch_size =>
        if (batch_size mod Z.pos device_count >? 0)%Z then Throw BatchSizeError
        else
          match ConfigDict.eval_batch_size config with
          | None => Throw (Inner NoSuchAttribute)
          | Some eval_batch_size =>
              if (int_or eval_batch_size batch_size mod Z.pos device_count >? 0)%Z
              then Throw EvalBatchSizeError
              else if negb (model_entries_set config) then Throw (Inner NoSuchAttribute)
              else if (batch_size =? 0)%Z then Throw ZeroDivisionError
              else if negb (schedule_entries_set config)
              then Throw (Inner NoSuchAttribute)
              else Throw (Inner ArityError)
          end
    end.
Proof.
  intros Hmodel Hsize Hbuilder Hexamples Hiter Hoptim.
  unfold train_and_evaluate, batch_sizes, model_entries_set, schedule_entries_set,
    create_train_state_of, set_eval_batch_size.
  destruct config as [model image_size batch_size eval_batch_size lr weight_decay
    ema_decay opt opt_eps opt_beta1 opt_beta2 opt_weight_decay lr_schedule
    lr_decay_rate lr_decay_epochs lr_warmup_epochs lr_minimum num_epochs cache
    half_precision drop_rate drop_path_rate num_train_steps steps_per_eval
    dataset data_dir].
  entries_step.
  destruct batch_size as [B|]; [|reflexivity]. entries_step.
  destruct (B mod Z.pos device_count >? 0)%Z; [reflexivity|].
  destruct eval_batch_size as [e|]; [|reflexivity]. entries_step.
  destruct (int_or e B mod Z.pos device_count >? 0)%Z; [reflexivity|].
  entries_step.
  destruct half_precision as [half_prec|]; [|reflexivity]. entries_step.
  destruct (split (PRNGKey 42)) as [rng model_create_rng].
  destruct model as [model_name|]; [|reflexivity]. entries_step.
  destruct drop_rate as [drop_rate|]; [|reflexivity]. entries_step.
  destruct drop_path_rate as [drop_path_rate|]; [|reflexivity]. entries_step.
  edestruct Hmodel as (m & items & p & -> & Hp).
  cbn [mbind outcome_bind frozen_pop]. rewrite Hp. entries_step.
  destruct image_size as [image_size|]; [|reflexivity]. entries_step.
  assert (Himg : exists size,
             (if (image_size =? 0)%Z then default_input_size m
              else Done image_size) = Done size).
  { destruct (image_size =? 0)%Z; [apply Hsize|eauto]. }
  destruct Himg as [size ->]. entries_step.
  destruct dataset as [dataset|]; [|reflexivity]. entries_step.
  destruct data_dir as [data_dir|]; [|reflexivity]. entries_step.
  destruct (Hbuilder dataset data_dir) as (ds & ->). entries_step.
  destruct cache as [cache|]; [|reflexivity]. entries_step.
  edestruct Hiter as (it1 & ->). entries_step.
  edestruct Hiter as (it2 & ->). entries_step.
  destruct (Hexamples ds "train") as (n & ->). entries_step.
  unfold py_floordiv.
  destruct (B =? 0)%Z eqn:Hb; [reflexivity|]. entries_step.
  assert (Hev : (int_or e B =? 0)%Z = false).
  { apply Z.eqb_neq in Hb. apply Z.eqb_neq. unfold int_or.
    destruct e as [v|]; [|exact Hb].
    destruct (v =? 0)%Z eqn:Hv; [exact Hb|]. apply Z.eqb_neq in Hv. exact Hv. }
  rewrite Hev.
  destruct (Hexamples ds "validation") as (nv & ->).
  destruct num_train_steps as [num_train_steps|]; [|reflexivity]. entries_step.
  destruct (num_train_steps =? -1)%Z.
  - destruct num_epochs as [num_epochs|]; [|reflexivity]. entries_step.
    destruct steps_per_eval as [steps_per_eval|]; [|reflexivity]. entries_step.
    destruct (steps_per_eval =? -1)%Z; entries_step.
    all: destruct lr as [lr|]; [|reflexivity]; entries_step.
    all: destruct opt as [opt|]; [|reflexivity]; entries_step.
    all: unfold create_train_state.
    all: destruct ema_decay as [ema_decay|]; edestruct Hoptim as (o & ->);
      reflexivity.
  - entries_step.
    destruct steps_per_eval as [steps_per_eval|]; [|reflexivity]. entries_step.
    destruct (steps_per_eval =? -1)%Z; entries_step.
    all: destruct lr as [lr|]; [|reflexivity]; entries_step.
    all: destruct opt as [opt|]; [|reflexivity]; entries_step.
    all: unfold create_train_state.
    all: destruct ema_decay as [ema_decay|]; edestruct Hoptim as (o & ->);
      reflexivity.
Qed.

(** X16.  With the configuration of either file of [train_configs] as it
    is, [train_and_evaluate] stops before the model is created, whatever
    the devices and the libraries do: at the check of the batch size when
    the number of devices does not divide it, and otherwise at
    [config.eval_batch_size], an entry that neither file sets. *)
Theorem shipped_configs_lack_entries
    (loop : Setup Rng Model Iter -> outcome unit) (resume : string) :
  train_and_evaluate device_count host_count platform Rng Model Dataset Iter
    PRNGKey split create_model default_input_size tfds_builder num_examples
    create_input_iter float_of_int DynamicScale_new create_optim loop
    default.get_config resume
  = (if (500 mod Z.pos device_count >? 0)%Z then Throw BatchSizeError
     else Throw (Inner NoSuchAttribute)) /\
  train_and_evaluate device_count host_count platform Rng Model Dataset Iter
    PRNGKey split create_model default_input_size tfds_builder num_examples
    create_input_iter float_of_int DynamicScale_new create_optim loop
    pt_efficientnet_b3_tpu_x8.get_config resume
  = (if (2000 mod Z.pos device_count >? 0)%Z then Throw BatchSizeError
     else Throw (Inner NoSuchAttribute)).
Proof.
  split.
  - unfold train_and_evaluate, batch_sizes.
    change (ConfigDict.batch_size default.get_config) with (Some 500%Z).
    cbn [attr mbind outcome_bind].
    destruct (500 mod Z.pos device_count >? 0)%Z; reflexivity.
  - unfold train_and_evaluate, batch_sizes.
    change (ConfigDict.batch_size pt_efficientnet_b3_tpu_x8.get_config)
      with (Some 2000%Z).
    cbn [attr mbind outcome_bind].
    destruct (2000 mod Z.pos device_count >? 0)%Z; reflexivity.
Qed.
End TrainAndEvaluateProperties.

Lemma train_and_evaluate_outcome_witness :
  train_and_evaluate 8 1 "tpu" unit unit unit unit
    (fun _ => tt) (fun _ => (tt, tt))
    (fun _ _ _ _ _ =>
       Done (tt, Dict [("batch_stats", Dict []);
                       ("params", Dict [("w", Leaf (scalar 2%float))])]))
    (fun _ => Done 300%Z) (fun _ _ => Done tt)
    (fun _ name => Done (if decide (name = "train") then 1281167 else 50000)%Z)
    (fun _ _ _ _ _ _ => Done tt) (fun _ => 1%float) (mkDynamicScale 65536%float)
    (fun _ params _ => Ok (mkOptimizer params PyNone)) (fun _ => Done tt)
    pt_efficientnet_b3_tpu_x8.get_config ""
  = Throw (Inner NoSuchAttribute) /\
  train_and_evaluate 8 1 "tpu" unit unit unit unit
    (fun _ => tt) (fun _ => (tt, tt))
    (fun _ _ _ _ _ =>
       Done (tt, Dict [("batch_stats", Dict []);
                       ("params", Dict [("w", Leaf (scalar 2%float))])]))
    (fun _ => Done 300%Z) (fun _ _ => Done tt)
    (fun _ name => Done (if decide (name = "train") then 1281167 else 50000)%Z)
    (fun _ _ _ _ _ _ => Done tt) (fun _ => 1%float) (mkDynamicScale 65536%float)
    (fun _ params _ => Ok (mkOptimizer params PyNone)) (fun _ => Done tt)
    default.get_config ""
  = Throw BatchSizeError /\
  (exists config,
     ConfigDict.batch_size config = Some 2000%Z /\
     ConfigDict.eval_batch_size config = Some None /\
     train_and_evaluate 8 1 "tpu" unit unit unit unit
         (fun _ => tt) (fun _ => (tt, tt))
         (fun _ _ _ _ _ =>
            Done (tt, Dict [("batch_stats", Dict []);
                            ("params", Dict [("w", Leaf (scalar 2%float))])]))
         (fun _ => Done 300%Z) (fun _ _ => Done tt)
         (fun _ name => Done (if decide (name = "train") then 1281167 else 50000)%Z)
         (fun _ _ _ _ _ _ => Done tt) (fun _ => 1%float) (mkDynamicScale 65536%float)
         (fun _ params _ => Ok (mkOptimizer params PyNone)) (fun _ => Done tt)
       config ""
     = Throw (Inner ArityError)) /\
  (exists config,
     ConfigDict.batch_size config = Some 0%Z /\
     train_and_evaluate 8 1 "tpu" unit unit unit unit
         (fun _ => tt) (fun _ => (tt, tt))
         (fun _ _ _ _ _ =>
            Done (tt, Dict [("batch_stats", Dict []);
                            ("params", Dict [("w", Leaf (scalar 2%float))])]))
         (fun _ => Done 300%Z) (fun _ _ => Done tt)
         (fun _ name => Done (if decide (name = "train") then 1281167 else 50000)%Z)
         (fun _ _ _ _ _ _ => Done tt) (fun _ => 1%float) (mkDynamicScale 65536%float)
         (fun _ params _ => Ok (mkOptimizer params PyNone)) (fun _ => Done tt)
       config ""
     = Throw ZeroDivisionError).
Proof.
  split; [|split; [|split]].
  - apply (train_and_evaluate_outcome 8 1 "tpu" unit unit unit unit
               (fun _ => tt) (fun _ => (tt, tt))
               (fun _ _ _ _ _ =>
                  Done (tt, Dict [("batch_stats", Dict []);
                                  ("params", Dict [("w", Leaf (scalar 2%float))])]))
               (fun _ => Done 300%Z) (fun _ _ => Done tt)
               (fun _ name => Done (if decide (name = "train") then 1281167 else 50000)%Z)
               (fun _ _ _ _ _ _ => Done tt) (fun _ => 1%float) (mkDynamicScale 65536%float)
               (fun _ params _ => Ok (mkOptimizer params PyNone)) (fun _ => Done tt)
             pt_efficientnet_b3_tpu_x8.get_config "");
      intros; repeat eexists; reflexivity.
  - apply (train_and_evaluate_outcome 8 1 "tpu" unit unit unit unit
               (fun _ => tt) (fun _ => (tt, tt))
               (fun _ _ _ _ _ =>
                  Done (tt, Dict [("batch_stats", Dict []);
                                  ("params", Dict [("w", Leaf (scalar 2%float))])]))
               (fun _ => Done 300%Z) (fun _ _ => Done tt)
               (fun _ name => Done (if decide (name = "train") then 1281167 else 50000)%Z)
               (fun _ _ _ _ _ _ => Done tt) (fun _ => 1%float) (mkDynamicScale 65536%float)
               (fun _ params _ => Ok (mkOptimizer params PyNone)) (fun _ => Done tt)
             default.get_config "");
      intros; repeat eexists; reflexivity.
  - exists {|
      ConfigDict.model := Some "pt_efficientnet_b3";
      ConfigDict.image_size := Some 0%Z;
      ConfigDict.batch_size := Some 2000%Z;
      ConfigDict.eval_batch_size := Some None;
      ConfigDict.lr := Some 0.016%float;
      ConfigDict.weight_decay := Some 1e-5%float;
      ConfigDict.ema_decay := Some 0.99993%float;
      ConfigDict.opt := Some "rmsproptf";
      ConfigDict.opt_eps := Some 0.001%float;
      ConfigDict.opt_beta1 := Some 0.9%float;
      ConfigDict.opt_beta2 := Some 0.9%float;
      ConfigDict.opt_weight_decay := Some 0%float;
      ConfigDict.lr_schedule := Some "step";
      ConfigDict.lr_decay_rate := Some 0.97%float;
      ConfigDict.lr_decay_epochs := Some 2.4%float;
      ConfigDict.lr_warmup_epochs := Some 5%float;
      ConfigDict.lr_minimum := Some 1e-6%float;
      ConfigDict.num_epochs := Some 550%Z;
      ConfigDict.cache := Some false;
      ConfigDict.half_precision := Some true;
      ConfigDict.drop_rate := Some 0.3%float;
      ConfigDict.drop_path_rate := Some 0.1%float;
      ConfigDict.num_train_steps := Some (-1)%Z;
      ConfigDict.steps_per_eval := Some (-1)%Z;
      ConfigDict.dataset := Some "imagenet2012:5.0.0";
      ConfigDict.data_dir := Some "/data"
    |}.
    split; [reflexivity|]. split; [reflexivity|].
    apply (train_and_evaluate_outcome 8 1 "tpu" unit unit unit unit
               (fun _ => tt) (fun _ => (tt, tt))
               (fun _ _ _ _ _ =>
                  Done (tt, Dict [("batch_stats", Dict []);
                                  ("params", Dict [("w", Leaf (scalar 2%float))])]))
               (fun _ => Done 300%Z) (fun _ _ => Done tt)
               (fun _ name => Done (if decide (name = "train") then 1281167 else 50000)%Z)
               (fun _ _ _ _ _ _ => Done tt) (fun _ => 1%float) (mkDynamicScale 65536%float)
               (fun _ params _ => Ok (mkOptimizer params PyNone)) (fun _ => Done tt));
      intros; repeat eexists; reflexivity.
  - exists {|
      ConfigDict.model := Some "pt_efficientnet_b3";
      ConfigDict.image_size := Some 0%Z;
      ConfigDict.batch_size := Some 0%Z;
      ConfigDict.eval_batch_size := Some None;
      ConfigDict.lr := Some 0.016%float;
      ConfigDict.weight_decay := Some 1e-5%float;
      ConfigDict.ema_decay := Some 0.99993%float;
      ConfigDict.opt := Some "rmsproptf";
      ConfigDict.opt_eps := Some 0.001%float;
      ConfigDict.opt_beta1 := Some 0.9%float;
      ConfigDict.opt_beta2 := Some 0.9%float;
      ConfigDict.opt_weight_decay := Some 0%float;
      ConfigDict.lr_schedule := Some "step";
      ConfigDict.lr_decay_rate := Some 0.97%float;
      ConfigDict.lr_decay_epochs := Some 2.4%float;
      ConfigDict.lr_warmup_epochs := Some 5%float;
      ConfigDict.lr_minimum := Some 1e-6%float;
      ConfigDict.num_epochs := Some 550%Z;
      ConfigDict.cache := Some false;
      ConfigDict.half_precision := Some true;
      ConfigDict.drop_rate := Some 0.3%float;
      ConfigDict.drop_path_rate := Some 0.1%float;
      ConfigDict.num_train_steps := Some (-1)%Z;
      ConfigDict.steps_per_eval := Some (-1)%Z;
      ConfigDict.dataset := Some "imagenet2012:5.0.0";
      ConfigDict.data_dir := Some "/data"
    |}.
    split; [reflexivity|].
    apply (train_and_evaluate_outcome 8 1 "tpu" unit unit unit unit
               (fun _ => tt) (fun _ => (tt, tt))
               (fun _ _ _ _ _ =>
                  Done (tt, Dict [("batch_stats", Dict []);
                                  ("params", Dict [("w", Leaf (scalar 2%float))])]))
               (fun _ => Done 300%Z) (fun _ _ => Done tt)
               (fun _ name => Done (if decide (name = "train") then 1281167 else 50000)%Z)
               (fun _ _ _ _ _ _ => Done tt) (fun _ => 1%float) (mkDynamicScale 65536%float)
               (fun _ params _ => Ok (mkOptimizer params PyNone)) (fun _ => Done tt));
      intros; repeat eexists; reflexivity.
Defined.
